(** * MyFitnessPal MCP server: a shallow embedding and its verified properties

    The development follows the source modules of the repository:
    [api_client.py] (cookie loader, account client, ranged fetch),
    [utils.py] (the text response), [server.py] (date parser, six report
    tools, failure boundary) and [export_cookies.py] (the export of the
    browser's cookies to the [.env] file).  It has three parts: the
    program, the vocabulary of the statements, and the statements with
    their proofs.

    Modelling conventions.
    - A Python [str] is a [string]; its characters are code points 0..255
      (a literal of the source outside that range is kept as its bytes).
      The date parser is modelled on every text as well, a text being a
      list of code points, since decimal digits of other scripts are
      accepted by it; on code points 0..255 the two models agree.
    - A Python number (an [int] or a binary64 [float]) is given by its
      exact value, a rational [Q]; the format specs [.0f] and [.1f] round
      the exact value half to even, as CPython's correctly rounded
      formatter does on the value it is given.  True division is partial:
      a zero divisor raises [ZeroDivisionError].  The percentages
      ([value / goal * 100]) and the averages and conversions of the range
      summary are computed in binary64, each operation rounding to the
      nearest double as in the code; sums are exact, as they are for
      [int]s.  The water conversions of the daily reports divide exactly,
      and the figures of the specification are checked in binary64 as
      well.
    - A [dict] that is only looked up is a [gmap string _]; a [dict] that
      is iterated (the decoded cookie mapping, the cookie jar) is an
      association list in insertion order, its keys distinct.
    - An exception is its class together with the text [str(e)] gives; only
      subclasses of [Exception] are modelled.
    - [datetime.date], [datetime.strptime] and [http.cookiejar] behave as
      in CPython; the collaborators that are not part of the repository
      ([json.loads], the [myfitnesspal] library) are fields of a record
      [Collab], and the statements hold for every value of it.
    - The process state ([World]) holds today's date, the environment
      variable, the global client, standard output and the log of the
      requests sent to the remote service. *)

From Stdlib Require Import ZArith QArith Qabs Qround String Ascii List Bool Lia.
From Stdlib Require Import DecimalString Sorted Floats.SpecFloat.
From stdpp Require Import base option gmap strings list.
From Equations Require Import Equations.

Import ListNotations.
Local Open Scope string_scope.
Local Open Scope list_scope.
Local Open Scope Z_scope.

(** ** Python string helpers *)

Module PyStr.

(** [str(n)] for an [int]. *)
Definition of_Z (z : Z) : string := NilZero.string_of_int (Z.to_int z).

Definition of_nat (n : nat) : string := of_Z (Z.of_nat n).

Fixpoint repeat_char (c : ascii) (n : nat) : string :=
  match n with
  | O => EmptyString
  | S k => String c (repeat_char c k)
  end.

(** [s.rjust(width, '0')] *)
Definition zfill (width : nat) (s : string) : string :=
  repeat_char "0"%char (width - String.length s) +:+ s.

(** [sep.join(parts)] *)
Fixpoint join (sep : string) (parts : list string) : string :=
  match parts with
  | [] => ""
  | [p] => p
  | p :: ps => p +:+ sep +:+ join sep ps
  end.

Fixpoint concat_all (parts : list string) : string :=
  match parts with
  | [] => ""
  | p :: ps => p +:+ concat_all ps
  end.

(** [p] is a prefix of [s]: [s.startswith(p)] *)
Fixpoint startswith (p s : string) : bool :=
  match p, s with
  | EmptyString, _ => true
  | String a p', String b s' => if Ascii.eqb a b then startswith p' s' else false
  | String _ _, EmptyString => false
  end.

(** [needle in s] *)
Fixpoint contains (needle s : string) : bool :=
  startswith needle s ||
  match s with
  | EmptyString => false
  | String _ s' => contains needle s'
  end.

End PyStr.

(** ** Python numbers *)

Module PyNum.

Local Open Scope Q_scope.

(** Round to the nearest integer, ties to the even neighbour. *)
Definition round_half_even (q : Q) : Z :=
  let n := Qnum q in
  let d := Zpos (Qden q) in
  let fl := (n / d)%Z in
  let r2 := (2 * (n mod d))%Z in
  if (r2 <? d)%Z then fl
  else if (d <? r2)%Z then (fl + 1)%Z
  else if Z.even fl then fl else (fl + 1)%Z.

Definition Qltb (a b : Q) : bool := negb (Qle_bool b a).

Definition is_zero (q : Q) : bool := (Qnum q =? 0)%Z.

(** [format(q, '.{prec}f')]: sign, integer digits and [prec] decimals. *)
Definition format_f (prec : nat) (q : Q) : string :=
  let scale := (10 ^ Z.of_nat prec)%Z in
  let m := round_half_even (Qabs q * inject_Z scale) in
  let sign := if Qltb q 0 then "-" else "" in
  let ip := PyStr.of_Z (m / scale)%Z in
  match prec with
  | O => sign +:+ ip
  | _ => sign +:+ ip +:+ "." +:+ PyStr.zfill prec (PyStr.of_Z (m mod scale)%Z)
  end.

(** [sum(xs)] *)
Definition sum (xs : list Q) : Q := fold_left Qplus xs 0.

End PyNum.

(** ** Binary64 arithmetic

    The IEEE double operations a CPython [float] performs, from the
    Standard Library's specification of floating-point numbers: rounding
    is to nearest, ties to even.  The percentages of the reports and the
    figures of the range summary are computed with them, as the code
    computes them; the water conversions of the daily reports are checked
    against them on the figures of the specification. *)

Module Binary64.

(** [float(z)], rounded to nearest even *)
Definition of_Z (z : Z) : spec_float := binary_normalize 53 1024 z 0 false.

(** [x / y] *)
Definition div (x y : spec_float) : spec_float := SFdiv 53 1024 x y.

(** The value of a decimal literal [n / 10^k]: the double nearest to it. *)
Definition literal (n : Z) (k : nat) : spec_float := div (of_Z n) (of_Z (10 ^ Z.of_nat k)).

(** The rational a finite double stands for. *)
Definition to_Q (x : spec_float) : Q :=
  match x with
  | S754_finite s m e =>
      let v := if s then Z.neg m else Z.pos m in
      if 0 <=? e then inject_Z (v * 2 ^ e) else Qmake v (Pos.pow 2 (Z.to_pos (- e)))
  | _ => 0%Q
  end.

(** [x * y] *)
Definition mul (x y : spec_float) : spec_float := SFmul 53 1024 x y.

(** The double nearest to a rational: the quotient of numerator and
    denominator, rounded once.  It is what [float(n)] gives for an [int]
    [n], what [n / d] gives for two [int]s, and the double itself when the
    rational is the value of one. *)
Definition of_Q (q : Q) : spec_float :=
  match Qnum q with
  | Z0 => S754_zero false
  | Zpos n =>
      let '(m, e, l) := SFdiv_core_binary 53 1024 (Zpos n) 0 (Zpos (Qden q)) 0 in
      binary_round_aux 53 1024 false m e l
  | Zneg n =>
      let '(m, e, l) := SFdiv_core_binary 53 1024 (Zpos n) 0 (Zpos (Qden q)) 0 in
      binary_round_aux 53 1024 true m e l
  end.

(** [format(x, '.{prec}f')] for a [float] *)
Definition format_f (prec : nat) (x : spec_float) : string :=
  match x with
  | S754_nan => "nan"
  | S754_infinity s => if s then "-inf" else "inf"
  | S754_zero s => (if s then "-" else "") +:+ PyNum.format_f prec 0
  | S754_finite _ _ _ => PyNum.format_f prec (to_Q x)
  end.

End Binary64.

(** ** Exceptions

    [exn_str] is what [str(e)] returns.  Every class below derives from
    [Exception], so [except Exception] catches each of them. *)

Inductive exn_class :=
  | ValueError
  | KeyError
  | TypeError
  | AttributeError
  | ZeroDivisionError
  | OverflowError
  | JSONDecodeError
  | OtherException (name : string).

Record exn := Exn { exn_cls : exn_class; exn_str : string }.

Inductive res (A : Type) :=
  | Ok (a : A)
  | Raise (e : exn).
Arguments Ok {A} a.
Arguments Raise {A} e.

Definition res_bind {A B} (r : res A) (k : A -> res B) : res B :=
  match r with
  | Ok a => k a
  | Raise e => Raise e
  end.

Definition is_ZeroDivisionError (e : exn) : bool :=
  match exn_cls e with
  | ZeroDivisionError => true
  | _ => false
  end.

(** [a / b] on numbers *)
Definition truediv (a b : Q) : res Q :=
  if PyNum.is_zero b then Raise (Exn ZeroDivisionError "division by zero")
  else Ok (a / b)%Q.

(** [a / b] on numbers, as the [float] it returns: the double nearest to
    the quotient, a zero taking the sign of the divisor. *)
Definition float_truediv (a b : Q) : res spec_float :=
  if PyNum.is_zero b then Raise (Exn ZeroDivisionError "division by zero")
  else if PyNum.is_zero a then Ok (S754_zero (PyNum.Qltb b 0))
  else Ok (Binary64.of_Q (a / b)).

(** [x / y] on two [float]s *)
Definition float_div (x y : spec_float) : res spec_float :=
  match y with
  | S754_zero _ => Raise (Exn ZeroDivisionError "float division by zero")
  | _ => Ok (Binary64.div x y)
  end.

(** ** Calendar dates ([datetime.date]) *)

Module PyDate.

Record date := mkdate { year : Z; month : Z; day : Z }.

Definition MINYEAR : Z := 1.
Definition MAXYEAR : Z := 9999.

Definition is_leap (y : Z) : bool :=
  (y mod 4 =? 0) && (negb (y mod 100 =? 0) || (y mod 400 =? 0)).

Definition days_in_month (y m : Z) : Z :=
  if m =? 2 then (if is_leap y then 29 else 28)
  else if (m =? 4) || (m =? 6) || (m =? 9) || (m =? 11) then 30
  else 31.

(** The check the [date(y, m, d)] constructor performs. *)
Definition valid (d : date) : bool :=
  (MINYEAR <=? year d) && (year d <=? MAXYEAR) &&
  (1 <=? month d) && (month d <=? 12) &&
  (1 <=? day d) && (day d <=? days_in_month (year d) (month d)).

Definition new (y m d : Z) : res date :=
  if valid (mkdate y m d) then Ok (mkdate y m d)
  else Raise (Exn ValueError "date value out of range").

(** Dates compare as the tuples (year, month, day). *)
Definition ltb (a b : date) : bool :=
  (year a <? year b) ||
  ((year a =? year b) &&
   ((month a <? month b) || ((month a =? month b) && (day a <? day b)))).

Definition eqb (a b : date) : bool :=
  (year a =? year b) && (month a =? month b) && (day a =? day b).

Definition leb (a b : date) : bool := ltb a b || eqb a b.

Definition gtb (a b : date) : bool := ltb b a.

(** [d + timedelta(days=1)]: the day is moved one forward and the triple
    normalised; a year past [MAXYEAR] raises [OverflowError]. *)
Definition add_one_day (d : date) : res date :=
  let d1 :=
    if day d + 1 <=? days_in_month (year d) (month d)
    then mkdate (year d) (month d) (day d + 1)
    else if month d + 1 <=? 12
         then mkdate (year d) (month d + 1) 1
         else mkdate (year d + 1) 1 1 in
  if (MINYEAR <=? year d1) && (year d1 <=? MAXYEAR) then Ok d1
  else Raise (Exn OverflowError "date value out of range").

Definition month_name (m : Z) : string :=
  nth (Z.to_nat (m - 1))
    ["January"; "February"; "March"; "April"; "May"; "June"; "July";
     "August"; "September"; "October"; "November"; "December"] "".

(** [d.strftime('%B %d, %Y')] *)
Definition strftime_BdY (d : date) : string :=
  month_name (month d) +:+ " " +:+ PyStr.zfill 2 (PyStr.of_Z (day d)) +:+ ", "
  +:+ PyStr.zfill 4 (PyStr.of_Z (year d)).

(** [d.strftime('%Y-%m-%d')] *)
Definition strftime_Ymd (d : date) : string :=
  PyStr.zfill 4 (PyStr.of_Z (year d)) +:+ "-" +:+ PyStr.zfill 2 (PyStr.of_Z (month d))
  +:+ "-" +:+ PyStr.zfill 2 (PyStr.of_Z (day d)).

(** *** [datetime.strptime(s, '%Y-%m-%d').date()]

    The format compiles to the regular expression
    [(\d\d\d\d)-(1[0-2]|0[1-9]|[1-9])-(3[0-1]|[1-2]\d|0[1-9]|[1-9]| [1-9])],
    matched at the start of the text with backtracking in the order the
    alternatives are written; text left over after the match is an error,
    and so is a triple that is not a date. *)

(** [\d] on a character of code point 0..255: the decimal digits there
    are the ASCII digits.  ([strptime_Ymd_text] below reads texts with any
    characters.) *)
Definition digit_val (c : ascii) : option Z :=
  let n := Z.of_N (N_of_ascii c) in
  if (48 <=? n) && (n <=? 57) then Some (n - 48) else None.

Definition in_range (lo hi : Z) (c : ascii) : option Z :=
  match digit_val c with
  | Some v => if (lo <=? v) && (v <=? hi) then Some v else None
  | None => None
  end.

(** [\d\d\d\d] *)
Definition match_Y (s : string) : option (Z * string) :=
  match s with
  | String a (String b (String c (String d rest))) =>
      match digit_val a, digit_val b, digit_val c, digit_val d with
      | Some va, Some vb, Some vc, Some vd =>
          Some (1000 * va + 100 * vb + 10 * vc + vd, rest)
      | _, _, _, _ => None
      end
  | _ => None
  end.

(** Two characters: the first a digit in [l1..h1], the second in [l2..h2]. *)
Definition two_digits (l1 h1 l2 h2 : Z) (s : string) : list (Z * string) :=
  match s with
  | String a (String b rest) =>
      match in_range l1 h1 a, in_range l2 h2 b with
      | Some va, Some vb => [(10 * va + vb, rest)]
      | _, _ => []
      end
  | _ => []
  end.

Definition one_digit (lo hi : Z) (s : string) : list (Z * string) :=
  match s with
  | String a rest =>
      match in_range lo hi a with
      | Some va => [(va, rest)]
      | None => []
      end
  | _ => []
  end.

Definition space_digit (s : string) : list (Z * string) :=
  match s with
  | String " " rest => one_digit 1 9 rest
  | _ => []
  end.

(** [1[0-2]|0[1-9]|[1-9]]: every way to match, in priority order. *)
Definition match_m (s : string) : list (Z * string) :=
  two_digits 1 1 0 2 s ++ two_digits 0 0 1 9 s ++ one_digit 1 9 s.

(** [3[0-1]|[1-2]\d|0[1-9]|[1-9]| [1-9]] *)
Definition match_d (s : string) : list (Z * string) :=
  two_digits 3 3 0 1 s ++ two_digits 1 2 0 9 s ++ two_digits 0 0 1 9 s
  ++ one_digit 1 9 s ++ space_digit s.

Definition expect_dash (s : string) : option string :=
  match s with
  | String "-" rest => Some rest
  | _ => None
  end.

(** The first complete match of the tail [m-d], trying the month
    alternatives in order and, under each, the day alternatives in order. *)
Fixpoint first_md (ms : list (Z * string)) : option (Z * Z * string) :=
  match ms with
  | [] => None
  | (m, r) :: ms' =>
      match expect_dash r with
      | Some r' =>
          match match_d r' with
          | (d, rest) :: _ => Some (m, d, rest)
          | [] => first_md ms'
          end
      | None => first_md ms'
      end
  end.

Definition regex_match (s : string) : option (Z * Z * Z * string) :=
  match match_Y s with
  | Some (y, r) =>
      match expect_dash r with
      | Some r' =>
          match first_md (match_m r') with
          | Some (m, d, rest) => Some (y, m, d, rest)
          | None => None
          end
      | None => None
      end
  | None => None
  end.

Definition strptime_Ymd (s : string) : res date :=
  match regex_match s with
  | None =>
      Raise (Exn ValueError ("time data '" +:+ s +:+ "' does not match format '%Y-%m-%d'"))
  | Some (y, m, d, rest) =>
      match rest with
      | EmptyString => new y m d
      | _ => Raise (Exn ValueError ("unconverted data remains: " +:+ rest))
      end
  end.

(** *** [strptime] on any text

    A text is the list of the code points of a [str].  In the regular
    expression, [\d] matches every character that is a decimal digit in
    the Unicode database, and [int] reads such digits by their values;
    the classes written with ranges ([[0-2]], [[1-9]]) and the characters
    [-] and space name ASCII characters only.  The database is a
    parameter: [decimal_beyond_ascii c] is the decimal digit value of the
    code point [c] >= 128, if it has one ([unicodedata.decimal]). *)

Definition text := list N.

Section StrptimeText.

Variable decimal_beyond_ascii : N -> option Z.

(** The character is one of the ASCII digits [lo..hi]; its value. *)
Definition ascii_digit (lo hi : Z) (c : N) : option Z :=
  let v := Z.of_N c - 48 in
  if (0 <=? v) && (v <=? 9) && (lo <=? v) && (v <=? hi) then Some v else None.

(** [\d], with the value [int] gives the digit *)
Definition decimal_value (c : N) : option Z :=
  if (c <? 128)%N then ascii_digit 0 9 c else decimal_beyond_ascii c.

(** [\d\d\d\d] *)
Definition match_Y_text (s : text) : option (Z * text) :=
  match s with
  | a :: b :: c :: d :: rest =>
      match decimal_value a, decimal_value b, decimal_value c, decimal_value d with
      | Some va, Some vb, Some vc, Some vd =>
          Some (1000 * va + 100 * vb + 10 * vc + vd, rest)
      | _, _, _, _ => None
      end
  | _ => None
  end.

(** Two characters, both of ASCII classes. *)
Definition two_ascii_digits (l1 h1 l2 h2 : Z) (s : text) : list (Z * text) :=
  match s with
  | a :: b :: rest =>
      match ascii_digit l1 h1 a, ascii_digit l2 h2 b with
      | Some va, Some vb => [(10 * va + vb, rest)]
      | _, _ => []
      end
  | _ => []
  end.

(** Two characters, the first of an ASCII class, the second [\d]. *)
Definition ascii_digit_then_decimal (l1 h1 : Z) (s : text) : list (Z * text) :=
  match s with
  | a :: b :: rest =>
      match ascii_digit l1 h1 a, decimal_value b with
      | Some va, Some vb => [(10 * va + vb, rest)]
      | _, _ => []
      end
  | _ => []
  end.

Definition one_ascii_digit (lo hi : Z) (s : text) : list (Z * text) :=
  match s with
  | a :: rest =>
      match ascii_digit lo hi a with
      | Some va => [(va, rest)]
      | None => []
      end
  | _ => []
  end.

Definition space_then_digit (s : text) : list (Z * text) :=
  match s with
  | c :: rest => if (c =? 32)%N then one_ascii_digit 1 9 rest else []
  | _ => []
  end.

(** [1[0-2]|0[1-9]|[1-9]] *)
Definition match_m_text (s : text) : list (Z * text) :=
  two_ascii_digits 1 1 0 2 s ++ two_ascii_digits 0 0 1 9 s ++ one_ascii_digit 1 9 s.

(** [3[0-1]|[1-2]\d|0[1-9]|[1-9]| [1-9]] *)
Definition match_d_text (s : text) : list (Z * text) :=
  two_ascii_digits 3 3 0 1 s ++ ascii_digit_then_decimal 1 2 s ++ two_ascii_digits 0 0 1 9 s
  ++ one_ascii_digit 1 9 s ++ space_then_digit s.

Definition expect_dash_text (s : text) : option text :=
  match s with
  | c :: rest => if (c =? 45)%N then Some rest else None
  | _ => None
  end.

Fixpoint first_md_text (ms : list (Z * text)) : option (Z * Z * text) :=
  match ms with
  | [] => None
  | (m, r) :: ms' =>
      match expect_dash_text r with
      | Some r' =>
          match match_d_text r' with
          | (d, rest) :: _ => Some (m, d, rest)
          | [] => first_md_text ms'
          end
      | None => first_md_text ms'
      end
  end.

Definition regex_match_text (s : text) : option (Z * Z * Z * text) :=
  match match_Y_text s with
  | Some (y, r) =>
      match expect_dash_text r with
      | Some r' =>
          match first_md_text (match_m_text r') with
          | Some (m, d, rest) => Some (y, m, d, rest)
          | None => None
          end
      | None => None
      end
  | None => None
  end.

(** The date, or [None] when [strptime] raises its [ValueError]: no
    match, text left over, or no such calendar date. *)
Definition strptime_Ymd_text (s : text) : option date :=
  match regex_match_text s with
  | Some (y, m, d, []) =>
      match new y m d with
      | Ok dt => Some dt
      | Raise _ => None
      end
  | _ => None
  end.

End StrptimeText.

End PyDate.

Import PyDate.

(** ** server.py: the date parser *)

(** [parse_date(date_str)] on a string, that is, on a text of code points
    0..255; [today] is what [date.today()] returns.  [parse_date_text]
    below is the same function on any text. *)
Definition parse_date (today : date) (date_str : option string) : res date :=
  match date_str with
  | None => Ok today
  | Some "" => Ok today
  | Some s =>
      match strptime_Ymd s with
      | Ok d => Ok d
      | Raise e =>
          match exn_cls e with
          | ValueError =>
              Raise (Exn ValueError ("Invalid date format: " +:+ s +:+ ". Use YYYY-MM-DD"))
          | _ => Raise e
          end
      end
  end.

(** [parse_date(date_str)] on any text: the date, or the message of the
    [ValueError] it raises. *)
Definition codepoints (s : string) : text := map N_of_ascii (list_ascii_of_string s).

Inductive parsed :=
  | ParsedDate (d : date)
  | InvalidFormat (message : text).

Definition parse_date_text (decimal_beyond_ascii : N -> option Z) (today : date)
    (date_str : option text) : parsed :=
  match date_str with
  | None => ParsedDate today
  | Some [] => ParsedDate today
  | Some s =>
      match strptime_Ymd_text decimal_beyond_ascii s with
      | Some d => ParsedDate d
      | None =>
          InvalidFormat
            (codepoints "Invalid date format: " ++ s ++ codepoints ". Use YYYY-MM-DD")
      end
  end.

(** ** Data model (what the [myfitnesspal] library returns) *)

Record Entry := mkEntry {
  entry_name : string;
  entry_quantity : string;   (* [str(entry.quantity)], as the f-string renders it *)
  entry_unit : string;
  nutrition_information : gmap string Q
}.

Record Meal := mkMeal {
  meal_name : string;
  meal_totals : gmap string Q;
  meal_entries : list Entry
}.

Record Exercise := mkExercise {
  exercise_entries : list Entry
}.

Record Day := mkDay {
  day_date : date;
  day_totals : gmap string Q;
  day_goals : gmap string Q;
  day_water : Q;
  day_meals : list Meal;
  day_exercises : list Exercise;
  day_complete : bool
}.

(** [d.get(k, default)] *)
Definition dict_get (d : gmap string Q) (k : string) (dflt : Q) : Q :=
  match d !! k with
  | Some v => v
  | None => dflt
  end.

(** [k in d] *)
Definition dict_has (d : gmap string Q) (k : string) : bool :=
  match d !! k with
  | Some _ => true
  | None => false
  end.

(** ** Decoded JSON and cookies *)

#[local] Set Warnings "-register-all".

Inductive json :=
  | JNull
  | JBool (b : bool)
  | JInt (z : Z)
  | JFloat (q : Q)
  | JStr (s : string)
  | JArr (items : list json)
  | JObj (fields : list (string * json)).

Definition type_name (j : json) : string :=
  match j with
  | JNull => "NoneType"
  | JBool _ => "bool"
  | JInt _ => "int"
  | JFloat _ => "float"
  | JStr _ => "str"
  | JArr _ => "list"
  | JObj _ => "dict"
  end.

Definition no_attribute (j : json) (attr : string) : exn :=
  Exn AttributeError ("'" +:+ type_name j +:+ "' object has no attribute '" +:+ attr +:+ "'").

Fixpoint assoc_get {V} (k : string) (kv : list (string * V)) : option V :=
  match kv with
  | [] => None
  | (k', v) :: rest => if String.eqb k' k then Some v else assoc_get k rest
  end.

(** [obj.items()] *)
Definition json_items (j : json) : res (list (string * json)) :=
  match j with
  | JObj kv => Ok kv
  | _ => Raise (no_attribute j "items")
  end.

(** [obj[key]] for a [str] key *)
Definition json_getitem (j : json) (key : string) : res json :=
  match j with
  | JObj kv =>
      match assoc_get key kv with
      | Some v => Ok v
      | None => Raise (Exn KeyError ("'" +:+ key +:+ "'"))
      end
  | JArr _ => Raise (Exn TypeError "list indices must be integers or slices, not str")
  | JStr _ => Raise (Exn TypeError "string indices must be integers, not 'str'")
  | _ => Raise (Exn TypeError ("'" +:+ type_name j +:+ "' object is not subscriptable"))
  end.

(** [obj.get(key, default)] *)
Definition json_get (j : json) (key : string) (dflt : json) : res json :=
  match j with
  | JObj kv =>
      match assoc_get key kv with
      | Some v => Ok v
      | None => Ok dflt
      end
  | _ => Raise (no_attribute j "get")
  end.

(** [obj.startswith(prefix)] *)
Definition json_startswith (j : json) (prefix : string) : res bool :=
  match j with
  | JStr s => Ok (PyStr.startswith prefix s)
  | _ => Raise (no_attribute j "startswith")
  end.

(** [obj.lower()], on code points 0..255 *)
Definition lower_char (c : ascii) : ascii :=
  let n := N_of_ascii c in
  if ((65 <=? n) && (n <=? 90))%N then ascii_of_N (n + 32)
  else if ((192 <=? n) && (n <=? 222) && negb (n =? 215))%N then ascii_of_N (n + 32)
  else c.

Fixpoint lower_string (s : string) : string :=
  match s with
  | EmptyString => EmptyString
  | String c r => String (lower_char c) (lower_string r)
  end.

Definition json_lower (j : json) : res string :=
  match j with
  | JStr s => Ok (lower_string s)
  | _ => Raise (no_attribute j "lower")
  end.

(** The fields of [http.cookiejar.Cookie] the loader sets from its input;
    the others are the constants of the call ([port=None], [expires=None],
    [comment=None], [comment_url=None], [rest={}], [rfc2109=False]). *)
Record Cookie := mkCookie {
  cookie_version : Z;
  cookie_name : string;
  cookie_value : json;
  cookie_port_specified : bool;
  cookie_domain : string;
  cookie_domain_specified : bool;
  cookie_domain_initial_dot : bool;
  cookie_path : json;
  cookie_path_specified : bool;
  cookie_secure : json;
  cookie_discard : bool
}.

(** [Cookie(version=0, name=..., value=..., port=None, port_specified=False,
    domain=..., ...)]: the constructor lower-cases the domain. *)
Definition Cookie_init (name : string) (value domain : json) (initial_dot : bool)
    (path secure : json) : res Cookie :=
  res_bind (json_lower domain) (fun dom =>
  Ok {| cookie_version := 0;
        cookie_name := name;
        cookie_value := value;
        cookie_port_specified := false;
        cookie_domain := dom;
        cookie_domain_specified := true;
        cookie_domain_initial_dot := initial_dot;
        cookie_path := path;
        cookie_path_specified := true;
        cookie_secure := secure;
        cookie_discard := true |}).

(** A [CookieJar] keeps [_cookies[domain][path][name]]; each level is a
    [dict] in insertion order. *)
Definition CookieJar := list (string * list (json * list (string * Cookie))).

(** Equality of two hashable keys, as [dict] lookup decides it. *)
Definition key_number (j : json) : option Q :=
  match j with
  | JBool b => Some (if b then 1%Q else 0%Q)
  | JInt z => Some (inject_Z z)
  | JFloat q => Some q
  | _ => None
  end.

Definition json_key_eqb (a b : json) : bool :=
  match a, b with
  | JNull, JNull => true
  | JStr x, JStr y => String.eqb x y
  | _, _ =>
      match key_number a, key_number b with
      | Some x, Some y => Qeq_bool x y
      | _, _ => false
      end
  end.

Definition hashable (j : json) : bool :=
  match j with
  | JArr _ | JObj _ => false
  | _ => true
  end.

(** [d[k] = v] on an insertion-ordered [dict] *)
Fixpoint dict_set {K V} (eqb : K -> K -> bool) (k : K) (v : V) (d : list (K * V)) : list (K * V) :=
  match d with
  | [] => [(k, v)]
  | (k', v') :: rest =>
      if eqb k' k then (k', v) :: rest else (k', v') :: dict_set eqb k v rest
  end.

Fixpoint dict_lookup {K V} (eqb : K -> K -> bool) (k : K) (d : list (K * V)) : option V :=
  match d with
  | [] => None
  | (k', v) :: rest => if eqb k' k then Some v else dict_lookup eqb k rest
  end.

(** [jar.set_cookie(cookie)] *)
Definition set_cookie (jar : CookieJar) (c : Cookie) : res CookieJar :=
  let c2 := match dict_lookup String.eqb (cookie_domain c) jar with
            | Some paths => paths
            | None => []
            end in
  if negb (hashable (cookie_path c))
  then Raise (Exn TypeError ("unhashable type: '" +:+ type_name (cookie_path c) +:+ "'"))
  else
    let c3 := match dict_lookup json_key_eqb (cookie_path c) c2 with
              | Some names => names
              | None => []
              end in
    let c3' := dict_set String.eqb (cookie_name c) c c3 in
    let c2' := dict_set json_key_eqb (cookie_path c) c3' c2 in
    Ok (dict_set String.eqb (cookie_domain c) c2' jar).

(** Iterating a jar visits every cookie (domain, then path, then name). *)
Definition jar_cookies (jar : CookieJar) : list Cookie :=
  flat_map (fun dp => flat_map (fun pn => map snd (snd pn)) (snd dp)) jar.

(** [len(jar)] *)
Definition jar_len (jar : CookieJar) : nat := length (jar_cookies jar).

(** ** Collaborators and the process state *)

(** A [myfitnesspal.Client], remembered by the credentials it was built
    from: [Some jar] for [Client(cookiejar=jar)], [None] for [Client()],
    which reads the browser's cookies. *)
Record LibClient := mkLibClient { lib_cookiejar : option CookieJar }.

Record Collab := mkCollab {
  json_loads : string -> res json;
  mfp_Client : option CookieJar -> res LibClient;
  mfp_get_date : LibClient -> date -> res Day
}.

(** [MyFitnessPalClient]: one attribute, [self.client]. *)
Record MyFitnessPalClient := mkClient { client : LibClient }.

Record World := mkWorld {
  today : date;                          (* what [date.today()] returns *)
  MFP_COOKIES : option string;           (* [os.getenv('MFP_COOKIES')] *)
  _client : option MyFitnessPalClient;   (* the module global of server.py *)
  stdout : list string;                  (* lines written by [print] *)
  fetched : list date                    (* requests sent to the remote service, oldest first *)
}.

Definition set_client (w : World) (c : option MyFitnessPalClient) : World :=
  mkWorld (today w) (MFP_COOKIES w) c (stdout w) (fetched w).

Definition print (line : string) (w : World) : World :=
  mkWorld (today w) (MFP_COOKIES w) (_client w) (stdout w ++ [line]) (fetched w).

Definition log_fetch (d : date) (w : World) : World :=
  mkWorld (today w) (MFP_COOKIES w) (_client w) (stdout w) (fetched w ++ [d]).

(** Computations that read and write the process state and may raise. *)
Definition M (A : Type) : Type := World -> res A * World.

Definition ret {A} (a : A) : M A := fun w => (Ok a, w).
Definition raise {A} (e : exn) : M A := fun w => (Raise e, w).
Definition lift {A} (r : res A) : M A := fun w => (r, w).
Definition bind {A B} (m : M A) (k : A -> M B) : M B :=
  fun w => match m w with
           | (Ok a, w') => k a w'
           | (Raise e, w') => (Raise e, w')
           end.

Notation "x <- m ;; k" := (bind m (fun x => k))
  (at level 100, m at next level, right associativity).

(** ** api_client.py *)

Section ApiClient.

Variable env : Collab.

(** The body of the [for name, data in cookie_dict.items()] loop. *)
Definition load_one_cookie (jar : CookieJar) (name : string) (data : json) : res CookieJar :=
  res_bind (json_getitem data "value") (fun value =>
  res_bind (json_get data "domain" (JStr ".myfitnesspal.com")) (fun domain =>
  res_bind (json_get data "domain" (JStr "")) (fun domain' =>
  res_bind (json_startswith domain' ".") (fun initial_dot =>
  res_bind (json_get data "path" (JStr "/")) (fun path =>
  res_bind (json_get data "secure" (JBool false)) (fun secure =>
  res_bind (Cookie_init name value domain initial_dot path secure) (fun cookie =>
  set_cookie jar cookie))))))).

Fixpoint load_cookies (jar : CookieJar) (items : list (string * json)) : res CookieJar :=
  match items with
  | [] => Ok jar
  | (name, data) :: rest =>
      res_bind (load_one_cookie jar name data) (fun jar' => load_cookies jar' rest)
  end.

(** The [try] block of [_load_cookies_from_env]. *)
Definition build_jar (cookies_json : string) : res CookieJar :=
  res_bind (json_loads env cookies_json) (fun cookie_dict =>
  res_bind (json_items cookie_dict) (fun items =>
  load_cookies [] items)).

(** [MyFitnessPalClient._load_cookies_from_env] *)
Definition _load_cookies_from_env : M (option CookieJar) :=
  fun w =>
    match MFP_COOKIES w with
    | None => (Ok None, w)
    | Some "" => (Ok None, w)
    | Some cookies_json =>
        match build_jar cookies_json with
        | Ok jar => (Ok (Some jar), w)
        | Raise e =>
            (Ok None,
             print ("Warning: Failed to load cookies from environment: " +:+ exn_str e) w)
        end
    end.

(** [if cookiejar:] *)
Definition jar_truthy (j : option CookieJar) : bool :=
  match j with
  | Some jar => negb (Nat.eqb (jar_len jar) 0)
  | None => false
  end.

(** [MyFitnessPalClient.__init__] *)
Definition MyFitnessPalClient_init : M MyFitnessPalClient :=
  cookiejar <- _load_cookies_from_env ;;
  if jar_truthy cookiejar
  then c <- lift (mfp_Client env cookiejar) ;; ret (mkClient c)
  else c <- lift (mfp_Client env None) ;; ret (mkClient c).

(** [MyFitnessPalClient.get_day] *)
Definition get_day (self : MyFitnessPalClient) (target_date : date) : M Day :=
  fun w => (mfp_get_date env (client self) target_date, log_fetch target_date w).

(** *** [MyFitnessPalClient.get_date_range]

    The generator is run to its end: the result is the sequence of yielded
    days, how the generator finished ([Ok tt] for a normal return, [Raise e]
    for an exception that leaves it), and the state after the last
    request.  The recursion follows the [while] loop; it terminates because
    each step moves the triple (year, month, day) forward and the year is
    bounded by the end date's. *)

Definition range_measure (end_date current : date) : nat :=
  Z.to_nat (416 * Z.max 0 (year end_date + 1 - year current)
            + 32 * Z.max 0 (13 - month current)
            + Z.max 0 (32 - day current)).

Definition inspect {A} (a : A) : {b : A | a = b} := exist _ a eq_refl.

(** What one pass through [try: yield self.get_day(current) / except
    Exception: pass] contributes to the sequence. *)
Definition yielded_of (r : res Day) : list Day :=
  match r with
  | Ok d => [d]
  | Raise _ => []
  end.

Definition gen_cons (ys : list Day) (rest : list Day * res unit * World)
  : list Day * res unit * World :=
  match rest with
  | (ys', fin, w) => (ys ++ ys', fin, w)
  end.

Equations? get_date_range_from (self : MyFitnessPalClient) (end_date current : date)
    (w : World) : list Day * res unit * World
    by wf (range_measure end_date current) lt :=
  get_date_range_from self end_date current w with inspect (PyDate.leb current end_date) => {
    | exist _ false _ := ([], Ok tt, w);
    | exist _ true _ with inspect (add_one_day current) => {
        | exist _ (Raise e) _ :=
            (yielded_of (fst (get_day self current w)), Raise e,
             snd (get_day self current w));
        | exist _ (Ok next) _ :=
            gen_cons (yielded_of (fst (get_day self current w)))
              (get_date_range_from self end_date next (snd (get_day self current w))) } }.
Proof.
  clear get_date_range_from.
  assert (Hdim : 28 <= days_in_month (year current) (month current) <= 31).
  { unfold days_in_month.
    repeat match goal with |- context [if ?b then _ else _] => destruct b end; lia. }
  unfold add_one_day, PyDate.leb, PyDate.ltb, PyDate.eqb in *.
  unfold range_measure, MINYEAR, MAXYEAR in *.
  destruct current as [y m d], end_date as [ye me de]; simpl in *.
  repeat match goal with
         | H : context [if ?b then _ else _] |- _ => destruct b eqn:?
         end; try discriminate;
  match goal with H : Ok _ = Ok _ |- _ => inversion H; subst; clear H end;
  simpl; lia.
Qed.

Definition get_date_range (self : MyFitnessPalClient) (start_date end_date : date)
    (w : World) : list Day * res unit * World :=
  get_date_range_from self end_date start_date w.

End ApiClient.

(** ** utils.py *)

Record TextContent := mkTextContent { content_type : string; content_text : string }.

Record ToolResult := mkToolResult {
  content : list TextContent;
  structured_content : option json
}.

(** [text_response(text)] *)
Definition text_response (text : string) : ToolResult :=
  mkToolResult [mkTextContent "text" text] None.

(** ** server.py *)

Definition nl : string := String (ascii_of_N 10) EmptyString.

Definition f0 (q : Q) : string := PyNum.format_f 0 q.   (* [{q:.0f}] *)
Definition f1 (q : Q) : string := PyNum.format_f 1 q.   (* [{q:.1f}] *)

Definition ML_PER_OZ : Q := 295735 # 10000.   (* the literal [29.5735] *)
Definition ML_PER_CUP : Q := 236588 # 1000.   (* the literal [236.588] *)

(** [{x:.0f}] for a [float], and the literals [29.5735] and [100] as the
    doubles they denote *)
Definition g0 (x : spec_float) : string := Binary64.format_f 0 x.
Definition ML_PER_OZ_double : spec_float := Binary64.literal 295735 4.
Definition HUNDRED : spec_float := Binary64.of_Z 100.

(** [x > 0] and the truth value of a number *)
Definition positive (q : Q) : bool := PyNum.Qltb 0 q.
Definition truthy (q : Q) : bool := negb (PyNum.is_zero q).

(** *** The report bodies: what each tool computes from a fetched day *)

(** The exercise loop of [get_daily_summary]: calories burned, minutes and
    number of entries over every entry of every category. *)
Definition summary_entry_step (acc : Q * Q * nat) (entry : Entry) : Q * Q * nat :=
  match acc with
  | (total_exercise_calories, total_exercise_minutes, exercise_count) =>
      let nutrition := nutrition_information entry in
      (total_exercise_calories + dict_get nutrition "calories burned" 0,
       match nutrition !! "minutes" with
       | Some minutes =>
           if truthy minutes then total_exercise_minutes + minutes
           else total_exercise_minutes
       | None => total_exercise_minutes
       end,
       S exercise_count)%Q
  end.

Definition summary_exercise_loop (exercises : list Exercise) : Q * Q * nat :=
  fold_left (fun acc exercise => fold_left summary_entry_step (exercise_entries exercise) acc)
    exercises (0%Q, 0%Q, O).

Definition format_daily_summary (target_date : date) (day : Day) : res string :=
  let totals := day_totals day in
  let goals := day_goals day in
  let calories := dict_get totals "calories" 0 in
  let carbs := dict_get totals "carbohydrates" 0 in
  let fat := dict_get totals "fat" 0 in
  let protein := dict_get totals "protein" 0 in
  let calorie_goal := dict_get goals "calories" 0 in
  let carb_goal := dict_get goals "carbohydrates" 0 in
  let fat_goal := dict_get goals "fat" 0 in
  let protein_goal := dict_get goals "protein" 0 in
  let water_ml := day_water day in
  res_bind (truediv water_ml ML_PER_OZ) (fun water_oz =>
  res_bind (truediv water_ml ML_PER_CUP) (fun water_cups =>
  match summary_exercise_loop (day_exercises day) with
  | (total_exercise_calories, total_exercise_minutes, exercise_count) =>
    Ok (PyStr.concat_all
      [ "# Daily Summary for "; strftime_BdY target_date; nl;
        nl;
        "## Calories"; nl;
        "- **Consumed**: "; f0 calories; " kcal"; nl;
        "- **Goal**: "; f0 calorie_goal; " kcal"; nl;
        "- **Remaining**: "; f0 (calorie_goal - calories)%Q; " kcal"; nl;
        nl;
        "## Macronutrients"; nl;
        "- **Carbohydrates**: "; f0 carbs; "g / "; f0 carb_goal; "g"; nl;
        "- **Fat**: "; f0 fat; "g / "; f0 fat_goal; "g"; nl;
        "- **Protein**: "; f0 protein; "g / "; f0 protein_goal; "g"; nl;
        nl;
        "## Exercise"; nl;
        "- **Activities**: "; PyStr.of_nat exercise_count; nl;
        "- **Duration**: "; f0 total_exercise_minutes; " minutes"; nl;
        "- **Calories Burned**: "; f0 total_exercise_calories; " kcal"; nl;
        nl;
        "## Water Intake"; nl;
        "- **Amount**: "; f0 water_oz; " oz ("; f1 water_cups; " cups, ";
            f0 water_ml; " ml)"; nl;
        nl;
        "## Status"; nl;
        "- **Day Complete**: "; (if day_complete day then "Yes" else "No"); nl;
        "- **Meals Logged**: "; PyStr.of_nat (length (day_meals day)); nl ])
  end)).

Definition format_meal_entry (entry : Entry) : string :=
  let nutrition := nutrition_information entry in
  PyStr.concat_all
    [ "- **"; entry_name entry; "**"; nl;
      "  - Serving: "; entry_quantity entry; " "; entry_unit entry; nl;
      "  - Calories: "; f0 (dict_get nutrition "calories" 0); " kcal"; nl;
      "  - Macros: ";
      f0 (dict_get nutrition "carbohydrates" 0); "C / ";
      f0 (dict_get nutrition "fat" 0); "F / ";
      f0 (dict_get nutrition "protein" 0); "P"; nl ].

Definition format_meal (meal : Meal) : string :=
  let meal_totals := meal_totals meal in
  PyStr.concat_all
    [ "## "; meal_name meal; nl;
      "**Total**: "; f0 (dict_get meal_totals "calories" 0); " kcal";
      " ("; f0 (dict_get meal_totals "carbohydrates" 0); "C / ";
      f0 (dict_get meal_totals "fat" 0); "F / ";
      f0 (dict_get meal_totals "protein" 0); "P)"; nl; nl;
      match meal_entries meal with
      | [] => "No foods logged in this meal." +:+ nl +:+ nl
      | entries => PyStr.concat_all (map format_meal_entry entries) +:+ nl
      end ].

Definition format_daily_meals (target_date : date) (day : Day) : res string :=
  Ok (PyStr.concat_all
    [ "# Meals for "; strftime_BdY target_date; nl; nl;
      match day_meals day with
      | [] => "No meals logged for this day." +:+ nl
      | meals => PyStr.concat_all (map format_meal meals)
      end ]).

(** The entry loop of [get_daily_exercise]: text so far and both totals. *)
Definition exercise_entry_step (acc : string * Q * Q) (entry : Entry) : string * Q * Q :=
  match acc with
  | (output, total_calories, total_minutes) =>
      let nutrition := nutrition_information entry in
      let output1 := output +:+ "- **" +:+ entry_name entry +:+ "**" +:+ nl in
      let '(output2, total_minutes') :=
        match nutrition !! "minutes" with
        | Some minutes =>
            if truthy minutes
            then (output1 +:+ "  - Duration: " +:+ f0 minutes +:+ " minutes" +:+ nl,
                  (total_minutes + minutes)%Q)
            else (output1, total_minutes)
        | None => (output1, total_minutes)
        end in
      let calories := dict_get nutrition "calories burned" 0 in
      let '(output3, total_calories') :=
        if truthy calories
        then (output2 +:+ "  - Calories Burned: " +:+ f0 calories +:+ " kcal" +:+ nl,
              (total_calories + calories)%Q)
        else (output2, total_calories) in
      (output3 +:+ nl, total_calories', total_minutes')
  end.

Definition format_daily_exercise (target_date : date) (day : Day) : res string :=
  let exercises := day_exercises day in
  let output := "# Exercise for " +:+ strftime_BdY target_date +:+ nl +:+ nl in
  match exercises with
  | [] => Ok (output +:+ "No exercise logged for this day." +:+ nl)
  | _ =>
      let all_entries := flat_map exercise_entries exercises in
      match all_entries with
      | [] => Ok (output +:+ "No exercise logged for this day." +:+ nl)
      | _ =>
          match fold_left exercise_entry_step all_entries (output, 0%Q, 0%Q) with
          | (output1, total_calories, total_minutes) =>
              let output2 := output1 +:+ "## Summary" +:+ nl in
              let output3 :=
                if positive total_minutes
                then output2 +:+ "- **Total Duration**: " +:+ f0 total_minutes
                     +:+ " minutes" +:+ nl
                else output2 in
              let output4 :=
                if positive total_calories
                then output3 +:+ "- **Total Calories Burned**: " +:+ f0 total_calories
                     +:+ " kcal" +:+ nl
                else output3 in
              Ok output4
          end
      end
  end.

(** The local function [format_nutrient] of [get_daily_macros]. *)
Definition format_nutrient (totals goals : gmap string Q)
    (name display_name unit_ : string) : res string :=
  let value := dict_get totals name 0 in
  let goal := dict_get goals name 0 in
  if positive goal
  then res_bind (float_truediv value goal) (fun ratio =>
       Ok (PyStr.concat_all
         [ "- **"; display_name; "**: "; f0 value; unit_; " / "; f0 goal; unit_;
           " ("; g0 (Binary64.mul ratio HUNDRED); "%)"; nl ]))
  else Ok (PyStr.concat_all [ "- **"; display_name; "**: "; f0 value; unit_; nl ]).

(** [if key in totals: output += f"  - Label: {totals.get(key, 0):.1f}g\n"] *)
Definition fat_subline (totals : gmap string Q) (key label : string) : string :=
  if dict_has totals key
  then PyStr.concat_all [ "  - "; label; ": "; f1 (dict_get totals key 0); "g"; nl ]
  else "".

(** [if key in totals: output += format_nutrient(key, display_name, unit)] *)
Definition micro_line (totals goals : gmap string Q)
    (key display_name unit_ : string) : res string :=
  if dict_has totals key then format_nutrient totals goals key display_name unit_
  else Ok "".

(** Run the pieces in order and concatenate what they return. *)
Fixpoint concat_res (parts : list (res string)) : res string :=
  match parts with
  | [] => Ok ""
  | p :: ps => res_bind p (fun a => res_bind (concat_res ps) (fun b => Ok (a +:+ b)))
  end.

Definition format_daily_macros (target_date : date) (day : Day) : res string :=
  let totals := day_totals day in
  let goals := day_goals day in
  concat_res
    [ Ok ("# Macros & Nutrients for " +:+ strftime_BdY target_date +:+ nl +:+ nl);
      Ok ("## Macronutrients" +:+ nl);
      format_nutrient totals goals "calories" "Calories" "kcal";
      format_nutrient totals goals "carbohydrates" "Carbohydrates" "g";
      format_nutrient totals goals "protein" "Protein" "g";
      format_nutrient totals goals "fat" "Fat" "g";
      Ok (fat_subline totals "saturated fat" "Saturated");
      Ok (fat_subline totals "polyunsaturated fat" "Polyunsaturated");
      Ok (fat_subline totals "monounsaturated fat" "Monounsaturated");
      Ok (fat_subline totals "trans fat" "Trans");
      format_nutrient totals goals "fiber" "Fiber" "g";
      format_nutrient totals goals "sugar" "Sugar" "g";
      Ok nl;
      Ok ("## Micronutrients" +:+ nl);
      micro_line totals goals "sodium" "Sodium" "mg";
      micro_line totals goals "potassium" "Potassium" "mg";
      micro_line totals goals "cholesterol" "Cholesterol" "mg";
      micro_line totals goals "vitamin a" "Vitamin A" "%";
      micro_line totals goals "vitamin c" "Vitamin C" "%";
      micro_line totals goals "calcium" "Calcium" "%";
      micro_line totals goals "iron" "Iron" "%" ].

Definition format_water_intake (target_date : date) (day : Day) : res string :=
  let water_ml := day_water day in
  res_bind (truediv water_ml ML_PER_OZ) (fun water_oz =>
  res_bind (truediv water_ml ML_PER_CUP) (fun water_cups =>
  let output := "# Water Intake for " +:+ strftime_BdY target_date +:+ nl +:+ nl in
  let output1 :=
    if positive water_ml
    then output +:+ PyStr.concat_all
           [ "**Amount**: "; f0 water_oz; " oz ("; f1 water_cups; " cups / ";
             f0 water_ml; " ml)"; nl ]
    else output +:+ "No water intake logged for this day." +:+ nl in
  let output2 :=
    output1 +:+ nl +:+ "*Recommended daily intake: 64 oz (8 cups / 2000 ml)*" +:+ nl in
  if positive water_ml
  then res_bind (truediv water_oz 64) (fun r =>
       let progress := (r * 100)%Q in
       Ok (output2 +:+ "*Progress: " +:+ f0 progress +:+ "% of recommended amount*" +:+ nl))
  else Ok output2)).

(** The per-day dictionary [get_date_range_summary] appends to
    [daily_data]. *)
Record DayData := mkDayData {
  dd_date : date;
  dd_calories : Q;
  dd_carbs : Q;
  dd_fat : Q;
  dd_protein : Q;
  dd_water_ml : Q;
  dd_complete : bool;
  dd_num_meals : nat;
  dd_num_exercises : nat
}.

Definition snapshot (day : Day) : DayData :=
  let totals := day_totals day in
  {| dd_date := day_date day;
     dd_calories := dict_get totals "calories" 0;
     dd_carbs := dict_get totals "carbohydrates" 0;
     dd_fat := dict_get totals "fat" 0;
     dd_protein := dict_get totals "protein" 0;
     dd_water_ml := day_water day;
     dd_complete := day_complete day;
     dd_num_meals := length (day_meals day);
     dd_num_exercises := length (day_exercises day) |}.

(** [sum(1 for d in daily_data if p(d))] *)
Definition count_if (p : DayData -> bool) (daily_data : list DayData) : nat :=
  length (filter (fun d => p d = true) daily_data).

Definition Q_of_nat (n : nat) : Q := inject_Z (Z.of_nat n).

(** One line of the "Daily Breakdown" section. *)
Definition format_breakdown_line (day_data : DayData) : res string :=
  res_bind (float_div (Binary64.of_Q (dd_water_ml day_data)) ML_PER_OZ_double) (fun water_oz =>
  let status :=
    (if dd_complete day_data then ["âœ“"] else [])
    ++ (if (0 <? dd_num_exercises day_data)%nat
        then [PyStr.of_nat (dd_num_exercises day_data) +:+ " exercises"] else []) in
  Ok (PyStr.concat_all
    [ "- **"; strftime_Ymd (dd_date day_data); "**: ";
      f0 (dd_calories day_data); " kcal, ";
      f0 (dd_carbs day_data); "C/"; f0 (dd_fat day_data); "F/";
      f0 (dd_protein day_data); "P, ";
      g0 water_oz; " oz water";
      match status with
      | [] => ""
      | _ => " [" +:+ PyStr.join ", " status +:+ "]"
      end;
      nl ])).

(** [get_date_range_summary] from [if not daily_data:] to its [return]. *)
Definition format_range_summary (start end_ : date) (daily_data : list DayData) : res string :=
  match daily_data with
  | [] => Ok "No data available for the specified date range."
  | _ =>
      let num_days := length daily_data in
      let n := Q_of_nat num_days in
      res_bind (float_truediv (PyNum.sum (map dd_calories daily_data)) n) (fun avg_calories =>
      res_bind (float_truediv (PyNum.sum (map dd_carbs daily_data)) n) (fun avg_carbs =>
      res_bind (float_truediv (PyNum.sum (map dd_fat daily_data)) n) (fun avg_fat =>
      res_bind (float_truediv (PyNum.sum (map dd_protein daily_data)) n) (fun avg_protein =>
      res_bind (float_truediv (PyNum.sum (map dd_water_ml daily_data)) n) (fun avg_water_ml =>
      res_bind (float_div avg_water_ml ML_PER_OZ_double) (fun avg_water_oz =>
      let complete_days := count_if dd_complete daily_data in
      let days_with_exercise :=
        count_if (fun d => (0 <? dd_num_exercises d)%nat) daily_data in
      res_bind (float_truediv (Q_of_nat complete_days) n) (fun complete_ratio =>
      res_bind (float_truediv (Q_of_nat days_with_exercise) n) (fun exercise_ratio =>
      res_bind (concat_res (map format_breakdown_line daily_data)) (fun breakdown =>
      Ok (PyStr.concat_all
        [ "# Date Range Summary"; nl;
          "**"; strftime_BdY start; "** to **"; strftime_BdY end_; "**"; nl;
          "("; PyStr.of_nat num_days; " days)"; nl; nl;
          "## Daily Averages"; nl;
          "- **Calories**: "; g0 avg_calories; " kcal/day"; nl;
          "- **Carbohydrates**: "; g0 avg_carbs; "g/day"; nl;
          "- **Fat**: "; g0 avg_fat; "g/day"; nl;
          "- **Protein**: "; g0 avg_protein; "g/day"; nl;
          "- **Water**: "; g0 avg_water_oz; " oz/day ("; g0 avg_water_ml; " ml/day)"; nl; nl;
          "## Tracking Stats"; nl;
          "- **Days Completed**: "; PyStr.of_nat complete_days; "/"; PyStr.of_nat num_days;
              " ("; g0 (Binary64.mul complete_ratio HUNDRED); "%)"; nl;
          "- **Days with Exercise**: "; PyStr.of_nat days_with_exercise; "/";
              PyStr.of_nat num_days; " ("; g0 (Binary64.mul exercise_ratio HUNDRED); "%)";
              nl; nl;
          "## Daily Breakdown"; nl;
          breakdown ]))))))))))
  end.

(** *** The tools *)

Section Server.

Variable env : Collab.

(** [get_client()] *)
Definition get_client : M MyFitnessPalClient :=
  fun w =>
    match _client w with
    | Some c => (Ok c, w)
    | None =>
        match MyFitnessPalClient_init env w with
        | (Ok c, w') => (Ok c, set_client w' (Some c))
        | (Raise e, w') => (Raise e, w')
        end
    end.

Definition parse_date_M (date_str : option string) : M date :=
  fun w => (parse_date (today w) date_str, w).

(** The [try] block shared by the five single-day tools. *)
Definition single_day_body (format : date -> Day -> res string) (date_arg : option string)
  : M string :=
  target_date <- parse_date_M date_arg ;;
  client <- get_client ;;
  day <- get_day env client target_date ;;
  lift (format target_date day).

(** [try: ... return text_response(output)
     except Exception as e: return text_response(f"Error retrieving <subject>: {str(e)}")] *)
Definition try_tool (subject : string) (body : M string) (w : World) : ToolResult * World :=
  match body w with
  | (Ok output, w') => (text_response output, w')
  | (Raise e, w') =>
      (text_response ("Error retrieving " +:+ subject +:+ ": " +:+ exn_str e), w')
  end.

Definition get_daily_summary (date_arg : option string) : World -> ToolResult * World :=
  try_tool "daily summary" (single_day_body format_daily_summary date_arg).

Definition get_daily_meals (date_arg : option string) : World -> ToolResult * World :=
  try_tool "meals" (single_day_body format_daily_meals date_arg).

Definition get_daily_exercise (date_arg : option string) : World -> ToolResult * World :=
  try_tool "exercise" (single_day_body format_daily_exercise date_arg).

Definition get_daily_macros (date_arg : option string) : World -> ToolResult * World :=
  try_tool "macros" (single_day_body format_daily_macros date_arg).

Definition get_water_intake (date_arg : option string) : World -> ToolResult * World :=
  try_tool "water intake" (single_day_body format_water_intake date_arg).

(** The [for day in client.get_date_range(start, end)] loop: the snapshots
    of the yielded days, unless the generator raises. *)
Definition collect_daily_data (client : MyFitnessPalClient) (start end_ : date)
  : M (list DayData) :=
  fun w =>
    match get_date_range env client start end_ w with
    | (days, Ok _, w') => (Ok (map snapshot days), w')
    | (_, Raise e, w') => (Raise e, w')
    end.

Definition date_range_summary_body (start_date end_date : string) : M string :=
  start <- parse_date_M (Some start_date) ;;
  end_ <- parse_date_M (Some end_date) ;;
  if PyDate.gtb start end_
  then raise (Exn ValueError "Start date must be before or equal to end date")
  else
    client <- get_client ;;
    daily_data <- collect_daily_data client start end_ ;;
    lift (format_range_summary start end_ daily_data).

Definition get_date_range_summary (start_date end_date : string)
  : World -> ToolResult * World :=
  try_tool "date range summary" (date_range_summary_body start_date end_date).

(** The six registered tools and a call to any of them. *)
Inductive tool_call :=
  | CallDailySummary (date_arg : option string)
  | CallDailyMeals (date_arg : option string)
  | CallDailyExercise (date_arg : option string)
  | CallDailyMacros (date_arg : option string)
  | CallWaterIntake (date_arg : option string)
  | CallDateRangeSummary (start_date end_date : string).

Definition subject_of (c : tool_call) : string :=
  match c with
  | CallDailySummary _ => "daily summary"
  | CallDailyMeals _ => "meals"
  | CallDailyExercise _ => "exercise"
  | CallDailyMacros _ => "macros"
  | CallWaterIntake _ => "water intake"
  | CallDateRangeSummary _ _ => "date range summary"
  end.

(** The [try] block of the called tool. *)
Definition body_of (c : tool_call) : M string :=
  match c with
  | CallDailySummary a => single_day_body format_daily_summary a
  | CallDailyMeals a => single_day_body format_daily_meals a
  | CallDailyExercise a => single_day_body format_daily_exercise a
  | CallDailyMacros a => single_day_body format_daily_macros a
  | CallWaterIntake a => single_day_body format_water_intake a
  | CallDateRangeSummary s e => date_range_summary_body s e
  end.

Definition invoke (c : tool_call) : World -> ToolResult * World :=
  match c with
  | CallDailySummary a => get_daily_summary a
  | CallDailyMeals a => get_daily_meals a
  | CallDailyExercise a => get_daily_exercise a
  | CallDailyMacros a => get_daily_macros a
  | CallWaterIntake a => get_water_intake a
  | CallDateRangeSummary s e => get_date_range_summary s e
  end.

End Server.

(** Loading the module and running [main()]: the global [_client] starts
    as [None]; [main] reads HOST and PORT and hands control to the protocol
    runtime.  Neither touches the credentials. *)
Definition module_init (w : World) : World := set_client w None.

(** ** export_cookies.py *)

(** A cookie as [browser_cookie3] hands it over, by the attributes the
    export reads.  Name, value, domain and path are text; [secure] is what
    the browser's store holds (an [int] or a [bool]). *)
Record BrowserCookie := mkBrowserCookie {
  bc_name : string;
  bc_value : string;
  bc_domain : string;
  bc_path : string;
  bc_secure : json
}.

(** The [dict] with the keys [value], [domain], [path] and [secure] that
    the export keeps for one cookie. *)
Record ExportedEntry := mkExportedEntry {
  ex_value : string;
  ex_domain : string;
  ex_path : string;
  ex_secure : json
}.

Definition exported (cookie : BrowserCookie) : ExportedEntry :=
  {| ex_value := bc_value cookie;
     ex_domain := bc_domain cookie;
     ex_path := bc_path cookie;
     ex_secure := bc_secure cookie |}.

(** [for cookie in cookies: cookie_dict[cookie.name] = {...}] *)
Definition build_cookie_dict (cookies : list BrowserCookie) : list (string * ExportedEntry) :=
  fold_left
    (fun cookie_dict cookie =>
       dict_set String.eqb (bc_name cookie) (exported cookie) cookie_dict)
    cookies [].

(** [cookie_dict] as [json.dumps] sees it. *)
Definition entry_json (e : ExportedEntry) : json :=
  JObj [ ("value", JStr (ex_value e)); ("domain", JStr (ex_domain e));
         ("path", JStr (ex_path e)); ("secure", ex_secure e) ].

Definition cookie_dict_json (cookie_dict : list (string * ExportedEntry)) : json :=
  JObj (map (fun item => (fst item, entry_json (snd item))) cookie_dict).

(** What the script works with: the browser's cookie store, the JSON
    encoder, the path of the [.env] file beside the script, and whether
    that file can be opened for writing (an opened file takes every
    write). *)
Record ExportEnv := mkExportEnv {
  browser_cookie3_load : string -> res (list BrowserCookie);
  json_dumps : json -> string;
  env_path : string;
  open_for_writing : string -> res unit
}.

(** The terminal and the files of the machine the script runs on. *)
Record Shell := mkShell {
  shell_stdout : list string;            (* one item for each [print] *)
  shell_files : list (string * string)   (* path and content *)
}.

Definition shell_print (line : string) (sh : Shell) : Shell :=
  mkShell (shell_stdout sh ++ [line]) (shell_files sh).

Definition shell_write (path text : string) (sh : Shell) : Shell :=
  mkShell (shell_stdout sh) (dict_set String.eqb path text (shell_files sh)).

Definition important_cookies : list string :=
  ["_mfp_session"; "__Secure-next-auth.session-token"; "known_user"; "remember_me"].

(** The body of [for key in important_cookies] *)
Definition print_key_cookie (cookie_dict : list (string * ExportedEntry))
    (sh : Shell) (key : string) : Shell :=
  match dict_lookup String.eqb key cookie_dict with
  | Some entry =>
      shell_print ("  - " +:+ key +:+ ": " +:+ String.substring 0 20 (ex_value entry) +:+ "...") sh
  | None => sh
  end.

(** [export_cookies_to_env] *)
Definition export_cookies_to_env (ex : ExportEnv) (sh : Shell) : res bool * Shell :=
  let sh1 := shell_print "🍪 Extracting MyFitnessPal cookies from browser..." sh in
  match browser_cookie3_load ex "myfitnesspal.com" with
  | Raise e => (Raise e, sh1)
  | Ok cookies =>
      let cookie_dict := build_cookie_dict cookies in
      match cookie_dict with
      | [] =>
          (Ok false,
           shell_print
             "❌ No cookies found! Make sure you're logged into MyFitnessPal in your browser."
             sh1)
      | _ =>
          let sh2 :=
            shell_print ("✓ Found " +:+ PyStr.of_nat (length cookie_dict) +:+ " cookies") sh1 in
          let cookies_json := json_dumps ex (cookie_dict_json cookie_dict) in
          match open_for_writing ex (env_path ex) with
          | Raise e => (Raise e, sh2)
          | Ok _ =>
              let sh3 :=
                shell_write (env_path ex)
                  ("# MyFitnessPal Cookies (extracted from browser)" +:+ nl +:+
                   "# Use this for deployment without browser access" +:+ nl +:+ nl +:+
                   "MFP_COOKIES=" +:+ cookies_json +:+ nl)
                  sh2 in
              let sh4 := shell_print ("✓ Saved cookies to " +:+ env_path ex) sh3 in
              let sh5 := shell_print (nl +:+ "📝 Key cookies found:") sh4 in
              let sh6 := fold_left (print_key_cookie cookie_dict) important_cookies sh5 in
              let sh7 := shell_print (nl +:+ "⚠️  Security Notes:") sh6 in
              let sh8 :=
                shell_print "  - These cookies grant access to your MyFitnessPal account" sh7 in
              let sh9 := shell_print "  - Keep .env file secure and never commit to git" sh8 in
              let sh10 :=
                shell_print "  - Cookies expire after ~30 days, re-run this script when needed"
                  sh9 in
              (Ok true, sh10)
          end
      end
  end.

(** * Specification vocabulary

    The notions the statements below are written with.  None of them is
    part of the program. *)

(** ** Division *)

(** A result that is not a [ZeroDivisionError]. *)
Definition no_zero_division {A} (r : res A) : Prop :=
  match r with
  | Ok _ => True
  | Raise e => is_ZeroDivisionError e = false
  end.

(** ** Daily summary *)

(** The quantities of the claim, in its words: every exercise entry of the
    day, its [minutes] with absent read as zero, its [calories burned]. *)
Definition all_exercise_entries (day : Day) : list Entry :=
  flat_map exercise_entries (day_exercises day).

Definition minutes_of (entry : Entry) : Q :=
  match nutrition_information entry !! "minutes" with
  | Some m => m
  | None => 0%Q
  end.

Definition burned_of (entry : Entry) : Q :=
  match nutrition_information entry !! "calories burned" with
  | Some c => c
  | None => 0%Q
  end.

Definition total (xs : list Q) : Q := fold_right Qplus 0%Q xs.

(** ** Macro and micronutrient breakdown *)

(** The lines of the claim, in its words. *)
Definition value_or_zero (totals : gmap string Q) (name : string) : Q :=
  match totals !! name with
  | Some v => v
  | None => 0%Q
  end.

(** [value / goal * 100] as the code computes it: the double nearest to
    the quotient, times 100, rounded again. *)
Definition percent (value goal : Q) : spec_float :=
  Binary64.mul (Binary64.of_Q (value / goal)) (Binary64.of_Z 100).

Definition percent_line (display_name unit_ : string) (value goal : Q) : string :=
  PyStr.concat_all
    [ "- **"; display_name; "**: "; f0 value; unit_; " / "; f0 goal; unit_;
      " ("; Binary64.format_f 0 (percent value goal); "%)"; nl ].

Definition bare_line (display_name unit_ : string) (value : Q) : string :=
  PyStr.concat_all [ "- **"; display_name; "**: "; f0 value; unit_; nl ].

(** "value/goal (percent)" exactly when the goal is present and > 0. *)
Definition nutrient_line (totals goals : gmap string Q)
    (name display_name unit_ : string) : string :=
  match goals !! name with
  | Some goal =>
      if Qlt_le_dec 0 goal
      then percent_line display_name unit_ (value_or_zero totals name) goal
      else bare_line display_name unit_ (value_or_zero totals name)
  | None => bare_line display_name unit_ (value_or_zero totals name)
  end.

(** A line shown exactly when its key exists in totals. *)
Definition when_present (totals : gmap string Q) (key : string) (line : Q -> string) : string :=
  match totals !! key with
  | Some v => line v
  | None => ""
  end.

Definition sub_line (label : string) (v : Q) : string :=
  PyStr.concat_all [ "  - "; label; ": "; f1 v; "g"; nl ].

(** ** The failure boundary *)

Definition error_text (subject : string) (e : exn) : string :=
  "Error retrieving " +:+ subject +:+ ": " +:+ exn_str e.

(** A plain-text response: one content block, of type [text], holding the
    text, and no structured content. *)
Definition plain_text (text : string) : ToolResult :=
  {| content := [ {| content_type := "text"; content_text := text |} ];
     structured_content := None |}.

(** The date argument and the report of each single-day tool. *)
Definition single_day (call : tool_call)
  : option (option string * (date -> Day -> res string)) :=
  match call with
  | CallDailySummary a => Some (a, format_daily_summary)
  | CallDailyMeals a => Some (a, format_daily_meals)
  | CallDailyExercise a => Some (a, format_daily_exercise)
  | CallDailyMacros a => Some (a, format_daily_macros)
  | CallWaterIntake a => Some (a, format_water_intake)
  | CallDateRangeSummary _ _ => None
  end.

(** How the work of a call ends: with the text of a report, or with an
    exception raised at one of its stages. *)
Inductive ending :=
  | Reported (output : string)
  | Failed (e : exn).

(** [work_ends env call w o w']: serving [call] in state [w], the stages
    run in order (date parsing, for a range the order check, client
    construction, fetching, formatting); the first one that raises ends
    the work with its exception, and when none does the work ends with the
    report.  [w'] is the process state at that moment. *)
Inductive work_ends (env : Collab) : tool_call -> World -> ending -> World -> Prop :=
  | parsing_fails call a format w e :
      single_day call = Some (a, format) ->
      parse_date (today w) a = Raise e ->
      work_ends env call w (Failed e) w
  | client_fails call a format w d e w1 :
      single_day call = Some (a, format) ->
      parse_date (today w) a = Ok d ->
      get_client env w = (Raise e, w1) ->
      work_ends env call w (Failed e) w1
  | fetching_fails call a format w d c w1 e :
      single_day call = Some (a, format) ->
      parse_date (today w) a = Ok d ->
      get_client env w = (Ok c, w1) ->
      mfp_get_date env (client c) d = Raise e ->
      work_ends env call w (Failed e) (log_fetch d w1)
  | formatting_fails call a format w d c w1 day e :
      single_day call = Some (a, format) ->
      parse_date (today w) a = Ok d ->
      get_client env w = (Ok c, w1) ->
      mfp_get_date env (client c) d = Ok day ->
      format d day = Raise e ->
      work_ends env call w (Failed e) (log_fetch d w1)
  | day_reported call a format w d c w1 day output :
      single_day call = Some (a, format) ->
      parse_date (today w) a = Ok d ->
      get_client env w = (Ok c, w1) ->
      mfp_get_date env (client c) d = Ok day ->
      format d day = Ok output ->
      work_ends env call w (Reported output) (log_fetch d w1)
  | start_parsing_fails start_date end_date w e :
      parse_date (today w) (Some start_date) = Raise e ->
      work_ends env (CallDateRangeSummary start_date end_date) w (Failed e) w
  | end_parsing_fails start_date end_date w start e :
      parse_date (today w) (Some start_date) = Ok start ->
      parse_date (today w) (Some end_date) = Raise e ->
      work_ends env (CallDateRangeSummary start_date end_date) w (Failed e) w
  | order_check_fails start_date end_date w start end_ :
      parse_date (today w) (Some start_date) = Ok start ->
      parse_date (today w) (Some end_date) = Ok end_ ->
      PyDate.gtb start end_ = true ->
      work_ends env (CallDateRangeSummary start_date end_date) w
        (Failed (Exn ValueError "Start date must be before or equal to end date")) w
  | range_client_fails start_date end_date w start end_ e w1 :
      parse_date (today w) (Some start_date) = Ok start ->
      parse_date (today w) (Some end_date) = Ok end_ ->
      PyDate.gtb start end_ = false ->
      get_client env w = (Raise e, w1) ->
      work_ends env (CallDateRangeSummary start_date end_date) w (Failed e) w1
  | range_fetching_fails start_date end_date w start end_ c w1 days e w2 :
      parse_date (today w) (Some start_date) = Ok start ->
      parse_date (today w) (Some end_date) = Ok end_ ->
      PyDate.gtb start end_ = false ->
      get_client env w = (Ok c, w1) ->
      get_date_range env c start end_ w1 = (days, Raise e, w2) ->
      work_ends env (CallDateRangeSummary start_date end_date) w (Failed e) w2
  | range_formatting_fails start_date end_date w start end_ c w1 days w2 e :
      parse_date (today w) (Some start_date) = Ok start ->
      parse_date (today w) (Some end_date) = Ok end_ ->
      PyDate.gtb start end_ = false ->
      get_client env w = (Ok c, w1) ->
      get_date_range env c start end_ w1 = (days, Ok tt, w2) ->
      format_range_summary start end_ (map snapshot days) = Raise e ->
      work_ends env (CallDateRangeSummary start_date end_date) w (Failed e) w2
  | range_reported start_date end_date w start end_ c w1 days w2 output :
      parse_date (today w) (Some start_date) = Ok start ->
      parse_date (today w) (Some end_date) = Ok end_ ->
      PyDate.gtb start end_ = false ->
      get_client env w = (Ok c, w1) ->
      get_date_range env c start end_ w1 = (days, Ok tt, w2) ->
      format_range_summary start end_ (map snapshot days) = Ok output ->
      work_ends env (CallDateRangeSummary start_date end_date) w (Reported output) w2.

(** ** Missing credentials *)

(** Neither source of credentials is accepted: the library refuses the jar
    loaded from the environment, if there is one, and the browser session. *)
Definition no_valid_credentials (env : Collab) (w : World) : Prop :=
  (forall jar, fst (_load_cookies_from_env env w) = Ok (Some jar) ->
     exists e, mfp_Client env (Some jar) = Raise e) /\
  (exists e, mfp_Client env None = Raise e).

(** The date arguments of a call are accepted by the parser and, for a
    range, in order. *)
Definition dates_accepted (w : World) (call : tool_call) : Prop :=
  match call with
  | CallDateRangeSummary s e =>
      exists start end_,
        parse_date (today w) (Some s) = Ok start /\
        parse_date (today w) (Some e) = Ok end_ /\
        PyDate.gtb start end_ = false
  | CallDailySummary a | CallDailyMeals a | CallDailyExercise a
  | CallDailyMacros a | CallWaterIntake a =>
      exists target_date, parse_date (today w) a = Ok target_date
  end.

(** ** The cookie loader *)

(** The shape the loader accepts, read off section 4.1 of the
    specification: a mapping from cookie name to an object holding [value]
    and, optionally, a textual [domain] and a [path] usable as a dictionary
    key. *)
Definition well_formed_entry (data : json) : bool :=
  match data with
  | JObj fields =>
      match assoc_get "value" fields with
      | Some _ =>
          match assoc_get "domain" fields with
          | None | Some (JStr _) =>
              match assoc_get "path" fields with
              | None => true
              | Some p => hashable p
              end
          | Some _ => false
          end
      | None => false
      end
  | _ => false
  end.

Definition well_formed_mapping (j : json) : bool :=
  match j with
  | JObj items => forallb (fun item => well_formed_entry (snd item)) items
  | _ => false
  end.

(** Malformed input: the text does not decode, or what it decodes to does
    not have that shape. *)
Definition malformed (env : Collab) (cookies_json : string) : Prop :=
  match json_loads env cookies_json with
  | Raise _ => True
  | Ok j => well_formed_mapping j = false
  end.

Definition warning_of (e : exn) : string :=
  "Warning: Failed to load cookies from environment: " +:+ exn_str e.

(** ** The ranged fetch *)

Definition date_lt (a b : date) : Prop := PyDate.ltb a b = true.

Definition date_max : date := mkdate 9999 12 31.

Definition overflow : exn := Exn OverflowError "date value out of range".

Definition log_fetches (ds : list date) (w : World) : World :=
  mkWorld (today w) (MFP_COOKIES w) (_client w) (stdout w) (fetched w ++ ds).

(** What the generator has yielded once the dates [ds] were requested. *)
Definition yielded_over (env : Collab) (self : MyFitnessPalClient) (ds : list date) : list Day :=
  flat_map (fun d => yielded_of (mfp_get_date env (client self) d)) ds.

(** The dates from [current] to [end_date]: valid, strictly ascending, and
    exactly the calendar dates in between. *)
Definition is_date_range (current end_date : date) (ds : list date) : Prop :=
  Forall (fun d => PyDate.valid d = true) ds /\
  StronglySorted date_lt ds /\
  forall x, PyDate.valid x = true ->
    (In x ds <-> PyDate.leb current x = true /\ PyDate.leb x end_date = true).

(** ** Rounding *)

(** Rounding half to even, stated by comparison with the midpoint. *)
Definition round_by_compare (q : Q) : Z :=
  let fl := Qfloor q in
  match Qcompare (q * 2) (inject_Z (2 * fl + 1)) with
  | Lt => fl
  | Gt => fl + 1
  | Eq => if Z.even fl then fl else fl + 1
  end.

(** ** Date range summary *)

(** The quantities of the report, over the days the ranged fetch
    yielded. *)
Definition total_of (name : string) (day : Day) : Q := value_or_zero (day_totals day) name.

(** The average the report prints: the double nearest to sum / count. *)
Definition average (xs : list Q) : spec_float :=
  Binary64.of_Q (PyNum.sum xs / Q_of_nat (length xs)).

(** Millilitres to ounces: a division by the double of [29.5735]. *)
Definition in_ounces (ml : spec_float) : spec_float :=
  Binary64.div ml (Binary64.literal 295735 4).

Definition has_exercises (day : Day) : bool :=
  match day_exercises day with
  | [] => false
  | _ => true
  end.

Definition days_complete (days : list Day) : nat :=
  length (filter (fun day => day_complete day = true) days).

Definition days_exercised (days : list Day) : nat :=
  length (filter (fun day => has_exercises day = true) days).

(** [k / n * 100] for two counts *)
Definition percent_of (k n : nat) : spec_float := percent (Q_of_nat k) (Q_of_nat n).

Definition day_line (day : Day) : string :=
  PyStr.concat_all
    [ "- **"; strftime_Ymd (day_date day); "**: ";
      f0 (total_of "calories" day); " kcal, ";
      f0 (total_of "carbohydrates" day); "C/"; f0 (total_of "fat" day); "F/";
      f0 (total_of "protein" day); "P, ";
      Binary64.format_f 0 (in_ounces (Binary64.of_Q (day_water day))); " oz water";
      match day_complete day, has_exercises day with
      | true, true =>
          " [âœ“, " +:+ PyStr.of_nat (length (day_exercises day)) +:+ " exercises]"
      | true, false => " [âœ“]"
      | false, true => " [" +:+ PyStr.of_nat (length (day_exercises day)) +:+ " exercises]"
      | false, false => ""
      end;
      nl ].

(** The report for a sequence of yielded days. *)
Definition range_report (start end_ : date) (days : list Day) : string :=
  match days with
  | [] => "No data available for the specified date range."
  | _ =>
      let n := length days in
      PyStr.concat_all
        [ "# Date Range Summary"; nl;
          "**"; strftime_BdY start; "** to **"; strftime_BdY end_; "**"; nl;
          "("; PyStr.of_nat n; " days)"; nl; nl;
          "## Daily Averages"; nl;
          "- **Calories**: ";
              Binary64.format_f 0 (average (map (total_of "calories") days)); " kcal/day"; nl;
          "- **Carbohydrates**: ";
              Binary64.format_f 0 (average (map (total_of "carbohydrates") days)); "g/day"; nl;
          "- **Fat**: "; Binary64.format_f 0 (average (map (total_of "fat") days)); "g/day"; nl;
          "- **Protein**: ";
              Binary64.format_f 0 (average (map (total_of "protein") days)); "g/day"; nl;
          "- **Water**: ";
              Binary64.format_f 0 (in_ounces (average (map day_water days))); " oz/day (";
              Binary64.format_f 0 (average (map day_water days)); " ml/day)"; nl; nl;
          "## Tracking Stats"; nl;
          "- **Days Completed**: "; PyStr.of_nat (days_complete days); "/"; PyStr.of_nat n;
              " ("; Binary64.format_f 0 (percent_of (days_complete days) n); "%)"; nl;
          "- **Days with Exercise**: "; PyStr.of_nat (days_exercised days); "/";
              PyStr.of_nat n;
              " ("; Binary64.format_f 0 (percent_of (days_exercised days) n); "%)"; nl; nl;
          "## Daily Breakdown"; nl;
          PyStr.concat_all (map day_line days) ]
  end.

(** ** The date parser *)

(** The texts [strptime] reads with ['%Y-%m-%d'], stated as a grammar:
    four digits; a month 1..12 written with one digit or with two; a day
    1..31 written with one digit, with a space and one digit, or with
    two. *)
Definition digit_char (v : Z) : ascii := ascii_of_N (48 + Z.to_N v).

Definition is_digit_value (v : Z) : Prop := 0 <= v <= 9.

Inductive year_text : string -> Z -> Prop :=
  | year_four_digits a b c d :
      is_digit_value a -> is_digit_value b -> is_digit_value c -> is_digit_value d ->
      year_text
        (String (digit_char a) (String (digit_char b)
           (String (digit_char c) (String (digit_char d) EmptyString))))
        (1000 * a + 100 * b + 10 * c + d).

Inductive month_text : string -> Z -> Prop :=
  | month_one_digit v :
      1 <= v <= 9 -> month_text (String (digit_char v) EmptyString) v
  | month_two_digits a b :
      is_digit_value a -> is_digit_value b -> 1 <= 10 * a + b <= 12 ->
      month_text (String (digit_char a) (String (digit_char b) EmptyString)) (10 * a + b).

Inductive day_text : string -> Z -> Prop :=
  | day_one_digit v :
      1 <= v <= 9 -> day_text (String (digit_char v) EmptyString) v
  | day_space_digit v :
      1 <= v <= 9 -> day_text (String " " (String (digit_char v) EmptyString)) v
  | day_two_digits a b :
      is_digit_value a -> is_digit_value b -> 1 <= 10 * a + b <= 31 ->
      day_text (String (digit_char a) (String (digit_char b) EmptyString)) (10 * a + b).

(** [s] is a text of the calendar date [d]. *)
Definition date_text (s : string) (d : date) : Prop :=
  exists ys ms ds,
    s = ys +:+ "-" +:+ ms +:+ "-" +:+ ds /\
    year_text ys (year d) /\ month_text ms (month d) /\ day_text ds (day d) /\
    PyDate.valid d = true.

(** The shape the claim names: YYYY-MM-DD with two-digit month and day. *)
Definition exact_shape (s : string) : bool :=
  match s with
  | String y1 (String y2 (String y3 (String y4 (String "-"
      (String m1 (String m2 (String "-" (String d1 (String d2 EmptyString))))))))) =>
      forallb (fun c => match digit_val c with Some _ => true | None => false end)
        [y1; y2; y3; y4; m1; m2; d1; d2]
  | _ => false
  end.

Definition invalid_format (s : string) : exn :=
  Exn ValueError ("Invalid date format: " +:+ s +:+ ". Use YYYY-MM-DD").

(** The grammar on any text.  [digit v] is the ASCII digit of value [v];
    the year is four decimal digits of any script; the month is written
    in ASCII digits; so is the day, except that after a first digit 1 or
    2 the second digit may be of any script. *)
Definition digit (v : Z) : N := (48 + Z.to_N v)%N.

Definition hyphen : N := 45%N.
Definition space : N := 32%N.

Inductive year_of_text (decimal : N -> option Z) : text -> Z -> Prop :=
  | year_of_four a b c d va vb vc vd :
      decimal_value decimal a = Some va -> decimal_value decimal b = Some vb ->
      decimal_value decimal c = Some vc -> decimal_value decimal d = Some vd ->
      year_of_text decimal [a; b; c; d] (1000 * va + 100 * vb + 10 * vc + vd).

Inductive month_of_text : text -> Z -> Prop :=
  | month_of_one v :
      1 <= v <= 9 -> month_of_text [digit v] v
  | month_of_two a b :
      is_digit_value a -> is_digit_value b -> 1 <= 10 * a + b <= 12 ->
      month_of_text [digit a; digit b] (10 * a + b).

Inductive day_of_text (decimal : N -> option Z) : text -> Z -> Prop :=
  | day_of_one v :
      1 <= v <= 9 -> day_of_text decimal [digit v] v
  | day_of_space v :
      1 <= v <= 9 -> day_of_text decimal [space; digit v] v
  | day_of_zero b :
      1 <= b <= 9 -> day_of_text decimal [digit 0; digit b] b
  | day_of_ten_or_twenty a c vc :
      1 <= a <= 2 -> decimal_value decimal c = Some vc ->
      day_of_text decimal [digit a; c] (10 * a + vc)
  | day_of_thirty b :
      0 <= b <= 1 -> day_of_text decimal [digit 3; digit b] (30 + b).

Definition date_of_text (decimal : N -> option Z) (s : text) (d : date) : Prop :=
  exists ys ms ds,
    s = ys ++ [hyphen] ++ ms ++ [hyphen] ++ ds /\
    year_of_text decimal ys (year d) /\ month_of_text ms (month d) /\
    day_of_text decimal ds (day d) /\
    PyDate.valid d = true.

Definition invalid_format_text (s : text) : text :=
  codepoints "Invalid date format: " ++ s ++ codepoints ". Use YYYY-MM-DD".

(** What [parse_date] on a [string] is, as a result on texts. *)
Definition as_parsed (r : res date) : parsed :=
  match r with
  | Ok d => ParsedDate d
  | Raise e => InvalidFormat (codepoints (exn_str e))
  end.

(** A partial match on a string, seen as one on a text. *)
Definition lift_rest {A} (x : A * string) : A * text := (fst x, codepoints (snd x)).

(** The full-width digits U+FF10 to U+FF19, the one script a sample
    database knows beyond ASCII. *)
Definition fullwidth_digits (c : N) : option Z :=
  if ((65296 <=? c) && (c <=? 65305))%N then Some (Z.of_N c - 65296) else None.

(** ** Sequences of calls *)

(** The protocol runtime serves one call after the other. *)
Fixpoint run_calls (env : Collab) (calls : list tool_call) (w : World)
  : list ToolResult * World :=
  match calls with
  | [] => ([], w)
  | call :: rest =>
      match invoke env call w with
      | (r, w1) =>
          match run_calls env rest w1 with
          | (rs, w2) => (r :: rs, w2)
          end
      end
  end.

(** [w'] continues [w]: the clock and the environment are the same, standard
    output and the request log have only grown, and a client that was
    there is still there, with nothing printed since. *)
Definition continues (w w' : World) : Prop :=
  today w' = today w /\
  MFP_COOKIES w' = MFP_COOKIES w /\
  (exists lines, stdout w' = stdout w ++ lines) /\
  (exists requests, fetched w' = fetched w ++ requests) /\
  (forall c, _client w = Some c -> _client w' = Some c /\ stdout w' = stdout w).

(** ** Decimal digits of a number *)

Definition four_digits (y : Z) : string :=
  String (digit_char (y / 1000)) (String (digit_char (y / 100 mod 10))
    (String (digit_char (y / 10 mod 10)) (String (digit_char (y mod 10)) EmptyString))).

Definition two_digit_text (m : Z) : string :=
  String (digit_char (m / 10)) (String (digit_char (m mod 10)) EmptyString).

(** ** Exercise report *)

(** The block of one exercise entry: its name, its duration when the
    [minutes] field is there and not zero, its calories when not zero. *)
Definition exercise_entry_text (entry : Entry) : string :=
  PyStr.concat_all
    [ "- **"; entry_name entry; "**"; nl;
      match nutrition_information entry !! "minutes" with
      | Some minutes =>
          if truthy minutes
          then "  - Duration: " +:+ f0 minutes +:+ " minutes" +:+ nl
          else ""
      | None => ""
      end;
      (if truthy (burned_of entry)
       then "  - Calories Burned: " +:+ f0 (burned_of entry) +:+ " kcal" +:+ nl
       else "");
      nl ].

(** ** Cookies of a mapping *)

(** One projection of everything a jar holds: of each stored pair of a
    name and its cookie. *)
Definition jar_proj {A} (g : string * Cookie -> A) (jar : CookieJar) : list A :=
  flat_map (fun dp => flat_map (fun pn => map g (snd pn)) (snd dp)) jar.

Definition entry_field (data : json) (key : string) : option json :=
  match data with
  | JObj fields => assoc_get key fields
  | _ => None
  end.

Definition text_or (dflt : string) (j : option json) : string :=
  match j with
  | Some (JStr s) => s
  | _ => dflt
  end.

(** The cookie of one item of the mapping: the given name and value; the
    domain in lower case, [.myfitnesspal.com] when none is given; the
    initial-dot flag read off the given domain only; the path, [/] when
    none is given; the secure flag, false when none is given. *)
Definition cookie_of_entry (item : string * json) : Cookie :=
  let field := entry_field (snd item) in
  {| cookie_version := 0;
     cookie_name := fst item;
     cookie_value := match field "value" with Some v => v | None => JNull end;
     cookie_port_specified := false;
     cookie_domain := lower_string (text_or ".myfitnesspal.com" (field "domain"));
     cookie_domain_specified := true;
     cookie_domain_initial_dot := PyStr.startswith "." (text_or "" (field "domain"));
     cookie_path := match field "path" with Some p => p | None => JStr "/" end;
     cookie_path_specified := true;
     cookie_secure := match field "secure" with Some b => b | None => JBool false end;
     cookie_discard := true |}.

(** How the account client is built when the browser is the source. *)
Definition from_browser (env : Collab) : res MyFitnessPalClient :=
  match mfp_Client env None with
  | Ok c => Ok (mkClient c)
  | Raise e => Raise e
  end.

(** How it is built from a cookie jar. *)
Definition from_jar (env : Collab) (jar : CookieJar) : res MyFitnessPalClient :=
  match mfp_Client env (Some jar) with
  | Ok c => Ok (mkClient c)
  | Raise e => Raise e
  end.

(** ** Export and reload *)

(** The last cookie of the list that has the given name. *)
Definition last_named (name : string) (cookies : list BrowserCookie) : option BrowserCookie :=
  find (fun b => String.eqb (bc_name b) name) (rev cookies).

(** The cookie the server holds for an exported browser cookie. *)
Definition reloaded (b : BrowserCookie) : Cookie :=
  {| cookie_version := 0;
     cookie_name := bc_name b;
     cookie_value := JStr (bc_value b);
     cookie_port_specified := false;
     cookie_domain := lower_string (bc_domain b);
     cookie_domain_specified := true;
     cookie_domain_initial_dot := PyStr.startswith "." (bc_domain b);
     cookie_path := JStr (bc_path b);
     cookie_path_specified := true;
     cookie_secure := bc_secure b;
     cookie_discard := true |}.

(** The text of the [.env] file for a given encoded mapping. *)
Definition env_file_text (cookies_json : string) : string :=
  "# MyFitnessPal Cookies (extracted from browser)" +:+ nl +:+
  "# Use this for deployment without browser access" +:+ nl +:+ nl +:+
  "MFP_COOKIES=" +:+ cookies_json +:+ nl.

(** ** Sample data

    A small remote account and process state on which the statements below
    are evaluated. *)

Module Sample.

Definition dq : string := String (ascii_of_N 34) EmptyString.

(** The text [{"a": {"value": "x"}}] *)
Definition cookies_text : string :=
  PyStr.concat_all ["{"; dq; "a"; dq; ": {"; dq; "value"; dq; ": "; dq; "x"; dq; "}}"].

Definition cookies_json : json := JObj [("a", JObj [("value", JStr "x")])].

Definition decode_error : exn :=
  Exn JSONDecodeError "Expecting value: line 1 column 1 (char 0)".

Definition loads (s : string) : res json :=
  if String.eqb s cookies_text then Ok cookies_json
  else if String.eqb s "[1, 2]" then Ok (JArr [JInt 1; JInt 2])
  else Raise decode_error.

Definition breakfast : Meal :=
  mkMeal "Breakfast" (<["calories" := 600%Q]> ∅)
    [mkEntry "Oatmeal" "1.0" "cup" (<["calories" := 600%Q]> ∅)].

Definition lunch : Meal := mkMeal "Lunch" (<["calories" := 1200%Q]> ∅) [].

Definition run : Exercise :=
  mkExercise [mkEntry "Running" "1" "session"
                (<["minutes" := 30%Q]> (<["calories burned" := 300%Q]> ∅))].

Definition day_with (d : date) (calories water : Q) (done : bool) (exs : list Exercise) : Day :=
  mkDay d
    (<["calories" := calories]> (<["fat" := 70%Q]> (<["saturated fat" := (45 # 2)%Q]> ∅)))
    (<["calories" := 2000%Q]> (<["fat" := 0%Q]> ∅))
    water [breakfast; lunch] exs done.

Definition jan (n : Z) : date := mkdate 2024 1 n.

(** The remote account: three January days are on record, the second of
    January fails, any other date is an empty day. *)
Definition remote (_ : LibClient) (d : date) : res Day :=
  if PyDate.eqb d (jan 1) then Ok (day_with d 2000 2000 true [run])
  else if PyDate.eqb d (jan 2) then Raise (Exn (OtherException "ConnectionError") "connection reset")
  else if PyDate.eqb d (jan 3) then Ok (day_with d 1800 1500 false [])
  else if PyDate.eqb d (jan 4) then Ok (day_with d 2200 0 true [])
  else if PyDate.eqb d (jan 5) then Ok (day_with d 2000 2000 false [])
  else Raise (Exn (OtherException "ConnectionError") "connection reset").

Definition env : Collab := mkCollab loads (fun jar => Ok (mkLibClient jar)) remote.

(** An account nobody is logged in to: the library refuses every source. *)
Definition not_logged_in : exn :=
  Exn (OtherException "MyfitnesspalLoginError") "Could not access MyFitnessPal: no valid session".

Definition env_no_credentials : Collab :=
  mkCollab loads (fun _ => Raise not_logged_in) remote.

Definition world (today_ : date) (cookies : option string) : World :=
  mkWorld today_ cookies None [] [].

Definition w0 : World := world (jan 3) None.

End Sample.

(** * Verified properties *)

(** ** String helpers *)

Lemma append_assoc (a b c : string) : (a +:+ b) +:+ c = a +:+ (b +:+ c).
Proof.
  induction a as [|x a IH]; [reflexivity|].
  change (String x ((a +:+ b) +:+ c) = String x (a +:+ (b +:+ c))).
  f_equal. exact IH.
Qed.

Lemma append_nil_r (a : string) : a +:+ EmptyString = a.
Proof.
  induction a as [|x a IH]; [reflexivity|].
  change (String x (a +:+ EmptyString) = String x a).
  f_equal. exact IH.
Qed.

(** ** Arithmetic helpers *)

Lemma truediv_ok (a b : Q) : PyNum.is_zero b = false -> truediv a b = Ok (a / b)%Q.
Proof. intros H. unfold truediv. rewrite H. reflexivity. Qed.

Lemma truediv_zero (a b : Q) :
  PyNum.is_zero b = true -> truediv a b = Raise (Exn ZeroDivisionError "division by zero").
Proof. intros H. unfold truediv. rewrite H. reflexivity. Qed.

Lemma positive_not_zero (g : Q) : positive g = true -> PyNum.is_zero g = false.
Proof.
  unfold positive, PyNum.Qltb, PyNum.is_zero, Qle_bool. destruct g as [n d]. simpl.
  intros H. apply negb_true_iff in H. lia.
Qed.

Lemma Q_of_nat_S_not_zero (n : nat) : PyNum.is_zero (Q_of_nat (S n)) = false.
Proof. unfold PyNum.is_zero, Q_of_nat. simpl. lia. Qed.

Lemma positive_Q_of_nat_S (n : nat) : positive (Q_of_nat (S n)) = true.
Proof.
  unfold positive, PyNum.Qltb, Qle_bool, Q_of_nat. cbn [Qnum Qden inject_Z].
  apply negb_true_iff. apply Z.leb_gt. lia.
Qed.

Lemma float_truediv_pos (a b : Q) :
  positive b = true -> float_truediv a b = Ok (Binary64.of_Q (a / b)).
Proof.
  intros Hb. unfold float_truediv. rewrite (positive_not_zero b Hb).
  destruct (PyNum.is_zero a) eqn:Ha; [|reflexivity].
  assert (Hneg : PyNum.Qltb b 0 = false).
  { unfold positive, PyNum.Qltb, Qle_bool in *. destruct b as [n d].
    cbn [Qnum Qden] in *. apply negb_true_iff in Hb. apply negb_false_iff.
    apply Z.leb_le. apply Z.leb_gt in Hb. lia. }
  rewrite Hneg. unfold Binary64.of_Q, PyNum.is_zero in *.
  apply Z.eqb_eq in Ha. unfold Qdiv, Qmult. cbn [Qnum]. rewrite Ha. reflexivity.
Qed.

Lemma float_div_ounces (x : spec_float) :
  float_div x ML_PER_OZ_double = Ok (Binary64.div x (Binary64.literal 295735 4)).
Proof.
  unfold float_div, ML_PER_OZ_double.
  replace (Binary64.literal 295735 4) with (S754_finite false 8324200223752585 (-48))
    by (vm_compute; reflexivity).
  reflexivity.
Qed.

Lemma concat_res_breakdown_ok (daily_data : list DayData) :
  exists out, concat_res (map format_breakdown_line daily_data) = Ok out.
Proof.
  induction daily_data as [|d ds [out IH]]; cbn [map concat_res].
  - eexists. reflexivity.
  - unfold format_breakdown_line at 1. rewrite float_div_ounces.
    cbn [res_bind]. rewrite IH. cbn [res_bind]. eexists. reflexivity.
Qed.

Lemma format_nutrient_ok (totals goals : gmap string Q) (name display_name unit_ : string) :
  exists out, format_nutrient totals goals name display_name unit_ = Ok out.
Proof.
  unfold format_nutrient. destruct (positive _) eqn:Hg.
  - rewrite float_truediv_pos by exact Hg. cbn [res_bind]. eexists. reflexivity.
  - eexists. reflexivity.
Qed.

Lemma micro_line_ok (totals goals : gmap string Q) (key display_name unit_ : string) :
  exists out, micro_line totals goals key display_name unit_ = Ok out.
Proof.
  unfold micro_line. destruct (dict_has _ _).
  - apply format_nutrient_ok.
  - eexists. reflexivity.
Qed.

Lemma format_daily_summary_ok (target_date : date) (day : Day) :
  exists out, format_daily_summary target_date day = Ok out.
Proof.
  unfold format_daily_summary. rewrite !truediv_ok by reflexivity. simpl.
  destruct (summary_exercise_loop _) as [[c m] k]. eexists. reflexivity.
Qed.

Lemma format_daily_exercise_ok (target_date : date) (day : Day) :
  exists out, format_daily_exercise target_date day = Ok out.
Proof.
  unfold format_daily_exercise. destruct (day_exercises day) as [|x xs].
  - eexists. reflexivity.
  - destruct (flat_map _ _) as [|e es].
    + eexists. reflexivity.
    + destruct (fold_left _ _ _) as [[o c] m]. eexists. reflexivity.
Qed.

Lemma format_daily_macros_ok (target_date : date) (day : Day) :
  exists out, format_daily_macros target_date day = Ok out.
Proof.
  unfold format_daily_macros. cbn [concat_res res_bind].
  repeat match goal with
  | |- context [format_nutrient ?t ?g ?n ?d ?u] =>
      let o := fresh "o" in let E := fresh "E" in
      destruct (format_nutrient_ok t g n d u) as [o E]; rewrite E; clear E; cbn [res_bind]
  | |- context [micro_line ?t ?g ?n ?d ?u] =>
      let o := fresh "o" in let E := fresh "E" in
      destruct (micro_line_ok t g n d u) as [o E]; rewrite E; clear E; cbn [res_bind]
  end.
  eexists. reflexivity.
Qed.

Lemma format_water_intake_ok (target_date : date) (day : Day) :
  exists out, format_water_intake target_date day = Ok out.
Proof.
  unfold format_water_intake. rewrite !truediv_ok by reflexivity. cbn [res_bind].
  destruct (positive _).
  - rewrite truediv_ok by reflexivity. eexists. reflexivity.
  - eexists. reflexivity.
Qed.

Lemma format_range_summary_ok (start end_ : date) (daily_data : list DayData) :
  exists out, format_range_summary start end_ daily_data = Ok out.
Proof.
  unfold format_range_summary. destruct daily_data as [|d ds].
  - eexists. reflexivity.
  - remember (d :: ds) as dd. cbn [length] in *.
    assert (Hn : positive (Q_of_nat (length dd)) = true)
      by (subst dd; apply positive_Q_of_nat_S).
    rewrite !(float_truediv_pos _ _ Hn). cbn [res_bind].
    rewrite float_div_ounces. cbn [res_bind].
    destruct (concat_res_breakdown_ok dd) as [out E]. rewrite E. cbn [res_bind].
    eexists. reflexivity.
Qed.

(** C10. No formatter divides by zero, whatever Day or sequence of days it
    is given.  Division in the model is partial ([truediv], and likewise
    the divisions that return a double, raise [ZeroDivisionError] on a
    zero divisor), and every report returns normally: the percentage of a
    nutrient is computed only under [goal > 0], the range averages and
    percentages only after the empty sequence has returned its message,
    the water progress only for a positive amount, and the other divisors
    are the constants 29.5735, 236.588 and 64. *)
Theorem formatters_never_divide_by_zero :
  (forall a, truediv a 0 = Raise (Exn ZeroDivisionError "division by zero")) /\
  (forall a, float_truediv a 0 = Raise (Exn ZeroDivisionError "division by zero")) /\
  (forall x s,
      float_div x (S754_zero s) = Raise (Exn ZeroDivisionError "float division by zero")) /\
  (forall totals goals name display_name unit_,
      no_zero_division (format_nutrient totals goals name display_name unit_)) /\
  (forall target_date day,
      no_zero_division (format_daily_summary target_date day) /\
      no_zero_division (format_daily_meals target_date day) /\
      no_zero_division (format_daily_exercise target_date day) /\
      no_zero_division (format_daily_macros target_date day) /\
      no_zero_division (format_water_intake target_date day)) /\
  (forall start end_ daily_data,
      no_zero_division (format_range_summary start end_ daily_data)).
Proof.
  split; [intros a; reflexivity|].
  split; [intros a; reflexivity|].
  split; [intros x sg; reflexivity|].
  split.
  { intros. destruct (format_nutrient_ok totals goals name display_name unit_) as [o E].
    rewrite E. exact I. }
  split.
  { intros target_date day.
    destruct (format_daily_summary_ok target_date day) as [o1 E1].
    destruct (format_daily_exercise_ok target_date day) as [o2 E2].
    destruct (format_daily_macros_ok target_date day) as [o3 E3].
    destruct (format_water_intake_ok target_date day) as [o4 E4].
    rewrite E1, E2, E3, E4. repeat split; exact I. }
  intros. destruct (format_range_summary_ok start end_ daily_data) as [o E].
  rewrite E. exact I.
Qed.

(** ** Formatting depends on the value only *)

Lemma round_half_even_compare (q : Q) : PyNum.round_half_even q = round_by_compare q.
Proof.
  destruct q as [n d]. unfold PyNum.round_half_even, round_by_compare, Qfloor, Qcompare.
  cbn [Qnum Qden Qmult inject_Z].
  pose proof (Z.div_mod n (Zpos d) ltac:(lia)) as Hdm.
  pose proof (Z.mod_pos_bound n (Zpos d) ltac:(lia)) as Hb.
  set (fl := n / Zpos d) in *. set (r := n mod Zpos d) in *.
  replace (n * 2 * 1) with (2 * n) by lia.
  replace ((2 * fl + 1) * Zpos (d * 1)) with (2 * (Zpos d * fl) + Zpos d) by lia.
  rewrite Hdm at 1.
  destruct (2 * r <? Zpos d) eqn:E1.
  - replace (2 * (Z.pos d * fl + r) ?= 2 * (Z.pos d * fl) + Z.pos d) with Lt; [reflexivity|].
    symmetry. apply Z.compare_lt_iff. lia.
  - destruct (Zpos d <? 2 * r) eqn:E2.
    + replace (2 * (Z.pos d * fl + r) ?= 2 * (Z.pos d * fl) + Z.pos d) with Gt; [reflexivity|].
      symmetry. apply Z.compare_gt_iff. lia.
    + replace (2 * (Z.pos d * fl + r) ?= 2 * (Z.pos d * fl) + Z.pos d) with Eq; [reflexivity|].
      symmetry. apply Z.compare_eq_iff. lia.
Qed.

Lemma round_half_even_Qeq (p q : Q) :
  (p == q)%Q -> PyNum.round_half_even p = PyNum.round_half_even q.
Proof.
  intros H. rewrite !round_half_even_compare. unfold round_by_compare.
  rewrite (Qfloor_comp _ _ H).
  assert (H2 : (p * 2 == q * 2)%Q) by (rewrite H; reflexivity).
  rewrite (Qcompare_comp _ _ H2 _ _ (Qeq_refl _)). reflexivity.
Qed.

Lemma format_f_Qeq (prec : nat) (p q : Q) :
  (p == q)%Q -> PyNum.format_f prec p = PyNum.format_f prec q.
Proof.
  intros H. unfold PyNum.format_f.
  assert (Hm : (Qabs p * inject_Z (10 ^ Z.of_nat prec) == Qabs q * inject_Z (10 ^ Z.of_nat prec))%Q)
    by (rewrite H; reflexivity).
  rewrite (round_half_even_Qeq _ _ Hm).
  assert (Hs : PyNum.Qltb p 0 = PyNum.Qltb q 0).
  { unfold PyNum.Qltb. f_equal. apply Qleb_comp; [reflexivity | exact H]. }
  rewrite Hs. reflexivity.
Qed.

Lemma f0_Qeq (p q : Q) : (p == q)%Q -> f0 p = f0 q.
Proof. apply format_f_Qeq. Qed.

Lemma f1_Qeq (p q : Q) : (p == q)%Q -> f1 p = f1 q.
Proof. apply format_f_Qeq. Qed.

Lemma sum_total (xs : list Q) : (PyNum.sum xs == total xs)%Q.
Proof.
  unfold PyNum.sum.
  assert (G : forall a, (fold_left Qplus xs a == a + total xs)%Q).
  { induction xs as [|x xs IH]; intros a; cbn [fold_left].
    - unfold total. cbn [fold_right]. ring.
    - rewrite IH. unfold total. cbn [fold_right]. ring. }
  rewrite G. ring.
Qed.

(** ** Water conversion *)

(** In double arithmetic the figures of the water lines come out the same:
    2000 ml is 68 oz and 8.5 cups, 1500 ml is 51 oz and 6.3 cups. *)
Lemma binary64_water_figures :
  let oz := Binary64.literal 295735 4 in
  let cup := Binary64.literal 236588 3 in
  f0 (Binary64.to_Q (Binary64.div (Binary64.of_Z 2000) oz)) = "68" /\
  f1 (Binary64.to_Q (Binary64.div (Binary64.of_Z 2000) cup)) = "8.5" /\
  f0 (Binary64.to_Q (Binary64.div (Binary64.of_Z 1500) oz)) = "51" /\
  f1 (Binary64.to_Q (Binary64.div (Binary64.of_Z 1500) cup)) = "6.3".
Proof. vm_compute. repeat split; reflexivity. Qed.




(** ** Daily summary *)


Lemma is_zero_Qeq (q : Q) : PyNum.is_zero q = true -> (q == 0)%Q.
Proof.
  unfold PyNum.is_zero, Qeq. destruct q as [n d]. simpl. lia.
Qed.





(** ** Macro and micronutrient breakdown *)

Lemma positive_iff (g : Q) : positive g = true <-> (0 < g)%Q.
Proof.
  unfold positive, PyNum.Qltb. rewrite negb_true_iff.
  split.
  - intros H. apply Qnot_le_lt. intros Hle. apply Qle_bool_iff in Hle. congruence.
  - intros H. destruct (Qle_bool g 0) eqn:E; [|reflexivity].
    apply Qle_bool_iff in E. exfalso. exact (Qlt_not_le _ _ H E).
Qed.

Lemma format_nutrient_spec (totals goals : gmap string Q) (name display_name unit_ : string) :
  format_nutrient totals goals name display_name unit_
  = Ok (nutrient_line totals goals name display_name unit_).
Proof.
  unfold format_nutrient, nutrient_line, dict_get, value_or_zero.
  destruct (goals !! name) as [goal|].
  - destruct (Qlt_le_dec 0 goal) as [Hlt|Hle].
    + assert (Hp : positive goal = true) by (apply positive_iff; exact Hlt).
      rewrite Hp. rewrite float_truediv_pos by exact Hp. reflexivity.
    + destruct (positive goal) eqn:Hp; [|reflexivity].
      apply positive_iff in Hp. exfalso. exact (Qlt_not_le _ _ Hp Hle).
  - reflexivity.
Qed.

Lemma fat_subline_spec (totals : gmap string Q) (key label : string) :
  fat_subline totals key label = when_present totals key (sub_line label).
Proof.
  unfold fat_subline, when_present, dict_has, dict_get, sub_line.
  destruct (totals !! key); reflexivity.
Qed.

Lemma micro_line_spec (totals goals : gmap string Q) (key display_name unit_ : string) :
  micro_line totals goals key display_name unit_
  = Ok (when_present totals key
          (fun _ => nutrient_line totals goals key display_name unit_)).
Proof.
  unfold micro_line, when_present, dict_has.
  destruct (totals !! key); [apply format_nutrient_spec | reflexivity].
Qed.

(** C6. The macro report of every day is the following text.  The six
    lines for calories, carbohydrates, protein, fat, fiber and sugar are
    always there, each as "value / goal (percent%)" exactly when its goal
    is present and > 0 and as the bare value otherwise, the value of an
    absent key being 0; each fat sub-line and each micronutrient line is
    there exactly when its key exists in totals, whatever its value.  The
    percent is [value / goal * 100] in double arithmetic, printed without
    decimals: 1150 of 2000 prints 57, the product being just below
    57.5. *)
Theorem macro_breakdown_report :
  (forall target_date day,
     let totals := day_totals day in
     let goals := day_goals day in
     format_daily_macros target_date day =
     Ok (PyStr.concat_all
       [ "# Macros & Nutrients for " +:+ strftime_BdY target_date +:+ nl +:+ nl;
         "## Macronutrients" +:+ nl;
         nutrient_line totals goals "calories" "Calories" "kcal";
         nutrient_line totals goals "carbohydrates" "Carbohydrates" "g";
         nutrient_line totals goals "protein" "Protein" "g";
         nutrient_line totals goals "fat" "Fat" "g";
         when_present totals "saturated fat" (sub_line "Saturated");
         when_present totals "polyunsaturated fat" (sub_line "Polyunsaturated");
         when_present totals "monounsaturated fat" (sub_line "Monounsaturated");
         when_present totals "trans fat" (sub_line "Trans");
         nutrient_line totals goals "fiber" "Fiber" "g";
         nutrient_line totals goals "sugar" "Sugar" "g";
         nl;
         "## Micronutrients" +:+ nl;
         when_present totals "sodium" (fun _ => nutrient_line totals goals "sodium" "Sodium" "mg");
         when_present totals "potassium"
           (fun _ => nutrient_line totals goals "potassium" "Potassium" "mg");
         when_present totals "cholesterol"
           (fun _ => nutrient_line totals goals "cholesterol" "Cholesterol" "mg");
         when_present totals "vitamin a"
           (fun _ => nutrient_line totals goals "vitamin a" "Vitamin A" "%");
         when_present totals "vitamin c"
           (fun _ => nutrient_line totals goals "vitamin c" "Vitamin C" "%");
         when_present totals "calcium" (fun _ => nutrient_line totals goals "calcium" "Calcium" "%");
         when_present totals "iron" (fun _ => nutrient_line totals goals "iron" "Iron" "%") ]))
  /\
  (forall (totals goals : gmap string Q) name display_name unit_,
     (forall goal, goals !! name = Some goal -> (0 < goal)%Q ->
        nutrient_line totals goals name display_name unit_
        = percent_line display_name unit_ (value_or_zero totals name) goal) /\
     (forall goal, goals !! name = Some goal -> (goal <= 0)%Q ->
        nutrient_line totals goals name display_name unit_
        = bare_line display_name unit_ (value_or_zero totals name)) /\
     (goals !! name = None ->
        nutrient_line totals goals name display_name unit_
        = bare_line display_name unit_ (value_or_zero totals name)) /\
     (totals !! name = None ->
        bare_line display_name unit_ (value_or_zero totals name)
        = "- **" +:+ display_name +:+ "**: 0" +:+ unit_ +:+ nl))
  /\
  (forall (totals : gmap string Q) key line,
     (forall v, totals !! key = Some v -> when_present totals key line = line v) /\
     (totals !! key = None -> when_present totals key line = "")).
Proof.
  split; [|split].
  - intros target_date day. cbv zeta. unfold format_daily_macros.
    rewrite !format_nutrient_spec, !micro_line_spec, !fat_subline_spec.
    cbn [concat_res res_bind PyStr.concat_all]. rewrite append_nil_r. reflexivity.
  - intros totals goals name display_name unit_. unfold nutrient_line.
    repeat split.
    + intros goal Hg Hpos. rewrite Hg.
      destruct (Qlt_le_dec 0 goal) as [_|Hle]; [reflexivity|].
      exfalso. exact (Qlt_not_le _ _ Hpos Hle).
    + intros goal Hg Hle. rewrite Hg.
      destruct (Qlt_le_dec 0 goal) as [Hlt|_]; [|reflexivity].
      exfalso. exact (Qlt_not_le _ _ Hlt Hle).
    + intros Hg. rewrite Hg. reflexivity.
    + intros Ht. unfold value_or_zero. rewrite Ht. unfold bare_line.
      cbn [PyStr.concat_all]. rewrite append_nil_r. reflexivity.
  - intros totals key line. unfold when_present. split.
    + intros v Hv. rewrite Hv. reflexivity.
    + intros Hn. rewrite Hn. reflexivity.
Qed.

Lemma macro_breakdown_report_witness :
  let day := Sample.day_with (Sample.jan 1) 2000 2000 true [] in
  (day_goals day !! "calories" = Some 2000%Q /\ (0 < 2000)%Q) /\
  nutrient_line (day_totals day) (day_goals day) "calories" "Calories" "kcal"
    = "- **Calories**: 2000kcal / 2000kcal (100%)" +:+ nl /\
  (day_goals day !! "fat" = Some 0%Q /\ (0 <= 0)%Q) /\
  nutrient_line (day_totals day) (day_goals day) "fat" "Fat" "g" = "- **Fat**: 70g" +:+ nl /\
  (day_goals day !! "protein" = None /\ day_totals day !! "protein" = None) /\
  nutrient_line (day_totals day) (day_goals day) "protein" "Protein" "g"
    = "- **Protein**: 0g" +:+ nl /\
  day_totals day !! "saturated fat" = Some (45 # 2)%Q /\
  when_present (day_totals day) "saturated fat" (sub_line "Saturated")
    = "  - Saturated: 22.5g" +:+ nl /\
  day_totals day !! "sodium" = None /\
  when_present (day_totals day) "sodium"
    (fun _ => nutrient_line (day_totals day) (day_goals day) "sodium" "Sodium" "mg") = "" /\
  nutrient_line (<["calories" := 1150%Q]> ∅) (<["calories" := 2000%Q]> ∅)
    "calories" "Calories" "kcal"
    = "- **Calories**: 1150kcal / 2000kcal (57%)" +:+ nl /\
  nutrient_line (<["fiber" := 49%Q]> ∅) (<["fiber" := 40%Q]> ∅) "fiber" "Fiber" "g"
    = "- **Fiber**: 49g / 40g (123%)" +:+ nl.
Proof.
  cbv zeta.
  pose (day := Sample.day_with (Sample.jan 1) 2000 2000 true []).
  destruct (proj1 (proj2 macro_breakdown_report)
              (<["calories" := 1150%Q]> ∅) (<["calories" := 2000%Q]> ∅)
              "calories" "Calories" "kcal") as [Hpct1 _].
  destruct (proj1 (proj2 macro_breakdown_report)
              (<["fiber" := 49%Q]> ∅) (<["fiber" := 40%Q]> ∅)
              "fiber" "Fiber" "g") as [Hpct2 _].
  destruct (proj1 (proj2 macro_breakdown_report) (day_totals day) (day_goals day)
              "calories" "Calories" "kcal") as [Hpct _].
  destruct (proj1 (proj2 macro_breakdown_report) (day_totals day) (day_goals day)
              "fat" "Fat" "g") as [_ [Hbare _]].
  destruct (proj1 (proj2 macro_breakdown_report) (day_totals day) (day_goals day)
              "protein" "Protein" "g") as [_ [_ [Hnone Hzero]]].
  destruct (proj2 (proj2 macro_breakdown_report) (day_totals day) "saturated fat"
              (sub_line "Saturated")) as [Hshown _].
  destruct (proj2 (proj2 macro_breakdown_report) (day_totals day) "sodium"
              (fun _ => nutrient_line (day_totals day) (day_goals day) "sodium" "Sodium" "mg"))
    as [_ Hhidden].
  fold day.
  split; [split; reflexivity|].
  split; [rewrite (Hpct 2000%Q eq_refl eq_refl); vm_compute; reflexivity|].
  split; [split; [reflexivity | discriminate]|].
  split; [rewrite (Hbare 0%Q eq_refl ltac:(discriminate)); vm_compute; reflexivity|].
  split; [split; reflexivity|].
  split; [rewrite (Hnone eq_refl); exact (Hzero eq_refl)|].
  split; [reflexivity|].
  split; [rewrite (Hshown (45 # 2)%Q eq_refl); vm_compute; reflexivity|].
  split; [reflexivity|].
  split; [exact (Hhidden eq_refl)|].
  split; [rewrite (Hpct1 2000%Q eq_refl eq_refl); vm_compute; reflexivity|].
  rewrite (Hpct2 40%Q eq_refl eq_refl); vm_compute; reflexivity.
Defined.

(** ** The failure boundary of the tools *)

Lemma invoke_try_tool (env : Collab) (call : tool_call) (w : World) :
  invoke env call w = try_tool (subject_of call) (body_of env call) w.
Proof. destruct call; reflexivity. Qed.

Lemma single_day_body_phases (env : Collab) (format : date -> Day -> res string)
    (date_arg : option string) (w : World) :
  single_day_body env format date_arg w =
    match parse_date (today w) date_arg with
    | Raise e => (Raise e, w)
    | Ok target_date =>
        match get_client env w with
        | (Raise e, w1) => (Raise e, w1)
        | (Ok c, w1) =>
            match mfp_get_date env (client c) target_date with
            | Raise e => (Raise e, log_fetch target_date w1)
            | Ok day => (format target_date day, log_fetch target_date w1)
            end
        end
    end.
Proof.
  unfold single_day_body, bind, parse_date_M, get_day, lift.
  destruct (parse_date (today w) date_arg) as [target_date|e]; [|reflexivity].
  destruct (get_client env w) as [[c|e] w1]; [|reflexivity].
  destruct (mfp_get_date env (client c) target_date); reflexivity.
Qed.

Lemma date_range_summary_body_phases (env : Collab) (start_date end_date : string) (w : World) :
  date_range_summary_body env start_date end_date w =
    match parse_date (today w) (Some start_date) with
    | Raise e => (Raise e, w)
    | Ok start =>
        match parse_date (today w) (Some end_date) with
        | Raise e => (Raise e, w)
        | Ok end_ =>
            if PyDate.gtb start end_
            then (Raise (Exn ValueError "Start date must be before or equal to end date"), w)
            else
              match get_client env w with
              | (Raise e, w1) => (Raise e, w1)
              | (Ok c, w1) =>
                  match get_date_range env c start end_ w1 with
                  | (days, Ok _, w2) =>
                      (format_range_summary start end_ (map snapshot days), w2)
                  | (_, Raise e, w2) => (Raise e, w2)
                  end
              end
        end
    end.
Proof.
  unfold date_range_summary_body, bind, parse_date_M, collect_daily_data, lift, raise.
  destruct (parse_date (today w) (Some start_date)) as [start|e]; [|reflexivity].
  destruct (parse_date (today w) (Some end_date)) as [end_|e]; [|reflexivity].
  destruct (PyDate.gtb start end_); [reflexivity|].
  destruct (get_client env w) as [[c|e] w1]; [|reflexivity].
  destruct (get_date_range env c start end_ w1) as [[days [u|e]] w2]; reflexivity.
Qed.

Lemma single_day_invoke (env : Collab) (call : tool_call) (a : option string)
    (format : date -> Day -> res string) (w : World) :
  single_day call = Some (a, format) ->
  invoke env call w =
    match single_day_body env format a w with
    | (Ok output, w') => (plain_text output, w')
    | (Raise e, w') => (plain_text (error_text (subject_of call) e), w')
    end.
Proof.
  destruct call; cbn [single_day]; intros H; inversion H; subst; reflexivity.
Qed.

Lemma work_ends_invoke (env : Collab) (call : tool_call) (w : World) (o : ending) (w' : World) :
  work_ends env call w o w' ->
  invoke env call w =
    (plain_text match o with
                | Reported output => output
                | Failed e => error_text (subject_of call) e
                end, w').
Proof.
  intros H.
  destruct H as
    [ call a format w e Hs Hp
    | call a format w d e w1 Hs Hp Hc
    | call a format w d c w1 e Hs Hp Hc Hf
    | call a format w d c w1 day e Hs Hp Hc Hf Hr
    | call a format w d c w1 day output Hs Hp Hc Hf Hr
    | start_date end_date w e Hp
    | start_date end_date w start e Hp He
    | start_date end_date w start end_ Hp He Hgt
    | start_date end_date w start end_ e w1 Hp He Hgt Hc
    | start_date end_date w start end_ c w1 days e w2 Hp He Hgt Hc Hf
    | start_date end_date w start end_ c w1 days w2 e Hp He Hgt Hc Hf Hr
    | start_date end_date w start end_ c w1 days w2 output Hp He Hgt Hc Hf Hr ];
    try (rewrite (single_day_invoke env call a format w Hs), single_day_body_phases, Hp;
         try rewrite Hc; try rewrite Hf; try rewrite Hr; reflexivity);
    cbn [invoke]; unfold get_date_range_summary, try_tool;
    rewrite date_range_summary_body_phases, Hp;
    try rewrite He; try rewrite Hgt; try rewrite Hc; try rewrite Hf; try rewrite Hr;
    reflexivity.
Qed.

Lemma work_always_ends (env : Collab) (call : tool_call) (w : World) :
  exists o w', work_ends env call w o w'.
Proof.
  assert (Hday : forall a format, single_day call = Some (a, format) ->
                   exists o w', work_ends env call w o w').
  { intros a format Hs.
    destruct (parse_date (today w) a) as [d|e] eqn:Hp;
      [|eexists _, _; eapply parsing_fails; eassumption].
    destruct (get_client env w) as [[c|e] w1] eqn:Hc;
      [|eexists _, _; eapply client_fails; eassumption].
    destruct (mfp_get_date env (client c) d) as [day|e] eqn:Hf;
      [|eexists _, _; eapply fetching_fails; eassumption].
    destruct (format d day) as [output|e] eqn:Hr;
      [eexists _, _; eapply day_reported; eassumption
      |eexists _, _; eapply formatting_fails; eassumption]. }
  destruct call as [a|a|a|a|a|start_date end_date];
    try (eapply Hday; reflexivity).
  destruct (parse_date (today w) (Some start_date)) as [start|e] eqn:Hp;
    [|eexists _, _; eapply start_parsing_fails; eassumption].
  destruct (parse_date (today w) (Some end_date)) as [end_|e] eqn:He;
    [|eexists _, _; eapply end_parsing_fails; eassumption].
  destruct (PyDate.gtb start end_) eqn:Hgt;
    [eexists _, _; eapply order_check_fails; eassumption|].
  destruct (get_client env w) as [[c|e] w1] eqn:Hc;
    [|eexists _, _; eapply range_client_fails; eassumption].
  destruct (get_date_range env c start end_ w1) as [[days [[]|e]] w2] eqn:Hf;
    [|eexists _, _; eapply range_fetching_fails; eassumption].
  destruct (format_range_summary start end_ (map snapshot days)) as [output|e] eqn:Hr;
    [eexists _, _; eapply range_reported; eassumption
    |eexists _, _; eapply range_formatting_fails; eassumption].
Qed.

(** C1. Whatever the collaborators do, the work of a call to any of the
    six tools ends in one of the ways [work_ends] lists, and the tool
    returns a plain-text response (one block of type [text], no structured
    content) in each of them: when a stage raises [e], be it date parsing,
    the order check of a range, client construction, fetching or
    formatting, the text is "Error retrieving <subject>: <str(e)>" with
    the subject of the tool; when no stage raises, the text is the report.
    Nothing is raised to the caller.  When the parsed start date of a
    range is after the end date the text is the validation message and the
    process state is unchanged: no client was built, no day requested. *)
Theorem tool_boundary_catches_every_exception (env : Collab) (call : tool_call) (w : World) :
  (exists o w', work_ends env call w o w') /\
  (forall e w',
     work_ends env call w (Failed e) w' ->
     invoke env call w =
       (plain_text ("Error retrieving " +:+ subject_of call +:+ ": " +:+ exn_str e), w')) /\
  (forall output w',
     work_ends env call w (Reported output) w' ->
     invoke env call w = (plain_text output, w')) /\
  (forall start_date end_date start end_,
     call = CallDateRangeSummary start_date end_date ->
     parse_date (today w) (Some start_date) = Ok start ->
     parse_date (today w) (Some end_date) = Ok end_ ->
     PyDate.gtb start end_ = true ->
     invoke env call w =
       (plain_text
          "Error retrieving date range summary: Start date must be before or equal to end date",
        w)).
Proof.
  split; [apply work_always_ends|]. split; [|split].
  - intros e w' H. exact (work_ends_invoke env call w (Failed e) w' H).
  - intros output w' H. exact (work_ends_invoke env call w (Reported output) w' H).
  - intros start_date end_date start end_ -> Hs He Hgt.
    exact (work_ends_invoke env _ w _ w
             (order_check_fails env start_date end_date w start end_ Hs He Hgt)).
Qed.

Lemma tool_boundary_catches_every_exception_witness :
  invoke Sample.env (CallDateRangeSummary "2024-01-03" "2024-01-01") Sample.w0 =
    (mkToolResult
       [mkTextContent "text"
          "Error retrieving date range summary: Start date must be before or equal to end date"]
       None,
     Sample.w0) /\
  invoke Sample.env (CallDailyMeals (Some "03/15/2024")) Sample.w0 =
    (mkToolResult
       [mkTextContent "text"
          "Error retrieving meals: Invalid date format: 03/15/2024. Use YYYY-MM-DD"]
       None,
     Sample.w0) /\
  invoke Sample.env (CallWaterIntake (Some "2024-01-02")) Sample.w0 =
    (mkToolResult [mkTextContent "text" "Error retrieving water intake: connection reset"] None,
     mkWorld (Sample.jan 3) None (Some (mkClient (mkLibClient None))) [] [Sample.jan 2]) /\
  invoke Sample.env_no_credentials (CallDailySummary None) Sample.w0 =
    (mkToolResult
       [mkTextContent "text"
          "Error retrieving daily summary: Could not access MyFitnessPal: no valid session"]
       None,
     Sample.w0).
Proof.
  split; [|split; [|split]].
  - exact (proj2 (proj2 (proj2 (tool_boundary_catches_every_exception Sample.env
             (CallDateRangeSummary "2024-01-03" "2024-01-01") Sample.w0)))
           "2024-01-03" "2024-01-01" (Sample.jan 3) (Sample.jan 1)
           eq_refl eq_refl eq_refl eq_refl).
  - exact (proj1 (proj2 (tool_boundary_catches_every_exception Sample.env
             (CallDailyMeals (Some "03/15/2024")) Sample.w0))
           _ _
           (parsing_fails Sample.env (CallDailyMeals (Some "03/15/2024"))
              (Some "03/15/2024") format_daily_meals Sample.w0 _ eq_refl eq_refl)).
  - exact (proj1 (proj2 (tool_boundary_catches_every_exception Sample.env
             (CallWaterIntake (Some "2024-01-02")) Sample.w0))
           _ _
           (fetching_fails Sample.env (CallWaterIntake (Some "2024-01-02"))
              (Some "2024-01-02") format_water_intake Sample.w0 (Sample.jan 2)
              (mkClient (mkLibClient None))
              (set_client Sample.w0 (Some (mkClient (mkLibClient None)))) _
              eq_refl eq_refl eq_refl eq_refl)).
  - exact (proj1 (proj2 (tool_boundary_catches_every_exception Sample.env_no_credentials
             (CallDailySummary None) Sample.w0))
           _ _
           (client_fails Sample.env_no_credentials (CallDailySummary None)
              None format_daily_summary Sample.w0 (Sample.jan 3) _ Sample.w0
              eq_refl eq_refl eq_refl)).
Defined.

(** ** Missing credentials *)

Lemma init_without_credentials (env : Collab) (w : World) :
  no_valid_credentials env w ->
  exists e w', MyFitnessPalClient_init env w = (Raise e, w') /\ _client w' = _client w.
Proof.
  intros [Hjar [e0 Hnone]]. unfold MyFitnessPalClient_init, bind, lift, ret.
  unfold _load_cookies_from_env in *.
  destruct (MFP_COOKIES w) as [[|c s]|].
  - cbn. rewrite Hnone. eauto.
  - destruct (build_jar env (String c s)) as [jar|e].
    + destruct (jar_truthy (Some jar)).
      * destruct (Hjar jar eq_refl) as [e1 H1]. rewrite H1. eauto.
      * rewrite Hnone. eauto.
    + cbn. rewrite Hnone. eauto.
  - cbn. rewrite Hnone. eauto.
Qed.

(** C5, as the code has it.  Without valid credentials the construction
    of the client raises what the library raises.  The client is built on
    first use, inside the [try] block of the tool that needs it, so every
    call whose dates are accepted answers "Error retrieving <subject>:
    <message>" and leaves [_client] unset: the next call tries again.
    Loading the module only sets [_client] to [None]. *)
Theorem missing_credentials_reported_per_tool (env : Collab) (w : World) :
  _client w = None ->
  no_valid_credentials env w ->
  _client (module_init w) = None /\
  exists e w',
    MyFitnessPalClient_init env w = (Raise e, w') /\
    forall call, dates_accepted w call ->
      invoke env call w = (text_response (error_text (subject_of call) e), w') /\
      _client w' = None.
Proof.
  intros Hnone Hcred. split; [reflexivity|].
  destruct (init_without_credentials env w Hcred) as [e [w' [Hinit Hc]]].
  exists e, w'. split; [exact Hinit|].
  assert (Hget : get_client env w = (Raise e, w')).
  { unfold get_client. rewrite Hnone, Hinit. reflexivity. }
  intros call Hdates. split; [|congruence].
  rewrite invoke_try_tool. unfold try_tool.
  destruct call; cbn [body_of subject_of dates_accepted] in *;
    try (destruct Hdates as [target_date Hp];
         rewrite single_day_body_phases, Hp, Hget; reflexivity).
  destruct Hdates as [start [end_ [Hs [He Hgt]]]].
  rewrite date_range_summary_body_phases, Hs, He, Hgt, Hget. reflexivity.
Qed.

Lemma missing_credentials_reported_per_tool_witness :
  _client Sample.w0 = None /\
  no_valid_credentials Sample.env_no_credentials Sample.w0 /\
  get_daily_summary Sample.env_no_credentials None Sample.w0 =
    (text_response
       "Error retrieving daily summary: Could not access MyFitnessPal: no valid session",
     Sample.w0).
Proof.
  assert (Hc : no_valid_credentials Sample.env_no_credentials Sample.w0).
  { split; [intros jar H; discriminate H | eexists; reflexivity]. }
  split; [reflexivity|]. split; [exact Hc|].
  destruct (missing_credentials_reported_per_tool Sample.env_no_credentials Sample.w0
              eq_refl Hc) as [_ [e [w' [Hinit Hcall]]]].
  destruct (Hcall (CallDailySummary None) (ex_intro _ (Sample.jan 3) eq_refl)) as [H _].
  cbn [invoke] in H. rewrite H.
  vm_compute in Hinit. inversion Hinit; subst. reflexivity.
Defined.

(** C5, as the claim words it: a missing credential never shows as the
    text error of a tool.  It does, on the sample account nobody is
    logged in to. *)
Lemma missing_credentials_not_a_startup_failure :
  ~ (forall env w call,
       _client w = None -> no_valid_credentials env w ->
       forall e, fst (invoke env call w) <> text_response (error_text (subject_of call) e)).
Proof.
  intros H.
  apply (H Sample.env_no_credentials Sample.w0 (CallDailySummary None) eq_refl
           ltac:(split; [intros jar Hj; discriminate Hj | eexists; reflexivity])
           Sample.not_logged_in).
  vm_compute. reflexivity.
Qed.

(** ** The cookie loader *)

Lemma load_cookies_from_env_nonempty (env : Collab) (w : World) (s : string) :
  MFP_COOKIES w = Some s -> s <> "" ->
  _load_cookies_from_env env w =
    match build_jar env s with
    | Ok jar => (Ok (Some jar), w)
    | Raise e => (Ok None, print (warning_of e) w)
    end.
Proof.
  intros Hs Hne. unfold _load_cookies_from_env. rewrite Hs.
  destruct s as [|c s]; [congruence | reflexivity].
Qed.

Lemma load_one_cookie_well_formed (jar : CookieJar) (name : string) (data : json) :
  match load_one_cookie jar name data with
  | Ok _ => well_formed_entry data = true
  | Raise _ => well_formed_entry data = false
  end.
Proof.
  unfold load_one_cookie, well_formed_entry.
  destruct data as [| b | z | q | s | items | fields]; try reflexivity.
  cbn [json_getitem json_get].
  destruct (assoc_get "value" fields) as [value|]; [|reflexivity]. cbn [res_bind].
  destruct (assoc_get "domain" fields) as [domain|]; cbn [res_bind].
  - destruct domain; try reflexivity. cbn [json_startswith res_bind].
    destruct (assoc_get "path" fields) as [path|]; cbn [res_bind].
    + destruct (assoc_get "secure" fields); cbn [res_bind Cookie_init json_lower];
        unfold set_cookie; cbn [cookie_path]; destruct (hashable path); reflexivity.
    + destruct (assoc_get "secure" fields); reflexivity.
  - cbn [json_startswith res_bind].
    destruct (assoc_get "path" fields) as [path|]; cbn [res_bind].
    + destruct (assoc_get "secure" fields); cbn [res_bind Cookie_init json_lower];
        unfold set_cookie; cbn [cookie_path]; destruct (hashable path); reflexivity.
    + destruct (assoc_get "secure" fields); reflexivity.
Qed.

Lemma load_cookies_well_formed (items : list (string * json)) :
  forall jar,
  match load_cookies jar items with
  | Ok _ => forallb (fun item => well_formed_entry (snd item)) items = true
  | Raise _ => forallb (fun item => well_formed_entry (snd item)) items = false
  end.
Proof.
  induction items as [|[name data] rest IH]; intros jar; [reflexivity|].
  cbn [load_cookies forallb snd].
  pose proof (load_one_cookie_well_formed jar name data) as H1.
  destruct (load_one_cookie jar name data) as [jar'|e]; cbn [res_bind]; rewrite H1.
  - specialize (IH jar'). destruct (load_cookies jar' rest); exact IH.
  - reflexivity.
Qed.

Lemma build_jar_malformed (env : Collab) (s : string) :
  match build_jar env s with
  | Ok _ => ~ malformed env s
  | Raise _ => malformed env s
  end.
Proof.
  unfold build_jar, malformed.
  destruct (json_loads env s) as [j|e]; cbn [res_bind]; [|exact I].
  destruct j as [| b | z | q | t | items | fields]; cbn [json_items res_bind well_formed_mapping];
    try reflexivity.
  pose proof (load_cookies_well_formed fields []) as H.
  destruct (load_cookies [] fields); rewrite H; [discriminate | reflexivity].
Qed.

(** C9. When the environment holds the text [{"a": {"value": "x"}}] and
    the decoder reads it as that mapping, the loader returns a cookie store
    with exactly one cookie, named "a", whose domain is ".myfitnesspal.com",
    whose path is "/" and whose secure flag is false.  For every malformed
    input (a text that does not decode, or one that decodes to something
    else than a mapping of cookie objects) the loader raises nothing,
    returns [None] and prints one warning line; the constructor then asks
    the library for the browser session.  An input that is not malformed
    prints nothing. *)
Theorem cookie_loader (env : Collab) (w : World) :
  (MFP_COOKIES w = Some Sample.cookies_text ->
   json_loads env Sample.cookies_text = Ok (JObj [("a", JObj [("value", JStr "x")])]) ->
   exists jar c,
     _load_cookies_from_env env w = (Ok (Some jar), w) /\
     jar_cookies jar = [c] /\
     cookie_name c = "a" /\ cookie_value c = JStr "x" /\
     cookie_domain c = ".myfitnesspal.com" /\
     cookie_path c = JStr "/" /\
     cookie_secure c = JBool false) /\
  (forall s, MFP_COOKIES w = Some s -> s <> "" -> malformed env s ->
   exists e w',
     _load_cookies_from_env env w = (Ok None, w') /\
     stdout w' = stdout w ++ [warning_of e] /\
     _client w' = _client w /\ fetched w' = fetched w /\
     MyFitnessPalClient_init env w =
       (match mfp_Client env None with
        | Ok c => Ok (mkClient c)
        | Raise e' => Raise e'
        end, w')) /\
  (forall s, MFP_COOKIES w = Some s -> s <> "" -> ~ malformed env s ->
   exists jar, _load_cookies_from_env env w = (Ok (Some jar), w)).
Proof.
  split; [|split].
  - intros Hs Hloads.
    rewrite (load_cookies_from_env_nonempty env w _ Hs) by discriminate.
    unfold build_jar. rewrite Hloads. cbn.
    eexists _, _. split; [reflexivity|]. repeat split.
  - intros s Hs Hne Hmal.
    pose proof (build_jar_malformed env s) as Hb.
    pose proof (load_cookies_from_env_nonempty env w s Hs Hne) as Hl.
    destruct (build_jar env s) as [jar|e]; [contradiction|].
    exists e, (print (warning_of e) w).
    split; [exact Hl|]. split; [reflexivity|]. split; [reflexivity|]. split; [reflexivity|].
    unfold MyFitnessPalClient_init, bind, lift, ret. rewrite Hl. cbn [jar_truthy].
    destruct (mfp_Client env None); reflexivity.
  - intros s Hs Hne Hwf.
    pose proof (build_jar_malformed env s) as Hb.
    rewrite (load_cookies_from_env_nonempty env w s Hs Hne).
    destruct (build_jar env s) as [jar|e]; [|contradiction].
    exists jar. reflexivity.
Qed.

Lemma cookie_loader_witness :
  (MFP_COOKIES (Sample.world (Sample.jan 3) (Some "[1, 2]")) = Some "[1, 2]" /\
   "[1, 2]" <> "" /\
   malformed Sample.env "[1, 2]") /\
  _load_cookies_from_env Sample.env (Sample.world (Sample.jan 3) (Some "[1, 2]")) =
    (Ok None,
     mkWorld (Sample.jan 3) (Some "[1, 2]") None
       ["Warning: Failed to load cookies from environment: 'list' object has no attribute 'items'"]
       []) /\
  (MFP_COOKIES (Sample.world (Sample.jan 3) (Some Sample.cookies_text))
     = Some Sample.cookies_text /\
   json_loads Sample.env Sample.cookies_text = Ok (JObj [("a", JObj [("value", JStr "x")])])) /\
  exists jar,
    _load_cookies_from_env Sample.env (Sample.world (Sample.jan 3) (Some Sample.cookies_text))
      = (Ok (Some jar), Sample.world (Sample.jan 3) (Some Sample.cookies_text)) /\
    length (jar_cookies jar) = 1%nat.
Proof.
  split; [split; [reflexivity | split; [discriminate | reflexivity]]|].
  split.
  - destruct (proj1 (proj2 (cookie_loader Sample.env
                               (Sample.world (Sample.jan 3) (Some "[1, 2]"))))
                "[1, 2]" eq_refl ltac:(discriminate) eq_refl)
      as [e [w' [Hl _]]].
    rewrite Hl. vm_compute in Hl. inversion Hl; subst. reflexivity.
  - split; [split; reflexivity|].
    destruct (proj1 (cookie_loader Sample.env
                       (Sample.world (Sample.jan 3) (Some Sample.cookies_text)))
                eq_refl eq_refl)
      as [jar [c [Hl [Hc _]]]].
    exists jar. split; [exact Hl|]. rewrite Hc. reflexivity.
Defined.

(** ** The ranged fetch *)

Lemma get_date_range_from_eq (env : Collab) (self : MyFitnessPalClient)
    (end_date current : date) (w : World) :
  get_date_range_from env self end_date current w =
    if PyDate.leb current end_date
    then match add_one_day current with
         | Raise e =>
             (yielded_of (fst (get_day env self current w)), Raise e,
              snd (get_day env self current w))
         | Ok next =>
             gen_cons (yielded_of (fst (get_day env self current w)))
               (get_date_range_from env self end_date next (snd (get_day env self current w)))
         end
    else ([], Ok tt, w).
Proof.
  funelim (get_date_range_from env self end_date current w);
    repeat match goal with
           | H : PyDate.leb _ _ = _ |- _ => rewrite H
           | H : add_one_day _ = _ |- _ => rewrite H
           end; reflexivity.
Qed.

Lemma days_in_month_bounds (y m : Z) : 28 <= days_in_month y m <= 31.
Proof.
  unfold days_in_month.
  repeat match goal with |- context [if ?b then _ else _] => destruct b end; lia.
Qed.

Ltac date_unfold :=
  unfold date_lt, PyDate.leb, PyDate.gtb, PyDate.ltb, PyDate.eqb, PyDate.valid,
    MINYEAR, MAXYEAR, date_max in *;
  cbn [year month day] in *.

Lemma date_eqb_eq (a b : date) : PyDate.eqb a b = true <-> a = b.
Proof.
  destruct a as [ya ma da], b as [yb mb db]. date_unfold. split.
  - intros H. f_equal; lia.
  - intros H. inversion H; subst. lia.
Qed.

Lemma add_one_day_cases (d : date) :
  PyDate.valid d = true ->
  (d = date_max /\ add_one_day d = Raise overflow) \/
  (exists n, add_one_day d = Ok n /\ PyDate.valid n = true /\
     PyDate.ltb d n = true /\
     forall x, PyDate.valid x = true ->
       PyDate.leb d x = (PyDate.eqb d x || PyDate.leb n x)).
Proof.
  intros Hv. destruct d as [y m dd].
  pose proof (days_in_month_bounds y m) as Hdim.
  unfold add_one_day. cbn [year month day].
  destruct (dd + 1 <=? days_in_month y m) eqn:E1.
  - right. eexists. cbn [year].
    replace ((MINYEAR <=? y) && (y <=? MAXYEAR)) with true by (date_unfold; lia).
    split; [reflexivity|]. split; [date_unfold; lia|]. split; [date_unfold; lia|].
    intros [yx mx dx] Hx. date_unfold. lia.
  - destruct (m + 1 <=? 12) eqn:E2.
    + right. eexists. cbn [year].
      replace ((MINYEAR <=? y) && (y <=? MAXYEAR)) with true by (date_unfold; lia).
      split; [reflexivity|].
      pose proof (days_in_month_bounds y (m + 1)) as Hdim'.
      split; [date_unfold; lia|]. split; [date_unfold; lia|].
      intros [yx mx dx] Hx. date_unfold.
      destruct (Z.eq_dec yx y) as [->|Hy]; [|lia].
      destruct (Z.eq_dec mx m) as [->|Hm]; lia.
    + cbn [year]. destruct ((MINYEAR <=? y + 1) && (y + 1 <=? MAXYEAR)) eqn:E3.
      * right. eexists. split; [reflexivity|].
        pose proof (days_in_month_bounds (y + 1) 1) as Hdim'.
        split; [date_unfold; lia|]. split; [date_unfold; lia|].
        intros [yx mx dx] Hx. date_unfold.
        destruct (Z.eq_dec yx y) as [->|Hy]; [|lia].
        destruct (Z.eq_dec mx m) as [->|Hm]; lia.
      * left. split; [|reflexivity].
        date_unfold.
        assert (y = 9999) by lia. assert (m = 12) by lia. subst.
        change (days_in_month 9999 12) with 31 in *. f_equal. lia.
Qed.

Lemma add_one_day_measure (end_date current next : date) :
  PyDate.leb current end_date = true ->
  add_one_day current = Ok next ->
  (range_measure end_date next < range_measure end_date current)%nat.
Proof.
  intros Hle Hadd.
  pose proof (days_in_month_bounds (year current) (month current)) as Hdim.
  unfold add_one_day in Hadd. unfold range_measure.
  destruct current as [y m d], end_date as [ye me de]. date_unfold.
  repeat match goal with
         | H : context [if ?b then _ else _] |- _ => destruct b eqn:?
         end; try discriminate;
  inversion Hadd; subst; cbn [year month day]; lia.
Qed.

Lemma get_date_range_from_spec (env : Collab) (self : MyFitnessPalClient) (end_date : date) :
  PyDate.valid end_date = true ->
  forall (n : nat) (current : date) (w : World),
    (range_measure end_date current < n)%nat ->
    PyDate.valid current = true ->
    exists ds,
      get_date_range_from env self end_date current w =
        (yielded_over env self ds,
         if PyDate.leb current end_date && PyDate.eqb end_date date_max
         then Raise overflow else Ok tt,
         log_fetches ds w) /\
      is_date_range current end_date ds.
Proof.
  intros Hve. induction n as [|n IH]; intros current w Hn Hvc; [lia|].
  rewrite get_date_range_from_eq.
  destruct (PyDate.leb current end_date) eqn:Hle.
  - unfold get_day. cbn [fst snd].
    destruct (add_one_day_cases current Hvc) as [[Hmax Hadd]|[next [Hadd [Hvn [Hlt Hsucc]]]]].
    + rewrite Hadd. exists [current]. subst current.
      assert (Hend : end_date = date_max).
      { destruct end_date as [ye me de].
        pose proof (days_in_month_bounds ye me) as Hd. date_unfold.
        assert (ye = 9999) by lia. assert (me = 12) by lia. subst.
        change (days_in_month 9999 12) with 31 in *. f_equal. lia. }
      subst end_date. split.
      * unfold yielded_over, log_fetches, log_fetch. cbn [flat_map andb].
        rewrite app_nil_r. reflexivity.
      * split; [repeat constructor; exact Hvc|]. split; [repeat constructor|].
        intros x Hx. cbn [In]. split.
        -- intros [<-|[]]. split; reflexivity.
        -- intros [H1 H2]. left. destruct x as [yx mx dx].
           pose proof (days_in_month_bounds yx mx) as Hd. date_unfold.
           assert (yx = 9999) by lia. assert (mx = 12) by lia. subst.
           change (days_in_month 9999 12) with 31 in *. f_equal. lia.
    + rewrite Hadd.
      pose proof (add_one_day_measure end_date current next Hle Hadd) as Hm.
      destruct (IH next (log_fetch current w) ltac:(lia) Hvn)
        as [ds [Heq [Hall [Hsorted Hmem]]]].
      rewrite Heq. exists (current :: ds). split.
      * unfold gen_cons, yielded_over, log_fetches, log_fetch. cbn [flat_map andb].
        cbn [today MFP_COOKIES _client stdout fetched].
        rewrite <- app_assoc. cbn [app].
        f_equal. f_equal.
        destruct (PyDate.eqb end_date date_max) eqn:Emax; [|rewrite andb_false_r; reflexivity].
        apply date_eqb_eq in Emax. subst end_date.
        replace (PyDate.leb next date_max) with true; [reflexivity|].
        symmetry. destruct next as [yn mn dn].
        pose proof (days_in_month_bounds yn mn) as Hd. date_unfold.
        destruct (Z.eq_dec mn 12) as [->|Hne]; [|lia].
        lia.
      * split; [constructor; assumption|]. split.
        -- constructor; [exact Hsorted|].
           apply List.Forall_forall. intros x Hin.
           assert (Hvx : PyDate.valid x = true)
             by (exact (proj1 (List.Forall_forall _ _) Hall x Hin)).
           destruct (proj1 (Hmem x Hvx) Hin) as [Hnx _].
           clear - Hlt Hnx. destruct current, next, x. date_unfold. lia.
        -- intros x Hx. cbn [In]. rewrite (Hsucc x Hx). rewrite (Hmem x Hx).
           rewrite orb_true_iff, date_eqb_eq. split.
           ++ intros [<-|[H1 H2]]; [split; [left; reflexivity | exact Hle]|].
              split; [right; exact H1 | exact H2].
           ++ intros [[He|Hn'] H2]; [left; exact He | right; split; assumption].
  - exists []. split.
    + unfold yielded_over, log_fetches. cbn [flat_map andb]. rewrite app_nil_r.
      destruct w; reflexivity.
    + split; [constructor|]. split; [constructor|].
      intros x Hx. cbn [In]. split; [intros []|].
      intros [H1 H2]. clear - Hle H1 H2. destruct current, end_date, x. date_unfold. lia.
Qed.

Lemma yielded_dates_sorted (env : Collab) (self : MyFitnessPalClient) (ds : list date) :
  (forall d day, mfp_get_date env (client self) d = Ok day -> day_date day = d) ->
  StronglySorted date_lt ds ->
  StronglySorted date_lt (map day_date (yielded_over env self ds)).
Proof.
  intros Hdate Hs. unfold yielded_over.
  induction Hs as [|d ds Hs IH Hall]; [constructor|].
  cbn [flat_map]. destruct (mfp_get_date env (client self) d) as [day|e] eqn:E;
    cbn [yielded_of app map]; [|exact IH].
  constructor; [exact IH|].
  rewrite (Hdate d day E). clear - Hall Hdate.
  induction Hall as [|x xs Hx Hall IH]; [constructor|].
  cbn [flat_map]. destruct (mfp_get_date env (client self) x) as [dx|e] eqn:E;
    cbn [yielded_of app map]; [|exact IH].
  constructor; [|exact IH]. rewrite (Hdate x dx E). exact Hx.
Qed.

(** C2. For valid dates start <= end the generator requests every
    calendar date from start to end inclusive, once each and in strictly
    ascending order (the list [ds] below, also the growth of the request
    log), and yields the Day of each request that succeeds; a request that
    raises contributes nothing, is not repeated and is reported nowhere
    (standard output is unchanged), and the later dates are still
    requested.  When the library returns for each request the Day of the
    requested date, the yielded Days are in strictly ascending date order.
    The generator returns normally, except that after the last day of year
    9999 the step to the next date raises [OverflowError]. *)
Theorem ranged_fetch (env : Collab) (self : MyFitnessPalClient)
    (start_date end_date : date) (w : World) :
  PyDate.valid start_date = true ->
  PyDate.valid end_date = true ->
  PyDate.leb start_date end_date = true ->
  exists ds,
    is_date_range start_date end_date ds /\
    In start_date ds /\ In end_date ds /\
    get_date_range env self start_date end_date w =
      (yielded_over env self ds,
       if PyDate.eqb end_date date_max then Raise overflow else Ok tt,
       log_fetches ds w) /\
    ((forall d day, mfp_get_date env (client self) d = Ok day -> day_date day = d) ->
     StronglySorted date_lt (map day_date (yielded_over env self ds))).
Proof.
  intros Hvs Hve Hle.
  destruct (get_date_range_from_spec env self end_date Hve
              (S (range_measure end_date start_date)) start_date w ltac:(lia) Hvs)
    as [ds [Heq Hrange]].
  exists ds. split; [exact Hrange|].
  destruct Hrange as [Hall [Hsorted Hmem]].
  assert (Hrefl : forall d, PyDate.leb d d = true).
  { intros [y m d]. date_unfold. lia. }
  split; [apply (Hmem start_date Hvs); split; [apply Hrefl | exact Hle]|].
  split; [apply (Hmem end_date Hve); split; [exact Hle | apply Hrefl]|].
  split.
  - unfold get_date_range. rewrite Heq, Hle. reflexivity.
  - intros Hdate. apply yielded_dates_sorted; assumption.
Qed.

Lemma ranged_fetch_witness :
  PyDate.valid (Sample.jan 1) = true /\
  PyDate.valid (Sample.jan 3) = true /\
  PyDate.leb (Sample.jan 1) (Sample.jan 3) = true /\
  (exists e, mfp_get_date Sample.env (mkLibClient None) (Sample.jan 2) = Raise e) /\
  (exists ds,
     is_date_range (Sample.jan 1) (Sample.jan 3) ds /\
     get_date_range Sample.env (mkClient (mkLibClient None)) (Sample.jan 1) (Sample.jan 3)
       Sample.w0
     = (yielded_over Sample.env (mkClient (mkLibClient None)) ds, Ok tt,
        log_fetches ds Sample.w0)) /\
  get_date_range Sample.env (mkClient (mkLibClient None)) (Sample.jan 1) (Sample.jan 3)
    Sample.w0
  = ([Sample.day_with (Sample.jan 1) 2000 2000 true [Sample.run];
      Sample.day_with (Sample.jan 3) 1800 1500 false []],
     Ok tt,
     mkWorld (Sample.jan 3) None None [] [Sample.jan 1; Sample.jan 2; Sample.jan 3]).
Proof.
  split; [reflexivity|]. split; [reflexivity|]. split; [reflexivity|].
  split; [eexists; reflexivity|].
  split.
  - destruct (ranged_fetch Sample.env (mkClient (mkLibClient None)) (Sample.jan 1)
                (Sample.jan 3) Sample.w0 eq_refl eq_refl eq_refl)
      as [ds [Hr [_ [_ [Heq _]]]]].
    exists ds. split; [exact Hr | exact Heq].
  - vm_compute. reflexivity.
Defined.

(** Where the ranged fetch does not return normally: a range that ends on
    the last representable date.  The days are yielded, then the step past
    9999-12-31 raises, and the range summary answers with that error. *)
Lemma range_ending_on_last_date :
  get_date_range_summary Sample.env "9999-12-31" "9999-12-31" Sample.w0 =
    (text_response "Error retrieving date range summary: date value out of range",
     mkWorld (Sample.jan 3) None (Some (mkClient (mkLibClient None))) [] [date_max]).
Proof. vm_compute. reflexivity. Qed.

(** ** Date range summary *)










(** The report on three figures: calories 2000, 2200 and 1800 average to
    2000; with the second of three days failing, the header and both
    percentages count two days; 23 complete days of 40 print 57 percent. *)
Lemma range_report_figures :
  Binary64.format_f 0 (average [2000; 2200; 1800]%Q) = "2000" /\
  Binary64.format_f 0 (percent_of 23 40) = "57" /\
  exists output w2,
    invoke Sample.env (CallDateRangeSummary "2024-01-01" "2024-01-03") Sample.w0
      = (plain_text output, w2) /\
    fetched w2 = [Sample.jan 1; Sample.jan 2; Sample.jan 3] /\
    PyStr.contains "(2 days)" output = true /\
    PyStr.contains "- **Calories**: 1900 kcal/day" output = true /\
    PyStr.contains "- **Water**: 59 oz/day (1750 ml/day)" output = true /\
    PyStr.contains "- **Days Completed**: 1/2 (50%)" output = true /\
    PyStr.contains "- **Days with Exercise**: 1/2 (50%)" output = true.
Proof.
  split; [vm_compute; reflexivity|]. split; [vm_compute; reflexivity|].
  eexists _, _. split; [vm_compute; reflexivity|].
  repeat split; vm_compute; reflexivity.
Qed.

(** C4, at the last date of the calendar.  With an account that answers
    every date, the range 9999-12-30 to 9999-12-31 has both days requested
    and both yielded by the ranged fetch; the step past 9999-12-31 then
    raises, outside the [try] of the loop, and the tool answers the error
    text in place of the summary of the two days. *)
Theorem range_summary_fails_at_last_date :
  let env :=
    mkCollab Sample.loads (fun jar => Ok (mkLibClient jar))
      (fun _ d => Ok (Sample.day_with d 2000 1500 true [])) in
  let c := mkClient (mkLibClient None) in
  let w1 := set_client Sample.w0 (Some c) in
  get_date_range env c (mkdate 9999 12 30) date_max w1
    = ([Sample.day_with (mkdate 9999 12 30) 2000 1500 true [];
        Sample.day_with date_max 2000 1500 true []],
       Raise overflow,
       log_fetches [mkdate 9999 12 30; date_max] w1) /\
  invoke env (CallDateRangeSummary "9999-12-30" "9999-12-31") Sample.w0
    = (plain_text "Error retrieving date range summary: date value out of range",
       log_fetches [mkdate 9999 12 30; date_max] w1) /\
  invoke env (CallDateRangeSummary "9999-12-29" "9999-12-30") Sample.w0
    = (plain_text
         (range_report (mkdate 9999 12 29) (mkdate 9999 12 30)
            [Sample.day_with (mkdate 9999 12 29) 2000 1500 true [];
             Sample.day_with (mkdate 9999 12 30) 2000 1500 true []]),
       log_fetches [mkdate 9999 12 29; mkdate 9999 12 30] w1).
Proof.
  cbv zeta. split; [vm_compute; reflexivity|]. split; vm_compute; reflexivity.
Qed.

(** ** The date parser *)

Lemma digit_val_digit_char (v : Z) : is_digit_value v -> digit_val (digit_char v) = Some v.
Proof.
  intros Hv. unfold is_digit_value in Hv.
  assert (H : v = 0 \/ v = 1 \/ v = 2 \/ v = 3 \/ v = 4 \/ v = 5 \/ v = 6 \/ v = 7
              \/ v = 8 \/ v = 9) by lia.
  repeat (destruct H as [->|H]; [reflexivity|]). subst. reflexivity.
Qed.

Lemma digit_val_inv (c : ascii) (v : Z) :
  digit_val c = Some v -> is_digit_value v /\ c = digit_char v.
Proof.
  unfold digit_val, digit_char, is_digit_value.
  destruct ((48 <=? Z.of_N (N_of_ascii c)) && (Z.of_N (N_of_ascii c) <=? 57)) eqn:E;
    [|discriminate].
  intros H. inversion H; subst v. split; [lia|].
  replace (48 + Z.to_N (Z.of_N (N_of_ascii c) - 48))%N with (N_of_ascii c) by lia.
  symmetry. apply ascii_N_embedding.
Qed.

Lemma in_range_digit_char (lo hi v : Z) :
  is_digit_value v ->
  in_range lo hi (digit_char v) = if (lo <=? v) && (v <=? hi) then Some v else None.
Proof. intros Hv. unfold in_range. rewrite (digit_val_digit_char v Hv). reflexivity. Qed.

Lemma in_range_inv (lo hi : Z) (c : ascii) (v : Z) :
  in_range lo hi c = Some v -> is_digit_value v /\ c = digit_char v /\ lo <= v <= hi.
Proof.
  unfold in_range. destruct (digit_val c) as [u|] eqn:E; [|discriminate].
  destruct ((lo <=? u) && (u <=? hi)) eqn:R; [|discriminate].
  intros H. inversion H; subst u. destruct (digit_val_inv c v E) as [Hd Hc].
  split; [exact Hd|]. split; [exact Hc|]. lia.
Qed.

Lemma two_digits_inv (l1 h1 l2 h2 : Z) (s : string) (v : Z) (rest : string) :
  In (v, rest) (two_digits l1 h1 l2 h2 s) ->
  exists a b,
    is_digit_value a /\ is_digit_value b /\ l1 <= a <= h1 /\ l2 <= b <= h2 /\
    v = 10 * a + b /\ s = String (digit_char a) (String (digit_char b) rest).
Proof.
  unfold two_digits. destruct s as [|c1 [|c2 r]]; try (intros []).
  destruct (in_range l1 h1 c1) as [a|] eqn:E1; [|intros []].
  destruct (in_range l2 h2 c2) as [b|] eqn:E2; [|intros []].
  intros [H|[]]. inversion H; subst.
  destruct (in_range_inv _ _ _ _ E1) as [Ha [-> Hra]].
  destruct (in_range_inv _ _ _ _ E2) as [Hb [-> Hrb]].
  exists a, b. unfold is_digit_value in *. repeat split; lia.
Qed.

Lemma one_digit_inv (lo hi : Z) (s : string) (v : Z) (rest : string) :
  In (v, rest) (one_digit lo hi s) ->
  is_digit_value v /\ lo <= v <= hi /\ s = String (digit_char v) rest.
Proof.
  unfold one_digit. destruct s as [|c r]; [intros []|].
  destruct (in_range lo hi c) as [a|] eqn:E; [|intros []].
  intros [H|[]]. inversion H; subst.
  destruct (in_range_inv _ _ _ _ E) as [Ha [-> Hra]].
  unfold is_digit_value in *. repeat split; lia.
Qed.

Lemma match_m_inv (s : string) (m : Z) (rest : string) :
  In (m, rest) (match_m s) -> exists ms, month_text ms m /\ s = ms +:+ rest.
Proof.
  unfold match_m. rewrite !in_app_iff. intros [H|[H|H]].
  - destruct (two_digits_inv _ _ _ _ _ _ _ H) as [a [b [Ha [Hb [Hra [Hrb [-> ->]]]]]]].
    eexists. split; [apply (month_two_digits a b Ha Hb); lia | reflexivity].
  - destruct (two_digits_inv _ _ _ _ _ _ _ H) as [a [b [Ha [Hb [Hra [Hrb [-> ->]]]]]]].
    eexists. split; [apply (month_two_digits a b Ha Hb); lia | reflexivity].
  - destruct (one_digit_inv _ _ _ _ _ H) as [Hv [Hr ->]].
    eexists. split; [apply (month_one_digit m Hr) | reflexivity].
Qed.

Lemma match_d_inv (s : string) (d : Z) (rest : string) :
  In (d, rest) (match_d s) -> exists ds, day_text ds d /\ s = ds +:+ rest.
Proof.
  unfold match_d. rewrite !in_app_iff. intros [H|[H|[H|[H|H]]]].
  - destruct (two_digits_inv _ _ _ _ _ _ _ H) as [a [b [Ha [Hb [Hra [Hrb [-> ->]]]]]]].
    eexists. split; [apply (day_two_digits a b Ha Hb); lia | reflexivity].
  - destruct (two_digits_inv _ _ _ _ _ _ _ H) as [a [b [Ha [Hb [Hra [Hrb [-> ->]]]]]]].
    eexists. split; [apply (day_two_digits a b Ha Hb); unfold is_digit_value in *; lia
                    | reflexivity].
  - destruct (two_digits_inv _ _ _ _ _ _ _ H) as [a [b [Ha [Hb [Hra [Hrb [-> ->]]]]]]].
    eexists. split; [apply (day_two_digits a b Ha Hb); lia | reflexivity].
  - destruct (one_digit_inv _ _ _ _ _ H) as [Hv [Hr ->]].
    eexists. split; [apply (day_one_digit d Hr) | reflexivity].
  - unfold space_digit in H. destruct s as [|c r]; [destruct H|].
    destruct (Ascii.eqb_spec c " ") as [->|Hne].
    + destruct (one_digit_inv _ _ _ _ _ H) as [Hv [Hr ->]].
      eexists. split; [apply (day_space_digit d Hr) | reflexivity].
    + exfalso. destruct c as [[] [] [] [] [] [] [] []]; try (destruct H); congruence.
Qed.

Lemma expect_dash_inv (s r : string) : expect_dash s = Some r -> s = String "-" r.
Proof.
  unfold expect_dash. destruct s as [|c s']; [discriminate|].
  destruct (Ascii.eqb_spec c "-") as [->|Hne].
  - intros H. inversion H. reflexivity.
  - destruct c as [[] [] [] [] [] [] [] []]; try discriminate; congruence.
Qed.

Lemma first_md_inv (ms : list (Z * string)) (m d : Z) (rest : string) :
  first_md ms = Some (m, d, rest) ->
  exists r r', In (m, r) ms /\ expect_dash r = Some r' /\ In (d, rest) (match_d r').
Proof.
  induction ms as [|[m0 r0] ms IH]; [discriminate|]. cbn [first_md].
  destruct (expect_dash r0) as [r'|] eqn:E.
  - destruct (match_d r') as [|[d0 rest0] tl] eqn:D.
    + intros H. destruct (IH H) as [r [r1 [Hin H']]]. exists r, r1. split; [right; exact Hin|exact H'].
    + intros H. inversion H; subst. exists r0, r'. split; [left; reflexivity|].
      split; [exact E|]. rewrite D. left. reflexivity.
  - intros H. destruct (IH H) as [r [r1 [Hin H']]]. exists r, r1. split; [right; exact Hin|exact H'].
Qed.

Lemma match_Y_inv (s : string) (y : Z) (rest : string) :
  match_Y s = Some (y, rest) -> exists ys, year_text ys y /\ s = ys +:+ rest.
Proof.
  unfold match_Y. destruct s as [|a [|b [|c [|d r]]]]; try discriminate.
  destruct (digit_val a) as [va|] eqn:Ea; [|discriminate].
  destruct (digit_val b) as [vb|] eqn:Eb; [|discriminate].
  destruct (digit_val c) as [vc|] eqn:Ec; [|discriminate].
  destruct (digit_val d) as [vd|] eqn:Ed; [|discriminate].
  intros H. inversion H; subst.
  destruct (digit_val_inv _ _ Ea) as [Ha ->]. destruct (digit_val_inv _ _ Eb) as [Hb ->].
  destruct (digit_val_inv _ _ Ec) as [Hc ->]. destruct (digit_val_inv _ _ Ed) as [Hd ->].
  eexists. split; [apply (year_four_digits va vb vc vd); assumption | reflexivity].
Qed.

Lemma append_cons (c : ascii) (s r : string) : String c s +:+ r = String c (s +:+ r).
Proof. reflexivity. Qed.

Lemma append_nil_l (r : string) : EmptyString +:+ r = r.
Proof. reflexivity. Qed.

Ltac decide_ranges :=
  repeat match goal with
         | |- context [if ?c then _ else _] =>
             first [ replace c with true by (unfold is_digit_value in *; lia)
                   | replace c with false by (unfold is_digit_value in *; lia) ]
         end.

Lemma match_Y_complete (ys : string) (y : Z) (rest : string) :
  year_text ys y -> match_Y (ys +:+ rest) = Some (y, rest).
Proof.
  intros [a b c d Ha Hb Hc Hd]. rewrite !append_cons, !append_nil_l. unfold match_Y.
  rewrite !digit_val_digit_char by assumption. reflexivity.
Qed.

Lemma match_d_complete (ds : string) (d : Z) :
  day_text ds d -> exists tl, match_d ds = (d, EmptyString) :: tl.
Proof.
  intros [v Hv | v Hv | a b Ha Hb Hr]; unfold match_d.
  - assert (Hd : is_digit_value v) by (unfold is_digit_value; lia).
    unfold two_digits, one_digit. rewrite in_range_digit_char by exact Hd.
    decide_ranges. cbn [app]. eexists. reflexivity.
  - assert (Hd : is_digit_value v) by (unfold is_digit_value; lia).
    unfold space_digit, two_digits, one_digit.
    change (in_range 3 3 " ") with (@None Z). change (in_range 1 2 " ") with (@None Z).
    change (in_range 0 0 " ") with (@None Z). change (in_range 1 9 " ") with (@None Z).
    cbn [app]. rewrite in_range_digit_char by exact Hd.
    decide_ranges. eexists. reflexivity.
  - unfold two_digits, one_digit. rewrite !in_range_digit_char by assumption.
    unfold is_digit_value in *.
    assert (Ha' : a = 0 \/ a = 1 \/ a = 2 \/ a = 3) by lia.
    destruct Ha' as [-> | [-> | [-> | ->]]]; cbn [Z.leb Z.compare andb];
      decide_ranges; cbn [app]; eexists; reflexivity.
Qed.

Lemma first_md_complete (ms ds : string) (m d : Z) :
  month_text ms m -> day_text ds d ->
  first_md (match_m (ms +:+ "-" +:+ ds)) = Some (m, d, EmptyString).
Proof.
  intros Hm Hd. destruct (match_d_complete ds d Hd) as [tl Htl].
  destruct Hm as [v Hv | a b Ha Hb Hr]; rewrite !append_cons, !append_nil_l;
    unfold match_m.
  - assert (Hdv : is_digit_value v) by (unfold is_digit_value; lia).
    unfold two_digits, one_digit. rewrite !in_range_digit_char by exact Hdv.
    change (in_range 0 2 "-") with (@None Z). change (in_range 1 9 "-") with (@None Z).
    decide_ranges.
    destruct ((1 <=? v) && (v <=? 1)); destruct ((0 <=? v) && (v <=? 0));
      cbn [app first_md expect_dash]; rewrite Htl; reflexivity.
  - unfold two_digits, one_digit. rewrite !in_range_digit_char by assumption.
    unfold is_digit_value in *.
    assert (Ha' : a = 0 \/ a = 1) by lia.
    destruct Ha' as [-> | ->]; cbn [Z.leb Z.compare andb]; decide_ranges;
      cbn [app first_md expect_dash]; rewrite Htl; reflexivity.
Qed.

Lemma strptime_Ymd_spec (s : string) (d : date) :
  strptime_Ymd s = Ok d <-> date_text s d.
Proof.
  unfold strptime_Ymd, regex_match. split.
  - destruct (match_Y s) as [[y r]|] eqn:EY; [|discriminate].
    destruct (expect_dash r) as [r'|] eqn:E1; [|discriminate].
    destruct (first_md (match_m r')) as [[[m dd] rest]|] eqn:EM; [|discriminate].
    destruct rest; [|discriminate].
    unfold PyDate.new. destruct (PyDate.valid (mkdate y m dd)) eqn:Hv; [|discriminate].
    intros H. inversion H; subst d. clear H.
    destruct (match_Y_inv _ _ _ EY) as [ys [Hys ->]].
    apply expect_dash_inv in E1. subst r.
    destruct (first_md_inv _ _ _ _ EM) as [r2 [r3 [Hin [E2 Hd]]]].
    destruct (match_m_inv _ _ _ Hin) as [ms [Hms ->]].
    apply expect_dash_inv in E2. subst r2.
    destruct (match_d_inv _ _ _ Hd) as [ds [Hds ->]].
    exists ys, ms, ds. rewrite append_nil_r.
    split; [reflexivity|]. repeat split; assumption.
  - intros [ys [ms [ds [-> [Hy [Hm [Hd Hv]]]]]]].
    rewrite (match_Y_complete ys (year d) _ Hy).
    change ("-" +:+ ms +:+ "-" +:+ ds) with (String "-" (ms +:+ "-" +:+ ds)).
    cbn [expect_dash].
    rewrite (first_md_complete ms ds _ _ Hm Hd).
    unfold PyDate.new. destruct d as [y m dd]. cbn [year month day] in *.
    rewrite Hv. reflexivity.
Qed.

Lemma strptime_Ymd_raises_ValueError (s : string) (e : exn) :
  strptime_Ymd s = Raise e -> exn_cls e = ValueError.
Proof.
  unfold strptime_Ymd, PyDate.new.
  destruct (regex_match s) as [[[[y m] d] rest]|].
  - destruct rest.
    + destruct (PyDate.valid _); [discriminate|]. intros H. inversion H. reflexivity.
    + intros H. inversion H. reflexivity.
  - intros H. inversion H. reflexivity.
Qed.

Lemma parse_date_nonempty (today : date) (s : string) :
  s <> "" ->
  parse_date today (Some s) =
    match strptime_Ymd s with
    | Ok d => Ok d
    | Raise _ => Raise (invalid_format s)
    end.
Proof.
  intros Hne. unfold parse_date. destruct s as [|c s]; [congruence|].
  destruct (strptime_Ymd (String c s)) as [d|e] eqn:E; [reflexivity|].
  rewrite (strptime_Ymd_raises_ValueError _ _ E). reflexivity.
Qed.

(** *** The parser on any text *)

Lemma ascii_digit_digit (lo hi v : Z) :
  is_digit_value v ->
  ascii_digit lo hi (digit v) = if (lo <=? v) && (v <=? hi) then Some v else None.
Proof.
  intros Hv. unfold is_digit_value in Hv. unfold ascii_digit, digit.
  replace (Z.of_N (48 + Z.to_N v) - 48) with v by lia.
  replace (0 <=? v) with true by lia. replace (v <=? 9) with true by lia.
  reflexivity.
Qed.

Lemma ascii_digit_inv (lo hi : Z) (c : N) (v : Z) :
  ascii_digit lo hi c = Some v -> is_digit_value v /\ c = digit v /\ lo <= v <= hi.
Proof.
  unfold ascii_digit, digit, is_digit_value.
  destruct ((0 <=? Z.of_N c - 48) && (Z.of_N c - 48 <=? 9) && (lo <=? Z.of_N c - 48)
            && (Z.of_N c - 48 <=? hi)) eqn:E; [|discriminate].
  intros H. inversion H; subst v. lia.
Qed.

Lemma decimal_value_digit (decimal : N -> option Z) (v : Z) :
  is_digit_value v -> decimal_value decimal (digit v) = Some v.
Proof.
  intros Hv. unfold decimal_value.
  replace (digit v <? 128)%N with true
    by (unfold digit, is_digit_value in *; symmetry; apply N.ltb_lt; lia).
  rewrite (ascii_digit_digit 0 9 v Hv).
  unfold is_digit_value in Hv. replace ((0 <=? v) && (v <=? 9)) with true by lia.
  reflexivity.
Qed.

Lemma two_ascii_digits_inv (l1 h1 l2 h2 : Z) (s : text) (v : Z) (rest : text) :
  In (v, rest) (two_ascii_digits l1 h1 l2 h2 s) ->
  exists a b,
    is_digit_value a /\ is_digit_value b /\ l1 <= a <= h1 /\ l2 <= b <= h2 /\
    v = 10 * a + b /\ s = digit a :: digit b :: rest.
Proof.
  unfold two_ascii_digits. destruct s as [|c1 [|c2 r]]; try (intros []).
  destruct (ascii_digit l1 h1 c1) as [a|] eqn:E1; [|intros []].
  destruct (ascii_digit l2 h2 c2) as [b|] eqn:E2; [|intros []].
  intros [H|[]]. inversion H; subst.
  destruct (ascii_digit_inv _ _ _ _ E1) as [Ha [-> Hra]].
  destruct (ascii_digit_inv _ _ _ _ E2) as [Hb [-> Hrb]].
  exists a, b. unfold is_digit_value in *. repeat split; lia.
Qed.

Lemma ascii_digit_then_decimal_inv (decimal : N -> option Z) (l1 h1 : Z) (s : text)
    (v : Z) (rest : text) :
  In (v, rest) (ascii_digit_then_decimal decimal l1 h1 s) ->
  exists a c vc,
    l1 <= a <= h1 /\ is_digit_value a /\ decimal_value decimal c = Some vc /\
    v = 10 * a + vc /\ s = digit a :: c :: rest.
Proof.
  unfold ascii_digit_then_decimal. destruct s as [|c1 [|c2 r]]; try (intros []).
  destruct (ascii_digit l1 h1 c1) as [a|] eqn:E1; [|intros []].
  destruct (decimal_value decimal c2) as [b|] eqn:E2; [|intros []].
  intros [H|[]]. inversion H; subst.
  destruct (ascii_digit_inv _ _ _ _ E1) as [Ha [-> Hra]].
  exists a, c2, b. unfold is_digit_value in *. repeat split; try assumption; lia.
Qed.

Lemma one_ascii_digit_inv (lo hi : Z) (s : text) (v : Z) (rest : text) :
  In (v, rest) (one_ascii_digit lo hi s) ->
  is_digit_value v /\ lo <= v <= hi /\ s = digit v :: rest.
Proof.
  unfold one_ascii_digit. destruct s as [|c r]; [intros []|].
  destruct (ascii_digit lo hi c) as [a|] eqn:E; [|intros []].
  intros [H|[]]. inversion H; subst.
  destruct (ascii_digit_inv _ _ _ _ E) as [Ha [-> Hra]].
  unfold is_digit_value in *. repeat split; lia.
Qed.

Lemma match_m_text_inv (s : text) (m : Z) (rest : text) :
  In (m, rest) (match_m_text s) -> exists ms, month_of_text ms m /\ s = ms ++ rest.
Proof.
  unfold match_m_text. rewrite !in_app_iff. intros [H|[H|H]].
  - destruct (two_ascii_digits_inv _ _ _ _ _ _ _ H) as [a [b [Ha [Hb [Hra [Hrb [-> ->]]]]]]].
    exists [digit a; digit b]. split; [apply (month_of_two a b Ha Hb); lia | reflexivity].
  - destruct (two_ascii_digits_inv _ _ _ _ _ _ _ H) as [a [b [Ha [Hb [Hra [Hrb [-> ->]]]]]]].
    exists [digit a; digit b]. split; [apply (month_of_two a b Ha Hb); lia | reflexivity].
  - destruct (one_ascii_digit_inv _ _ _ _ _ H) as [Hv [Hr ->]].
    exists [digit m]. split; [apply (month_of_one m Hr) | reflexivity].
Qed.

Lemma match_d_text_inv (decimal : N -> option Z) (s : text) (d : Z) (rest : text) :
  In (d, rest) (match_d_text decimal s) ->
  exists ds, day_of_text decimal ds d /\ s = ds ++ rest.
Proof.
  unfold match_d_text. rewrite !in_app_iff. intros [H|[H|[H|[H|H]]]].
  - destruct (two_ascii_digits_inv _ _ _ _ _ _ _ H) as [a [b [Ha [Hb [Hra [Hrb [-> ->]]]]]]].
    assert (a = 3) by lia. subst a.
    exists [digit 3; digit b]. split; [apply (day_of_thirty decimal b Hrb) | reflexivity].
  - destruct (ascii_digit_then_decimal_inv _ _ _ _ _ _ H)
      as [a [c [vc [Hra [Ha [Hc [-> ->]]]]]]].
    exists [digit a; c]. split; [apply (day_of_ten_or_twenty decimal a c vc Hra Hc) | reflexivity].
  - destruct (two_ascii_digits_inv _ _ _ _ _ _ _ H) as [a [b [Ha [Hb [Hra [Hrb [-> ->]]]]]]].
    assert (a = 0) by lia. subst a. replace (10 * 0 + b) with b by lia.
    exists [digit 0; digit b]. split; [apply (day_of_zero decimal b Hrb) | reflexivity].
  - destruct (one_ascii_digit_inv _ _ _ _ _ H) as [Hv [Hr ->]].
    exists [digit d]. split; [apply (day_of_one decimal d Hr) | reflexivity].
  - unfold space_then_digit in H. destruct s as [|c r]; [destruct H|].
    destruct (N.eqb_spec c 32) as [->|Hne]; [|destruct H].
    destruct (one_ascii_digit_inv _ _ _ _ _ H) as [Hv [Hr ->]].
    exists [space; digit d]. split; [apply (day_of_space decimal d Hr) | reflexivity].
Qed.

Lemma expect_dash_text_inv (s r : text) : expect_dash_text s = Some r -> s = hyphen :: r.
Proof.
  unfold expect_dash_text. destruct s as [|c s']; [discriminate|].
  destruct (N.eqb_spec c 45) as [->|Hne]; [|discriminate].
  intros H. inversion H. reflexivity.
Qed.

Lemma first_md_text_inv (decimal : N -> option Z) (ms : list (Z * text)) (m d : Z)
    (rest : text) :
  first_md_text decimal ms = Some (m, d, rest) ->
  exists r r',
    In (m, r) ms /\ expect_dash_text r = Some r' /\ In (d, rest) (match_d_text decimal r').
Proof.
  induction ms as [|[m0 r0] ms IH]; [discriminate|]. cbn [first_md_text].
  destruct (expect_dash_text r0) as [r'|] eqn:E.
  - destruct (match_d_text decimal r') as [|[d0 rest0] tl] eqn:D.
    + intros H. destruct (IH H) as [r [r1 [Hin H']]].
      exists r, r1. split; [right; exact Hin | exact H'].
    + intros H. inversion H; subst. exists r0, r'. split; [left; reflexivity|].
      split; [exact E|]. rewrite D. left. reflexivity.
  - intros H. destruct (IH H) as [r [r1 [Hin H']]].
    exists r, r1. split; [right; exact Hin | exact H'].
Qed.

Lemma match_Y_text_inv (decimal : N -> option Z) (s : text) (y : Z) (rest : text) :
  match_Y_text decimal s = Some (y, rest) ->
  exists ys, year_of_text decimal ys y /\ s = ys ++ rest.
Proof.
  unfold match_Y_text. destruct s as [|a [|b [|c [|d r]]]]; try discriminate.
  destruct (decimal_value decimal a) as [va|] eqn:Ea; [|discriminate].
  destruct (decimal_value decimal b) as [vb|] eqn:Eb; [|discriminate].
  destruct (decimal_value decimal c) as [vc|] eqn:Ec; [|discriminate].
  destruct (decimal_value decimal d) as [vd|] eqn:Ed; [|discriminate].
  intros H. inversion H; subst.
  exists [a; b; c; d]. split; [apply year_of_four; assumption | reflexivity].
Qed.

Lemma match_Y_text_complete (decimal : N -> option Z) (ys : text) (y : Z) (rest : text) :
  year_of_text decimal ys y -> match_Y_text decimal (ys ++ rest) = Some (y, rest).
Proof.
  intros [a b c d va vb vc vd Ha Hb Hc Hd]. cbn [app]. unfold match_Y_text.
  rewrite Ha, Hb, Hc, Hd. reflexivity.
Qed.

Lemma ascii_digit_space (lo hi : Z) : ascii_digit lo hi space = None.
Proof.
  unfold ascii_digit, space. cbn [Z.of_N Z.sub Z.add Z.opp Z.pos_sub Pos.double_pred_mask].
  reflexivity.
Qed.

Lemma ascii_digit_hyphen (lo hi : Z) : ascii_digit lo hi hyphen = None.
Proof. unfold ascii_digit, hyphen. reflexivity. Qed.

Lemma match_d_text_complete (decimal : N -> option Z) (ds : text) (d : Z) :
  day_of_text decimal ds d -> exists tl, match_d_text decimal ds = (d, []) :: tl.
Proof.
  intros [v Hv | v Hv | b Hb | a c vc Ha Hc | b Hb]; unfold match_d_text.
  - assert (Hd : is_digit_value v) by (unfold is_digit_value; lia).
    unfold two_ascii_digits, ascii_digit_then_decimal, one_ascii_digit.
    rewrite ascii_digit_digit by exact Hd.
    decide_ranges. cbn [app]. eexists. reflexivity.
  - assert (Hd : is_digit_value v) by (unfold is_digit_value; lia).
    unfold space_then_digit, two_ascii_digits, ascii_digit_then_decimal, one_ascii_digit.
    rewrite !ascii_digit_space. cbn [app]. change (space =? 32)%N with true. cbv iota.
    rewrite ascii_digit_digit by exact Hd.
    decide_ranges. eexists. reflexivity.
  - assert (H0 : is_digit_value 0) by (unfold is_digit_value; lia).
    assert (Hb' : is_digit_value b) by (unfold is_digit_value; lia).
    unfold two_ascii_digits, ascii_digit_then_decimal, one_ascii_digit.
    rewrite !(ascii_digit_digit _ _ 0 H0), !(ascii_digit_digit _ _ b Hb').
    cbn [Z.leb Z.compare andb]. decide_ranges. cbn [app]. eexists.
    replace (10 * 0 + b) with b by lia. reflexivity.
  - assert (Ha' : is_digit_value a) by (unfold is_digit_value; lia).
    unfold two_ascii_digits, ascii_digit_then_decimal, one_ascii_digit.
    rewrite !(ascii_digit_digit _ _ a Ha'), Hc.
    decide_ranges. cbn [app]. eexists. reflexivity.
  - assert (H3 : is_digit_value 3) by (unfold is_digit_value; lia).
    assert (Hb' : is_digit_value b) by (unfold is_digit_value; lia).
    unfold two_ascii_digits, ascii_digit_then_decimal, one_ascii_digit.
    rewrite !(ascii_digit_digit _ _ 3 H3), !(ascii_digit_digit _ _ b Hb').
    cbn [Z.leb Z.compare andb]. decide_ranges. cbn [app]. eexists.
    replace (10 * 3 + b) with (30 + b) by lia. reflexivity.
Qed.

Lemma first_md_text_complete (decimal : N -> option Z) (ms ds : text) (m d : Z) :
  month_of_text ms m -> day_of_text decimal ds d ->
  first_md_text decimal (match_m_text (ms ++ hyphen :: ds)) = Some (m, d, []).
Proof.
  intros Hm Hd. destruct (match_d_text_complete decimal ds d Hd) as [tl Htl].
  destruct Hm as [v Hv | a b Ha Hb Hr]; cbn [app]; unfold match_m_text.
  - assert (Hdv : is_digit_value v) by (unfold is_digit_value; lia).
    unfold two_ascii_digits, one_ascii_digit.
    rewrite !(ascii_digit_digit _ _ v Hdv), !ascii_digit_hyphen.
    decide_ranges.
    destruct ((1 <=? v) && (v <=? 1)); destruct ((0 <=? v) && (v <=? 0));
      cbn [app first_md_text expect_dash_text]; change (hyphen =? 45)%N with true;
      cbv iota; rewrite Htl; reflexivity.
  - unfold two_ascii_digits, one_ascii_digit.
    rewrite !(ascii_digit_digit _ _ a Ha), !(ascii_digit_digit _ _ b Hb).
    unfold is_digit_value in *.
    assert (Ha' : a = 0 \/ a = 1) by lia.
    destruct Ha' as [-> | ->]; cbn [Z.leb Z.compare andb]; decide_ranges;
      cbn [app first_md_text expect_dash_text]; change (hyphen =? 45)%N with true;
      cbv iota; rewrite Htl; reflexivity.
Qed.

Lemma strptime_Ymd_text_spec (decimal : N -> option Z) (s : text) (d : date) :
  strptime_Ymd_text decimal s = Some d <-> date_of_text decimal s d.
Proof.
  unfold strptime_Ymd_text, regex_match_text. split.
  - destruct (match_Y_text decimal s) as [[y r]|] eqn:EY; [|discriminate].
    destruct (expect_dash_text r) as [r'|] eqn:E1; [|discriminate].
    destruct (first_md_text decimal (match_m_text r')) as [[[m dd] rest]|] eqn:EM;
      [|discriminate].
    destruct rest; [|discriminate].
    unfold PyDate.new. destruct (PyDate.valid (mkdate y m dd)) eqn:Hv; [|discriminate].
    intros H. inversion H; subst d. clear H.
    destruct (match_Y_text_inv _ _ _ _ EY) as [ys [Hys ->]].
    apply expect_dash_text_inv in E1. subst r.
    destruct (first_md_text_inv _ _ _ _ _ EM) as [r2 [r3 [Hin [E2 Hd]]]].
    destruct (match_m_text_inv _ _ _ Hin) as [ms [Hms ->]].
    apply expect_dash_text_inv in E2. subst r2.
    destruct (match_d_text_inv _ _ _ _ Hd) as [ds [Hds ->]].
    exists ys, ms, ds. rewrite app_nil_r.
    split; [reflexivity|]. repeat split; assumption.
  - intros [ys [ms [ds [-> [Hy [Hm [Hd Hv]]]]]]].
    rewrite (match_Y_text_complete decimal ys (year d) _ Hy).
    cbn [app expect_dash_text]. change (hyphen =? 45)%N with true. cbv iota.
    rewrite (first_md_text_complete decimal ms ds _ _ Hm Hd).
    unfold PyDate.new. destruct d as [y m dd]. cbn [year month day] in *.
    rewrite Hv. reflexivity.
Qed.

(** *** The parser on strings is the parser on texts of code points 0..255 *)

Lemma codepoints_cons (a : ascii) (s : string) :
  codepoints (String a s) = N_of_ascii a :: codepoints s.
Proof. reflexivity. Qed.

Lemma codepoints_app (s r : string) : codepoints (s +:+ r) = codepoints s ++ codepoints r.
Proof.
  induction s as [|a s IH]; [reflexivity|].
  rewrite append_cons, !codepoints_cons, IH. reflexivity.
Qed.

Lemma codepoints_nil (s : string) : codepoints s = [] -> s = "".
Proof. destruct s; [reflexivity | discriminate]. Qed.

Lemma N_of_ascii_bound (a : ascii) : (N_of_ascii a < 256)%N.
Proof. destruct a as [[] [] [] [] [] [] [] []]; vm_compute; reflexivity. Qed.

Lemma ascii_digit_in_range (lo hi : Z) (a : ascii) :
  ascii_digit lo hi (N_of_ascii a) = in_range lo hi a.
Proof.
  unfold ascii_digit, in_range, digit_val.
  destruct ((48 <=? Z.of_N (N_of_ascii a)) && (Z.of_N (N_of_ascii a) <=? 57)) eqn:E.
  - replace (0 <=? Z.of_N (N_of_ascii a) - 48) with true by lia.
    replace (Z.of_N (N_of_ascii a) - 48 <=? 9) with true by lia. reflexivity.
  - destruct (0 <=? Z.of_N (N_of_ascii a) - 48) eqn:E1; [|reflexivity].
    destruct (Z.of_N (N_of_ascii a) - 48 <=? 9) eqn:E2; [|reflexivity]. lia.
Qed.

Section Latin1.

Variable decimal : N -> option Z.

(** No character of code point 128..255 is a decimal digit. *)
Hypothesis no_latin1_digit : forall c, (128 <= c < 256)%N -> decimal c = None.

Lemma decimal_value_digit_val (a : ascii) :
  decimal_value decimal (N_of_ascii a) = digit_val a.
Proof.
  unfold decimal_value. destruct (N.ltb_spec (N_of_ascii a) 128) as [Hlt|Hge].
  - rewrite ascii_digit_in_range. unfold in_range.
    destruct (digit_val a) as [v|] eqn:E; [|reflexivity].
    destruct (digit_val_inv a v E) as [Hv _]. unfold is_digit_value in Hv.
    replace ((0 <=? v) && (v <=? 9)) with true by lia. reflexivity.
  - rewrite no_latin1_digit by (split; [exact Hge | apply N_of_ascii_bound]).
    unfold digit_val.
    replace ((48 <=? Z.of_N (N_of_ascii a)) && (Z.of_N (N_of_ascii a) <=? 57)) with false
      by lia.
    reflexivity.
Qed.

Lemma match_Y_latin1 (s : string) :
  match_Y_text decimal (codepoints s) = option_map lift_rest (match_Y s).
Proof.
  destruct s as [|a [|b [|c [|d r]]]]; try reflexivity.
  rewrite !codepoints_cons. unfold match_Y_text, match_Y.
  rewrite !decimal_value_digit_val.
  destruct (digit_val a), (digit_val b), (digit_val c), (digit_val d); reflexivity.
Qed.

Lemma two_digits_latin1 (l1 h1 l2 h2 : Z) (s : string) :
  two_ascii_digits l1 h1 l2 h2 (codepoints s) = map lift_rest (two_digits l1 h1 l2 h2 s).
Proof.
  destruct s as [|a [|b r]]; try reflexivity.
  rewrite !codepoints_cons. unfold two_ascii_digits, two_digits.
  rewrite !ascii_digit_in_range.
  destruct (in_range l1 h1 a), (in_range l2 h2 b); reflexivity.
Qed.

Lemma digit_then_decimal_latin1 (l1 h1 : Z) (s : string) :
  ascii_digit_then_decimal decimal l1 h1 (codepoints s)
  = map lift_rest (two_digits l1 h1 0 9 s).
Proof.
  destruct s as [|a [|b r]]; try reflexivity.
  rewrite !codepoints_cons. unfold ascii_digit_then_decimal, two_digits.
  rewrite ascii_digit_in_range, decimal_value_digit_val.
  assert (E09 : in_range 0 9 b = digit_val b).
  { unfold in_range. destruct (digit_val b) as [v|] eqn:E; [|reflexivity].
    destruct (digit_val_inv b v E) as [Hv _]. unfold is_digit_value in Hv.
    replace ((0 <=? v) && (v <=? 9)) with true by lia. reflexivity. }
  rewrite E09.
  destruct (in_range l1 h1 a), (digit_val b); reflexivity.
Qed.

Lemma one_digit_latin1 (lo hi : Z) (s : string) :
  one_ascii_digit lo hi (codepoints s) = map lift_rest (one_digit lo hi s).
Proof.
  destruct s as [|a r]; try reflexivity.
  rewrite !codepoints_cons. unfold one_ascii_digit, one_digit.
  rewrite ascii_digit_in_range. destruct (in_range lo hi a); reflexivity.
Qed.

Lemma space_digit_latin1 (s : string) :
  space_then_digit (codepoints s) = map lift_rest (space_digit s).
Proof.
  destruct s as [|a r]; [reflexivity|].
  rewrite codepoints_cons. unfold space_then_digit, space_digit.
  destruct (Ascii.eqb_spec a " ") as [->|Hne].
  - change (N_of_ascii " " =? 32)%N with true. cbv iota. apply one_digit_latin1.
  - destruct (N.eqb_spec (N_of_ascii a) 32) as [E|_].
    + exfalso. apply Hne. rewrite <- (ascii_N_embedding a), E. reflexivity.
    + destruct a as [[] [] [] [] [] [] [] []]; try reflexivity. congruence.
Qed.

Lemma match_m_latin1 (s : string) :
  match_m_text (codepoints s) = map lift_rest (match_m s).
Proof.
  unfold match_m_text, match_m.
  rewrite !two_digits_latin1, one_digit_latin1, !map_app. reflexivity.
Qed.

Lemma match_d_latin1 (s : string) :
  match_d_text decimal (codepoints s) = map lift_rest (match_d s).
Proof.
  unfold match_d_text, match_d.
  rewrite !two_digits_latin1, digit_then_decimal_latin1, one_digit_latin1,
    space_digit_latin1, !map_app.
  reflexivity.
Qed.

Lemma expect_dash_latin1 (s : string) :
  expect_dash_text (codepoints s) = option_map codepoints (expect_dash s).
Proof.
  destruct s as [|a r]; [reflexivity|].
  rewrite codepoints_cons. unfold expect_dash_text, expect_dash.
  destruct (Ascii.eqb_spec a "-") as [->|Hne].
  - reflexivity.
  - destruct (N.eqb_spec (N_of_ascii a) 45) as [E|_].
    + exfalso. apply Hne. rewrite <- (ascii_N_embedding a), E. reflexivity.
    + destruct a as [[] [] [] [] [] [] [] []]; try reflexivity. congruence.
Qed.

Lemma first_md_latin1 (ms : list (Z * string)) :
  first_md_text decimal (map lift_rest ms)
  = option_map (fun x => (fst (fst x), snd (fst x), codepoints (snd x))) (first_md ms).
Proof.
  induction ms as [|[m r] ms IH]; [reflexivity|].
  cbn [map first_md_text first_md lift_rest fst snd].
  rewrite expect_dash_latin1. destruct (expect_dash r) as [r'|]; cbn [option_map].
  - rewrite match_d_latin1. destruct (match_d r') as [|[d rest] tl]; cbn [map].
    + exact IH.
    + reflexivity.
  - exact IH.
Qed.

Lemma strptime_Ymd_latin1 (s : string) :
  strptime_Ymd_text decimal (codepoints s) =
  match strptime_Ymd s with
  | Ok d => Some d
  | Raise _ => None
  end.
Proof.
  unfold strptime_Ymd_text, strptime_Ymd, regex_match_text, regex_match.
  rewrite match_Y_latin1. destruct (match_Y s) as [[y r]|]; cbn [option_map lift_rest fst snd];
    [|reflexivity].
  rewrite expect_dash_latin1. destruct (expect_dash r) as [r'|]; cbn [option_map];
    [|reflexivity].
  rewrite match_m_latin1, first_md_latin1.
  destruct (first_md (match_m r')) as [[[m d] rest]|]; cbn [option_map fst snd];
    [|reflexivity].
  destruct rest as [|a rest]; [|reflexivity].
  cbn [codepoints list_ascii_of_string map]. destruct (new y m d); reflexivity.
Qed.

Lemma parse_date_latin1 (today : date) (date_str : option string) :
  parse_date_text decimal today (option_map codepoints date_str)
  = as_parsed (parse_date today date_str).
Proof.
  destruct date_str as [s|]; [|reflexivity]. cbn [option_map].
  destruct (string_dec s "") as [->|Hne]; [reflexivity|].
  rewrite (parse_date_nonempty today s Hne).
  unfold parse_date_text.
  destruct (codepoints s) as [|c cs] eqn:Hc; [apply codepoints_nil in Hc; contradiction|].
  rewrite <- Hc. rewrite strptime_Ymd_latin1.
  destruct (strptime_Ymd s) as [d|e]; [reflexivity|].
  unfold as_parsed, invalid_format. cbn [exn_str].
  rewrite !codepoints_app. reflexivity.
Qed.

End Latin1.

(** C3, as the code has it, on every text (a list of code points) and for
    every content of the Unicode database beyond ASCII.  An absent or
    empty argument gives today's date.  A non-empty text gives a date
    exactly when it is a text of that date in the grammar [date_of_text]:
    four decimal digits of any script, a hyphen, the month in one or two
    ASCII digits, a hyphen, the day in one or two digits or a space and a
    digit, the three numbers forming a calendar date.  Every other
    non-empty text fails with "Invalid date format: <text>. Use
    YYYY-MM-DD".  So "2024-03-15" is read as that date and "03/15/2024"
    is refused.  On strings, whose characters are the code points 0..255
    (none of 128..255 being a decimal digit), [parse_date] is this
    parser. *)
Theorem parse_date_spec (decimal : N -> option Z) (today : date) :
  parse_date_text decimal today None = ParsedDate today /\
  parse_date_text decimal today (Some []) = ParsedDate today /\
  (forall s, s <> [] ->
     (forall d, parse_date_text decimal today (Some s) = ParsedDate d
                <-> date_of_text decimal s d) /\
     ((forall d, ~ date_of_text decimal s d) ->
      parse_date_text decimal today (Some s) = InvalidFormat (invalid_format_text s))) /\
  parse_date_text decimal today (Some (codepoints "2024-03-15"))
    = ParsedDate (mkdate 2024 3 15) /\
  parse_date_text decimal today (Some (codepoints "03/15/2024"))
    = InvalidFormat (codepoints "Invalid date format: 03/15/2024. Use YYYY-MM-DD") /\
  ((forall c, (128 <= c < 256)%N -> decimal c = None) ->
   forall date_str,
     parse_date_text decimal today (option_map codepoints date_str)
     = as_parsed (parse_date today date_str)).
Proof.
  split; [reflexivity|]. split; [reflexivity|].
  split; [|split; [reflexivity|split; [reflexivity|]]].
  - intros s Hne.
    assert (E : parse_date_text decimal today (Some s) =
                match strptime_Ymd_text decimal s with
                | Some d => ParsedDate d
                | None => InvalidFormat (invalid_format_text s)
                end)
      by (destruct s; [congruence | reflexivity]).
    rewrite E. split.
    + intros d. rewrite <- strptime_Ymd_text_spec.
      destruct (strptime_Ymd_text decimal s) as [d'|]; split; intros H;
        try discriminate; inversion H; reflexivity.
    + intros Hnone. destruct (strptime_Ymd_text decimal s) as [d|] eqn:Es; [|reflexivity].
      exfalso. apply (Hnone d). apply strptime_Ymd_text_spec. exact Es.
  - intros Hlatin date_str. apply parse_date_latin1. exact Hlatin.
Qed.

Lemma parse_date_spec_witness :
  let full_width_2024_1_15 : text :=
    [65298; 65296; 65298; 65300; 45; 49; 45; 49; 65301]%N in
  date_of_text fullwidth_digits full_width_2024_1_15 (mkdate 2024 1 15) /\
  parse_date_text fullwidth_digits (Sample.jan 3) (Some full_width_2024_1_15)
    = ParsedDate (mkdate 2024 1 15) /\
  parse_date_text fullwidth_digits (Sample.jan 3) (Some (codepoints "2024-3-5"))
    = ParsedDate (mkdate 2024 3 5) /\
  parse_date_text fullwidth_digits (Sample.jan 3) (Some [50; 48; 50; 52; 45; 65297; 45; 53]%N)
    = InvalidFormat (invalid_format_text [50; 48; 50; 52; 45; 65297; 45; 53]%N) /\
  parse_date (Sample.jan 3) (Some "2024-3-5") = Ok (mkdate 2024 3 5) /\
  parse_date_text fullwidth_digits (Sample.jan 3) (Some (codepoints "2024-02-30"))
    = as_parsed (parse_date (Sample.jan 3) (Some "2024-02-30")).
Proof.
  cbv zeta.
  assert (Ht : date_of_text fullwidth_digits
                 [65298; 65296; 65298; 65300; 45; 49; 45; 49; 65301]%N (mkdate 2024 1 15)).
  { exists [65298; 65296; 65298; 65300]%N, [49]%N, [49; 65301]%N.
    split; [reflexivity|].
    split; [exact (year_of_four fullwidth_digits 65298 65296 65298 65300 2 0 2 4
                     eq_refl eq_refl eq_refl eq_refl)|].
    split; [exact (month_of_one 1 ltac:(lia))|].
    split; [exact (day_of_ten_or_twenty fullwidth_digits 1 65301 5 ltac:(lia) eq_refl)
           | reflexivity]. }
  split; [exact Ht|].
  split.
  { apply (proj1 (proj1 (proj2 (proj2 (parse_date_spec fullwidth_digits (Sample.jan 3))))
                    [65298; 65296; 65298; 65300; 45; 49; 45; 49; 65301]%N
                    ltac:(discriminate))
                 (mkdate 2024 1 15)).
    exact Ht. }
  split; [reflexivity|]. split; [reflexivity|]. split; [reflexivity|].
  exact (proj2 (proj2 (proj2 (proj2 (proj2 (parse_date_spec fullwidth_digits (Sample.jan 3))))))
           ltac:(intros c [H1 H2]; unfold fullwidth_digits;
                 replace ((65296 <=? c) && (c <=? 65305))%N with false
                   by (symmetry; apply andb_false_iff; left; apply N.leb_gt; lia);
                 reflexivity)
           (Some "2024-02-30")).
Defined.

(** C3, as the claim words it: every text that is not of the exact shape
    YYYY-MM-DD is refused.  "2024-3-5" is not of that shape and is read as
    the fifth of March 2024. *)
Lemma parse_date_accepts_short_fields :
  ~ (forall today s, s <> "" -> exact_shape s = false ->
       parse_date today (Some s) = Raise (invalid_format s)).
Proof.
  intros H.
  specialize (H (Sample.jan 3) "2024-3-5" ltac:(discriminate) eq_refl).
  vm_compute in H. discriminate H.
Qed.

(** * Further properties of the code *)

(** ** The process state across calls *)

Lemma continues_refl (w : World) : continues w w.
Proof.
  unfold continues. split; [reflexivity|]. split; [reflexivity|].
  split; [exists []; rewrite app_nil_r; reflexivity|].
  split; [exists []; rewrite app_nil_r; reflexivity|].
  intros c Hc. split; [exact Hc | reflexivity].
Qed.

Lemma continues_trans (w1 w2 w3 : World) :
  continues w1 w2 -> continues w2 w3 -> continues w1 w3.
Proof.
  intros [Ht1 [He1 [[l1 Hl1] [[r1 Hr1] Hc1]]]] [Ht2 [He2 [[l2 Hl2] [[r2 Hr2] Hc2]]]].
  unfold continues. split; [congruence|]. split; [congruence|].
  split; [exists (l1 ++ l2); rewrite Hl2, Hl1, app_assoc; reflexivity|].
  split; [exists (r1 ++ r2); rewrite Hr2, Hr1, app_assoc; reflexivity|].
  intros c Hc. destruct (Hc1 c Hc) as [Hc' Hs']. destruct (Hc2 c Hc') as [Hc'' Hs''].
  split; [exact Hc'' | congruence].
Qed.

Lemma continues_log_fetches (ds : list date) (w : World) : continues w (log_fetches ds w).
Proof.
  unfold continues, log_fetches. cbn [today MFP_COOKIES stdout fetched _client].
  split; [reflexivity|]. split; [reflexivity|].
  split; [exists []; rewrite app_nil_r; reflexivity|].
  split; [exists ds; reflexivity|].
  intros c Hc. split; [exact Hc | reflexivity].
Qed.

Lemma log_fetch_log_fetches (d : date) (w : World) : log_fetch d w = log_fetches [d] w.
Proof. reflexivity. Qed.

Lemma log_fetches_nil (w : World) : log_fetches [] w = w.
Proof. unfold log_fetches. rewrite app_nil_r. destruct w; reflexivity. Qed.

Lemma log_fetches_app (ds1 ds2 : list date) (w : World) :
  log_fetches ds2 (log_fetches ds1 w) = log_fetches (ds1 ++ ds2) w.
Proof.
  unfold log_fetches. cbn [today MFP_COOKIES stdout fetched _client].
  rewrite app_assoc. reflexivity.
Qed.

(** The ranged fetch only appends requests to the log, for any dates. *)
Lemma get_date_range_from_requests (env : Collab) (self : MyFitnessPalClient) (end_date : date) :
  forall (n : nat) (current : date) (w : World),
    (range_measure end_date current < n)%nat ->
    exists ds,
      snd (get_date_range_from env self end_date current w) = log_fetches ds w.
Proof.
  induction n as [|n IH]; intros current w Hn; [lia|].
  rewrite get_date_range_from_eq.
  destruct (PyDate.leb current end_date) eqn:Hle.
  - unfold get_day. cbn [fst snd].
    destruct (add_one_day current) as [next|e] eqn:Hadd.
    + pose proof (add_one_day_measure end_date current next Hle Hadd) as Hm.
      destruct (IH next (log_fetch current w) ltac:(lia)) as [ds Hds].
      exists (current :: ds).
      destruct (get_date_range_from env self end_date next (log_fetch current w))
        as [[ys fin] w'].
      cbn [gen_cons snd] in *. rewrite Hds, log_fetch_log_fetches, log_fetches_app.
      reflexivity.
    + exists [current]. reflexivity.
  - exists []. cbn [snd]. rewrite log_fetches_nil. reflexivity.
Qed.

Lemma init_effect (env : Collab) (w : World) :
  snd (MyFitnessPalClient_init env w) = w \/
  exists line, snd (MyFitnessPalClient_init env w) = print line w.
Proof.
  unfold MyFitnessPalClient_init, bind, lift, ret, _load_cookies_from_env.
  destruct (MFP_COOKIES w) as [[|c s]|].
  - left. destruct (mfp_Client env None); reflexivity.
  - destruct (build_jar env (String c s)) as [jar|e].
    + left. destruct (jar_truthy (Some jar));
        [destruct (mfp_Client env (Some jar)) | destruct (mfp_Client env None)]; reflexivity.
    + right. exists (warning_of e). cbn [jar_truthy].
      destruct (mfp_Client env None); reflexivity.
  - left. destruct (mfp_Client env None); reflexivity.
Qed.

Lemma get_client_continues (env : Collab) (w : World) :
  continues w (snd (get_client env w)).
Proof.
  unfold get_client. destruct (_client w) as [c|] eqn:Hc; [apply continues_refl|].
  destruct (init_effect env w) as [H|[line H]];
    destruct (MyFitnessPalClient_init env w) as [[c|e] w']; cbn [snd] in *; subst w';
    unfold continues, set_client, print; cbn [today MFP_COOKIES stdout fetched _client];
    (split; [reflexivity|]); (split; [reflexivity|]);
    (split; [first [exists []; rewrite app_nil_r; reflexivity | eexists; reflexivity]|]);
    (split; [exists []; rewrite app_nil_r; reflexivity|]);
    intros c0 Hc0; congruence.
Qed.

Lemma get_client_result (env : Collab) (w : World) (r : res MyFitnessPalClient) (w1 : World) :
  get_client env w = (r, w1) ->
  match r with
  | Ok c => _client w1 = Some c
  | Raise _ => _client w1 = None /\ _client w = None
  end.
Proof.
  unfold get_client. destruct (_client w) as [c|] eqn:Hc.
  - intros H. inversion H; subst. exact Hc.
  - destruct (init_effect env w) as [H|[line H]];
      destruct (MyFitnessPalClient_init env w) as [[c|e] w']; cbn [snd] in *; subst w';
      intros H'; inversion H'; subst; try reflexivity; split; first [exact Hc | reflexivity].
Qed.

Lemma invoke_continues (env : Collab) (call : tool_call) (w : World) :
  continues w (snd (invoke env call w)).
Proof.
  rewrite invoke_try_tool. unfold try_tool.
  assert (H : continues w (snd (body_of env call w))).
  { destruct call; cbn [body_of];
      try (rewrite single_day_body_phases;
           destruct (parse_date (today w) date_arg) as [target_date|e];
             [|apply continues_refl];
           pose proof (get_client_continues env w) as Hc;
           destruct (get_client env w) as [[c|e] w1]; cbn [snd] in *; [|exact Hc];
           apply (continues_trans w w1); [exact Hc|];
           rewrite log_fetch_log_fetches;
           destruct (mfp_get_date env (client c) target_date);
             apply continues_log_fetches).
    rewrite date_range_summary_body_phases.
    destruct (parse_date (today w) (Some start_date)) as [start|e]; [|apply continues_refl].
    destruct (parse_date (today w) (Some end_date)) as [end_|e]; [|apply continues_refl].
    destruct (PyDate.gtb start end_); [apply continues_refl|].
    pose proof (get_client_continues env w) as Hc.
    destruct (get_client env w) as [[c|e] w1]; cbn [snd] in *; [|exact Hc].
    apply (continues_trans w w1); [exact Hc|].
    destruct (get_date_range_from_requests env c end_ (S (range_measure end_ start)) start w1
                ltac:(lia)) as [ds Hds].
    unfold get_date_range.
    destruct (get_date_range_from env c end_ start w1) as [[days [u|e]] w2];
      cbn [snd] in *; subst w2; apply continues_log_fetches. }
  destruct (body_of env call w) as [[output|e] w']; exact H.
Qed.

(** X2. Whatever calls are served and whatever the collaborators answer,
    the process state only moves forward: today's date and the cookie
    variable are not touched, standard output and the request log keep
    everything they held and only grow, and a client that exists is never
    replaced nor is anything printed once it exists. *)
Theorem calls_only_append (env : Collab) (calls : list tool_call) (w : World) :
  continues w (snd (run_calls env calls w)).
Proof.
  revert w. induction calls as [|call rest IH]; intros w; cbn [run_calls].
  - apply continues_refl.
  - pose proof (invoke_continues env call w) as H1.
    destruct (invoke env call w) as [r w1]. cbn [snd] in H1.
    specialize (IH w1). destruct (run_calls env rest w1) as [rs w2]. cbn [snd] in *.
    exact (continues_trans w w1 w2 H1 IH).
Qed.

(** X1. The client is built at most once.  When [get_client] returns a
    client, every later [get_client], whatever the collaborators have
    become, returns that client and changes nothing; when it raises, the
    global is still unset, so the next call builds again. *)
Theorem client_built_once (env : Collab) (w : World) (r : res MyFitnessPalClient) (w1 : World) :
  get_client env w = (r, w1) ->
  match r with
  | Ok c => forall env', get_client env' w1 = (Ok c, w1)
  | Raise _ => _client w1 = None
  end.
Proof.
  intros H. pose proof (get_client_result env w r w1 H) as Hr.
  destruct r as [c|e].
  - intros env'. unfold get_client. rewrite Hr. reflexivity.
  - exact (proj1 Hr).
Qed.

Lemma client_built_once_witness :
  get_client Sample.env Sample.w0
    = (Ok (mkClient (mkLibClient None)),
       set_client Sample.w0 (Some (mkClient (mkLibClient None)))) /\
  get_client Sample.env_no_credentials
      (set_client Sample.w0 (Some (mkClient (mkLibClient None))))
    = (Ok (mkClient (mkLibClient None)),
       set_client Sample.w0 (Some (mkClient (mkLibClient None)))).
Proof.
  split; [reflexivity|].
  exact (client_built_once Sample.env Sample.w0 _ _ eq_refl Sample.env_no_credentials).
Defined.

(** ** Dates: reading back what is printed *)

Lemma digit_cases (v : Z) :
  0 <= v <= 9 -> In v [0; 1; 2; 3; 4; 5; 6; 7; 8; 9].
Proof.
  intros H. cbn [In].
  assert (v = 0 \/ v = 1 \/ v = 2 \/ v = 3 \/ v = 4 \/ v = 5 \/ v = 6 \/ v = 7 \/
          v = 8 \/ v = 9) as C by lia.
  intuition auto.
Qed.

Lemma zfill4_digits (y : Z) :
  0 <= y <= 9999 -> PyStr.zfill 4 (PyStr.of_Z y) = four_digits y.
Proof.
  intros H.
  assert (Hall :
    forallb (fun a => forallb (fun b => forallb (fun c => forallb (fun d =>
      String.eqb (PyStr.zfill 4 (PyStr.of_Z (1000 * a + 100 * b + 10 * c + d)))
        (String (digit_char a) (String (digit_char b)
           (String (digit_char c) (String (digit_char d) EmptyString)))))
      [0; 1; 2; 3; 4; 5; 6; 7; 8; 9]) [0; 1; 2; 3; 4; 5; 6; 7; 8; 9])
      [0; 1; 2; 3; 4; 5; 6; 7; 8; 9]) [0; 1; 2; 3; 4; 5; 6; 7; 8; 9] = true)
    by (vm_compute; reflexivity).
  rewrite forallb_forall in Hall.
  specialize (Hall (y / 1000)
    ltac:(apply digit_cases; Z.to_euclidean_division_equations; lia)).
  rewrite forallb_forall in Hall.
  specialize (Hall (y / 100 mod 10)
    ltac:(apply digit_cases; Z.to_euclidean_division_equations; lia)).
  rewrite forallb_forall in Hall.
  specialize (Hall (y / 10 mod 10)
    ltac:(apply digit_cases; Z.to_euclidean_division_equations; lia)).
  rewrite forallb_forall in Hall.
  specialize (Hall (y mod 10)
    ltac:(apply digit_cases; Z.to_euclidean_division_equations; lia)).
  apply String.eqb_eq in Hall.
  replace (1000 * (y / 1000) + 100 * (y / 100 mod 10) + 10 * (y / 10 mod 10) + y mod 10)
    with y in Hall by (Z.to_euclidean_division_equations; lia).
  exact Hall.
Qed.

Lemma zfill2_digits (m : Z) :
  0 <= m <= 99 -> PyStr.zfill 2 (PyStr.of_Z m) = two_digit_text m.
Proof.
  intros H.
  assert (Hall :
    forallb (fun a => forallb (fun b =>
      String.eqb (PyStr.zfill 2 (PyStr.of_Z (10 * a + b)))
        (String (digit_char a) (String (digit_char b) EmptyString)))
      [0; 1; 2; 3; 4; 5; 6; 7; 8; 9]) [0; 1; 2; 3; 4; 5; 6; 7; 8; 9] = true)
    by (vm_compute; reflexivity).
  rewrite forallb_forall in Hall.
  specialize (Hall (m / 10) ltac:(apply digit_cases; Z.to_euclidean_division_equations; lia)).
  rewrite forallb_forall in Hall.
  specialize (Hall (m mod 10) ltac:(apply digit_cases; Z.to_euclidean_division_equations; lia)).
  apply String.eqb_eq in Hall.
  replace (10 * (m / 10) + m mod 10) with m in Hall
    by (Z.to_euclidean_division_equations; lia).
  exact Hall.
Qed.

Lemma year_text_four_digits (y : Z) : 0 <= y <= 9999 -> year_text (four_digits y) y.
Proof.
  intros H.
  assert (E : 1000 * (y / 1000) + 100 * (y / 100 mod 10) + 10 * (y / 10 mod 10) + y mod 10 = y)
    by (Z.to_euclidean_division_equations; lia).
  rewrite <- E at 2. unfold four_digits.
  apply year_four_digits; unfold is_digit_value; Z.to_euclidean_division_equations; lia.
Qed.

Lemma month_text_two_digits (m : Z) : 1 <= m <= 12 -> month_text (two_digit_text m) m.
Proof.
  intros H.
  assert (E : 10 * (m / 10) + m mod 10 = m) by (Z.to_euclidean_division_equations; lia).
  rewrite <- E at 2. unfold two_digit_text.
  apply month_two_digits; unfold is_digit_value; Z.to_euclidean_division_equations; lia.
Qed.

Lemma day_text_two_digits (d : Z) : 1 <= d <= 31 -> day_text (two_digit_text d) d.
Proof.
  intros H.
  assert (E : 10 * (d / 10) + d mod 10 = d) by (Z.to_euclidean_division_equations; lia).
  rewrite <- E at 2. unfold two_digit_text.
  apply day_two_digits; unfold is_digit_value; Z.to_euclidean_division_equations; lia.
Qed.

Lemma strftime_Ymd_date_text (d : date) :
  PyDate.valid d = true -> date_text (strftime_Ymd d) d.
Proof.
  intros Hv. pose proof (days_in_month_bounds (year d) (month d)) as Hdim.
  assert (Hy : 1 <= year d <= 9999) by (date_unfold; lia).
  assert (Hm : 1 <= month d <= 12) by (date_unfold; lia).
  assert (Hd : 1 <= day d <= 31) by (date_unfold; lia).
  exists (four_digits (year d)), (two_digit_text (month d)), (two_digit_text (day d)).
  split.
  - unfold strftime_Ymd.
    rewrite zfill4_digits by lia. rewrite !zfill2_digits by lia. reflexivity.
  - split; [apply year_text_four_digits; lia|].
    split; [apply month_text_two_digits; exact Hm|].
    split; [apply day_text_two_digits; exact Hd | exact Hv].
Qed.

(** X4. A calendar date of the year 1000 or later, printed as the range
    summary prints it ([strftime('%Y-%m-%d')]), is read back by the parser
    as the same date, whatever today is.  (For earlier years the width
    [%Y] prints with depends on the platform's C library.) *)
Theorem parse_date_reads_back_printed_dates (today d : date) :
  PyDate.valid d = true ->
  1000 <= year d ->
  parse_date today (Some (strftime_Ymd d)) = Ok d.
Proof.
  intros Hv _. pose proof (strftime_Ymd_date_text d Hv) as Ht.
  assert (Hne : strftime_Ymd d <> "").
  { destruct Ht as [ys [ms [ds [E [Hy _]]]]]. rewrite E.
    destruct Hy. discriminate. }
  rewrite (parse_date_nonempty today _ Hne).
  apply strptime_Ymd_spec in Ht. rewrite Ht. reflexivity.
Qed.

Lemma parse_date_reads_back_printed_dates_witness :
  PyDate.valid (mkdate 2024 2 9) = true /\
  strftime_Ymd (mkdate 2024 2 9) = "2024-02-09" /\
  parse_date (Sample.jan 3) (Some "2024-02-09") = Ok (mkdate 2024 2 9).
Proof.
  split; [reflexivity|]. split; [reflexivity|].
  exact (parse_date_reads_back_printed_dates (Sample.jan 3) (mkdate 2024 2 9) eq_refl
           ltac:(cbn; lia)).
Defined.

(** ** Splitting a range *)

Lemma gen_cons_app (ys1 ys2 : list Day) (r : list Day * res unit * World) :
  gen_cons ys1 (gen_cons ys2 r) = gen_cons (ys1 ++ ys2) r.
Proof. destruct r as [[ys fin] w]. cbn [gen_cons]. rewrite app_assoc. reflexivity. Qed.

Lemma get_date_range_from_split (env : Collab) (self : MyFitnessPalClient)
    (b c_ next : date) :
  PyDate.valid b = true -> PyDate.valid c_ = true ->
  PyDate.ltb b c_ = true -> add_one_day b = Ok next ->
  forall (n : nat) (a : date) (w : World),
    (range_measure b a < n)%nat ->
    PyDate.valid a = true -> PyDate.leb a b = true ->
    snd (fst (get_date_range_from env self b a w)) = Ok tt /\
    get_date_range_from env self c_ a w =
      gen_cons (fst (fst (get_date_range_from env self b a w)))
        (get_date_range_from env self c_ next (snd (get_date_range_from env self b a w))).
Proof.
  intros Hvb Hvc Hbc Hnext. induction n as [|n IH]; intros a w Hn Hva Hab; [lia|].
  assert (Hac : PyDate.leb a c_ = true).
  { clear - Hab Hbc. destruct a, b, c_. date_unfold. lia. }
  rewrite (get_date_range_from_eq env self b a w), (get_date_range_from_eq env self c_ a w).
  rewrite Hab, Hac. unfold get_day. cbn [fst snd].
  destruct (add_one_day_cases a Hva) as [[Hmax Hadd]|[a' [Hadd [Hva' [Hlt Hsucc]]]]].
  - exfalso. subst a. clear - Hab Hbc Hvb Hvc. destruct b as [yb mb db], c_ as [yc mc dc].
    pose proof (days_in_month_bounds yc mc). pose proof (days_in_month_bounds yb mb).
    date_unfold.
    destruct (Z.eq_dec mc 12) as [->|Hne]; [|lia].
    destruct (Z.eq_dec yc 9999) as [->|Hne]; [|lia].
    change (days_in_month 9999 12) with 31 in *. lia.
  - rewrite Hadd. pose proof (Hsucc b Hvb) as Hsb. rewrite Hab in Hsb.
    destruct (PyDate.eqb a b) eqn:Eab.
    + apply date_eqb_eq in Eab. subst b.
      assert (a' = next) by congruence. subst a'.
      rewrite (get_date_range_from_eq env self a next (log_fetch a w)).
      replace (PyDate.leb next a) with false
        by (clear - Hlt; destruct a, next; date_unfold; lia).
      cbn [gen_cons fst snd]. rewrite app_nil_r. split; reflexivity.
    + cbn [orb] in Hsb. symmetry in Hsb.
      pose proof (add_one_day_measure b a a' Hab Hadd) as Hm.
      destruct (IH a' (log_fetch a w) ltac:(lia) Hva' Hsb) as [Hfin Heq].
      rewrite Heq.
      destruct (get_date_range_from env self b a' (log_fetch a w)) as [[ys1 fin1] w1].
      cbn [gen_cons fst snd] in *. split; [exact Hfin|].
      rewrite gen_cons_app. reflexivity.
Qed.

(** X5. Fetching a range in two parts gives what fetching it whole gives.
    For calendar dates a <= b < c, the fetch of a..b returns normally, and
    followed by the fetch of the day after b up to c it yields the same
    days in the same order, finishes the same way and leaves the same
    process state as the fetch of a..c. *)
Theorem ranged_fetch_splits (env : Collab) (self : MyFitnessPalClient)
    (a b c_ : date) (w : World) :
  PyDate.valid a = true -> PyDate.valid b = true -> PyDate.valid c_ = true ->
  PyDate.leb a b = true -> PyDate.ltb b c_ = true ->
  exists next ys1 w1,
    add_one_day b = Ok next /\
    get_date_range env self a b w = (ys1, Ok tt, w1) /\
    forall ys2 fin w2,
      get_date_range env self next c_ w1 = (ys2, fin, w2) ->
      get_date_range env self a c_ w = (ys1 ++ ys2, fin, w2).
Proof.
  intros Hva Hvb Hvc Hab Hbc.
  destruct (add_one_day_cases b Hvb) as [[Hmax _]|[next [Hnext _]]].
  - exfalso. subst b. clear - Hbc Hvc. destruct c_ as [yc mc dc].
    pose proof (days_in_month_bounds yc mc). date_unfold.
    destruct (Z.eq_dec mc 12) as [->|Hne]; [|lia].
    destruct (Z.eq_dec yc 9999) as [->|Hne]; [|lia].
    change (days_in_month 9999 12) with 31 in *. lia.
  - destruct (get_date_range_from_split env self b c_ next Hvb Hvc Hbc Hnext
                (S (range_measure b a)) a w ltac:(lia) Hva Hab) as [Hfin Heq].
    unfold get_date_range.
    destruct (get_date_range_from env self b a w) as [[ys1 fin1] w1] eqn:E1.
    cbn [fst snd] in *. subst fin1.
    exists next, ys1, w1. split; [exact Hnext|]. split; [reflexivity|].
    intros ys2 fin w2 H2. rewrite Heq, H2. reflexivity.
Qed.

Lemma ranged_fetch_splits_witness :
  (PyDate.valid (Sample.jan 1) = true /\ PyDate.valid (Sample.jan 2) = true /\
   PyDate.valid (Sample.jan 5) = true /\
   PyDate.leb (Sample.jan 1) (Sample.jan 2) = true /\
   PyDate.ltb (Sample.jan 2) (Sample.jan 5) = true) /\
  exists ys1 w1 ys2 fin w2,
    get_date_range Sample.env (mkClient (mkLibClient None)) (Sample.jan 1) (Sample.jan 2)
      Sample.w0 = (ys1, Ok tt, w1) /\
    get_date_range Sample.env (mkClient (mkLibClient None)) (Sample.jan 3) (Sample.jan 5) w1
      = (ys2, fin, w2) /\
    get_date_range Sample.env (mkClient (mkLibClient None)) (Sample.jan 1) (Sample.jan 5)
      Sample.w0 = (ys1 ++ ys2, fin, w2) /\
    length ys1 = 1%nat /\ length ys2 = 3%nat.
Proof.
  split; [repeat split|].
  destruct (ranged_fetch_splits Sample.env (mkClient (mkLibClient None))
              (Sample.jan 1) (Sample.jan 2) (Sample.jan 5) Sample.w0
              eq_refl eq_refl eq_refl eq_refl eq_refl)
    as [next [ys1 [w1 [Hnext [H1 H2]]]]].
  assert (next = Sample.jan 3) by (vm_compute in Hnext; inversion Hnext; reflexivity).
  subst next.
  destruct (get_date_range Sample.env (mkClient (mkLibClient None)) (Sample.jan 3)
              (Sample.jan 5) w1) as [[ys2 fin] w2] eqn:E2.
  exists ys1, w1, ys2, fin, w2.
  split; [exact H1|]. split; [exact E2|]. split; [exact (H2 ys2 fin w2 eq_refl)|].
  assert (Hy1 : ys1 = fst (fst (get_date_range Sample.env (mkClient (mkLibClient None))
                                  (Sample.jan 1) (Sample.jan 2) Sample.w0)))
    by (rewrite H1; reflexivity).
  assert (Hw1 : w1 = snd (get_date_range Sample.env (mkClient (mkLibClient None))
                            (Sample.jan 1) (Sample.jan 2) Sample.w0))
    by (rewrite H1; reflexivity).
  assert (Hy2 : ys2 = fst (fst (get_date_range Sample.env (mkClient (mkLibClient None))
                                  (Sample.jan 3) (Sample.jan 5) w1)))
    by (rewrite E2; reflexivity).
  split; [rewrite Hy1 | rewrite Hy2, Hw1]; vm_compute; reflexivity.
Defined.

(** ** Exercise report *)

Lemma positive_Qeq (p q : Q) : (p == q)%Q -> positive p = positive q.
Proof.
  intros H. unfold positive, PyNum.Qltb. f_equal. apply Qleb_comp; [exact H | reflexivity].
Qed.

Lemma exercise_entry_step_spec (output : string) (c m : Q) (entry : Entry) :
  exists c' m',
    exercise_entry_step (output, c, m) entry = (output +:+ exercise_entry_text entry, c', m') /\
    (c' == c + burned_of entry)%Q /\ (m' == m + minutes_of entry)%Q.
Proof.
  unfold exercise_entry_step, exercise_entry_text, burned_of, minutes_of, dict_get.
  destruct (nutrition_information entry !! "minutes") as [mins|];
    [destruct (truthy mins) eqn:Hm|];
    (destruct (nutrition_information entry !! "calories burned") as [cal|];
      [destruct (truthy cal) eqn:Hc|]);
    cbn [truthy PyNum.is_zero Qnum Z.eqb negb PyStr.concat_all];
    eexists _, _;
    (split; [rewrite ?append_assoc, ?append_nil_r; reflexivity|]);
    try (unfold truthy in Hm; apply negb_false_iff in Hm; apply is_zero_Qeq in Hm);
    try (unfold truthy in Hc; apply negb_false_iff in Hc; apply is_zero_Qeq in Hc);
    split; try rewrite Hm; try rewrite Hc; ring.
Qed.

Lemma exercise_fold_spec (entries : list Entry) :
  forall output c m,
  exists c' m',
    fold_left exercise_entry_step entries (output, c, m)
      = (output +:+ PyStr.concat_all (map exercise_entry_text entries), c', m') /\
    (c' == c + total (map burned_of entries))%Q /\
    (m' == m + total (map minutes_of entries))%Q.
Proof.
  induction entries as [|e es IH]; intros output c m.
  - exists c, m. cbn [fold_left map PyStr.concat_all total fold_right].
    rewrite append_nil_r. split; [reflexivity|]. split; ring.
  - destruct (exercise_entry_step_spec output c m e) as [c1 [m1 [E [Hc Hm]]]].
    destruct (IH (output +:+ exercise_entry_text e) c1 m1) as [c2 [m2 [E2 [Hc2 Hm2]]]].
    exists c2, m2. cbn [fold_left map PyStr.concat_all]. rewrite E, E2.
    rewrite append_assoc. split; [reflexivity|].
    unfold total in *. cbn [fold_right].
    split; [rewrite Hc2, Hc | rewrite Hm2, Hm]; ring.
Qed.

(** X6. The exercise report of every day.  With no exercise entry at all
    (no category, or only empty ones) it is the one explanatory line.
    Otherwise it lists the entries of all categories in order, each with
    its duration and calories when they are there and not zero, and ends
    with a summary whose two lines appear exactly when the total is > 0;
    the totals are the sums over all entries of the [minutes] and
    [calories burned] fields, absent read as zero: the very numbers the
    daily summary shows as Duration and Calories Burned. *)
Theorem exercise_report (target_date : date) (day : Day) :
  let entries := all_exercise_entries day in
  let minutes := total (map minutes_of entries) in
  let burned := total (map burned_of entries) in
  format_daily_exercise target_date day =
    Ok ("# Exercise for " +:+ strftime_BdY target_date +:+ nl +:+ nl +:+
        match entries with
        | [] => "No exercise logged for this day." +:+ nl
        | _ =>
            PyStr.concat_all (map exercise_entry_text entries) +:+
            "## Summary" +:+ nl +:+
            (if Qlt_le_dec 0 minutes
             then "- **Total Duration**: " +:+ f0 minutes +:+ " minutes" +:+ nl
             else "") +:+
            (if Qlt_le_dec 0 burned
             then "- **Total Calories Burned**: " +:+ f0 burned +:+ " kcal" +:+ nl
             else "")
        end).
Proof.
  cbv zeta. unfold format_daily_exercise, all_exercise_entries.
  destruct (day_exercises day) as [|x xs] eqn:Hx.
  - cbn [flat_map]. rewrite ?append_assoc. reflexivity.
  - rewrite <- Hx. clear Hx.
    destruct (flat_map exercise_entries (day_exercises day)) as [|e es] eqn:He.
    + rewrite ?append_assoc. reflexivity.
    + rewrite <- He. clear He.
      set (entries := flat_map exercise_entries (day_exercises day)).
      destruct (exercise_fold_spec entries
                  ("# Exercise for " +:+ strftime_BdY target_date +:+ nl +:+ nl) 0%Q 0%Q)
        as [c [m [E [Hc Hm]]]].
      rewrite E.
      assert (Hc' : (c == total (map burned_of entries))%Q) by (rewrite Hc; ring).
      assert (Hm' : (m == total (map minutes_of entries))%Q) by (rewrite Hm; ring).
      rewrite (positive_Qeq _ _ Hc'), (positive_Qeq _ _ Hm').
      rewrite (f0_Qeq _ _ Hc'), (f0_Qeq _ _ Hm').
      f_equal.
      destruct (Qlt_le_dec 0 (total (map minutes_of entries))) as [H1|H1];
        destruct (Qlt_le_dec 0 (total (map burned_of entries))) as [H2|H2];
        repeat match goal with
               | H : (0 < ?q)%Q |- _ =>
                   apply positive_iff in H; rewrite H; clear H
               | H : (?q <= 0)%Q |- _ =>
                   let P := fresh in
                   destruct (positive q) eqn:P;
                     [apply positive_iff in P; exfalso; exact (Qlt_not_le _ _ P H)|];
                   clear H
               end;
        rewrite ?append_assoc, ?append_nil_r; reflexivity.
Qed.

(** ** Meals report: nothing that was logged is left out *)

Lemma startswith_cancel (a n s : string) :
  PyStr.startswith (a +:+ n) (a +:+ s) = PyStr.startswith n s.
Proof.
  induction a as [|c a IH].
  - rewrite !append_nil_l. reflexivity.
  - rewrite !append_cons. cbn [PyStr.startswith]. rewrite Ascii.eqb_refl. exact IH.
Qed.

Lemma startswith_nil (s : string) : PyStr.startswith "" s = true.
Proof. destruct s; reflexivity. Qed.

Lemma startswith_app (p s : string) : PyStr.startswith p (p +:+ s) = true.
Proof.
  rewrite <- (append_nil_r p) at 1. rewrite startswith_cancel. apply startswith_nil.
Qed.

Lemma startswith_app_l (n : string) :
  forall a b, PyStr.startswith n a = true -> PyStr.startswith n (a +:+ b) = true.
Proof.
  induction n as [|c n IH]; intros a b H.
  - apply startswith_nil.
  - destruct a as [|c' a]; [discriminate H|].
    rewrite append_cons. cbn [PyStr.startswith] in *.
    destruct (Ascii.eqb c c'); [apply IH; exact H | discriminate H].
Qed.

Lemma contains_unfold (n s : string) :
  PyStr.contains n s =
  PyStr.startswith n s ||
  match s with EmptyString => false | String _ s' => PyStr.contains n s' end.
Proof. destruct s; reflexivity. Qed.

Lemma contains_startswith (n s : string) :
  PyStr.startswith n s = true -> PyStr.contains n s = true.
Proof. intros H. rewrite contains_unfold, H. reflexivity. Qed.

Lemma contains_app_r (n a b : string) :
  PyStr.contains n b = true -> PyStr.contains n (a +:+ b) = true.
Proof.
  intros H. induction a as [|c a IH].
  - rewrite append_nil_l. exact H.
  - rewrite append_cons, contains_unfold, IH. apply orb_true_r.
Qed.

Lemma contains_app_l (n a b : string) :
  PyStr.contains n a = true -> PyStr.contains n (a +:+ b) = true.
Proof.
  induction a as [|c a IH]; intros H.
  - rewrite contains_unfold in H. rewrite orb_false_r in H.
    apply contains_startswith. apply (startswith_app_l n "" b H).
  - rewrite contains_unfold in H. apply orb_true_iff in H.
    destruct H as [H | H].
    + apply contains_startswith. apply startswith_app_l. exact H.
    + rewrite append_cons, contains_unfold, (IH H). apply orb_true_r.
Qed.

Lemma contains_refl (s : string) : PyStr.contains s s = true.
Proof.
  apply contains_startswith. rewrite <- (append_nil_r s) at 2. apply startswith_app.
Qed.

Lemma contains_concat_all (n p : string) (parts : list string) :
  In p parts -> PyStr.contains n p = true ->
  PyStr.contains n (PyStr.concat_all parts) = true.
Proof.
  intros Hin Hp. induction parts as [|q qs IH]; [destruct Hin|].
  cbn [PyStr.concat_all]. destruct Hin as [-> | Hin].
  - apply contains_app_l. exact Hp.
  - apply contains_app_r. apply IH. exact Hin.
Qed.

Lemma contains_trans_concat (n : string) (pre : list string) (p : string) (post : list string) :
  PyStr.contains n p = true ->
  PyStr.contains n (PyStr.concat_all (pre ++ p :: post)) = true.
Proof.
  intros H. apply (contains_concat_all n p); [|exact H].
  apply in_or_app. right. left. reflexivity.
Qed.

Lemma startswith_concat_all (l r : list string) :
  PyStr.startswith (PyStr.concat_all l) (PyStr.concat_all (l ++ r)) = true.
Proof.
  induction l as [|x l IH]; cbn [PyStr.concat_all app].
  - apply startswith_nil.
  - rewrite startswith_cancel. exact IH.
Qed.

Lemma format_meal_in_report (target_date : date) (day : Day) (meal : Meal) (n out : string) :
  In meal (day_meals day) ->
  PyStr.contains n (format_meal meal) = true ->
  format_daily_meals target_date day = Ok out ->
  PyStr.contains n out = true.
Proof.
  intros Hin Hn E. unfold format_daily_meals in E. inversion E as [E']. clear E E'.
  apply (contains_trans_concat n ["# Meals for "; strftime_BdY target_date; nl; nl] _ []).
  destruct (day_meals day) as [|m ms] eqn:Hm; [destruct Hin|].
  change (PyStr.contains n (PyStr.concat_all (map format_meal (m :: ms))) = true).
  apply (contains_concat_all n (format_meal meal)); [|exact Hn].
  apply in_map. exact Hin.
Qed.

(** X7. The meals report leaves out nothing that was logged.  It is
    always produced; for every meal of the day it contains the meal's
    heading with its calorie total, and for every food entry of that meal
    the entry's whole block (name, serving, calories, macros); a meal
    without entries is reported as such under its heading. *)
Theorem meals_report_complete (target_date : date) (day : Day) :
  exists out,
    format_daily_meals target_date day = Ok out /\
    forall meal, In meal (day_meals day) ->
      PyStr.contains
        (PyStr.concat_all
           [ "## "; meal_name meal; nl;
             "**Total**: "; f0 (dict_get (meal_totals meal) "calories" 0); " kcal" ])
        out = true /\
      (meal_entries meal = [] ->
       PyStr.contains
         (PyStr.concat_all
            [ "## "; meal_name meal; nl;
              "**Total**: "; f0 (dict_get (meal_totals meal) "calories" 0); " kcal";
              " ("; f0 (dict_get (meal_totals meal) "carbohydrates" 0); "C / ";
              f0 (dict_get (meal_totals meal) "fat" 0); "F / ";
              f0 (dict_get (meal_totals meal) "protein" 0); "P)"; nl; nl;
              "No foods logged in this meal."; nl ])
         out = true) /\
      forall entry, In entry (meal_entries meal) ->
        PyStr.contains
          (PyStr.concat_all
             [ "- **"; entry_name entry; "**"; nl;
               "  - Serving: "; entry_quantity entry; " "; entry_unit entry; nl;
               "  - Calories: ";
               f0 (dict_get (nutrition_information entry) "calories" 0); " kcal"; nl;
               "  - Macros: ";
               f0 (dict_get (nutrition_information entry) "carbohydrates" 0); "C / ";
               f0 (dict_get (nutrition_information entry) "fat" 0); "F / ";
               f0 (dict_get (nutrition_information entry) "protein" 0); "P"; nl ])
          out = true.
Proof.
  eexists. split; [reflexivity|].
  intros meal Hin. split; [|split].
  - apply (format_meal_in_report target_date day meal _ _ Hin); [|reflexivity].
    apply contains_startswith. unfold format_meal. cbv zeta.
    apply (startswith_concat_all
             [ "## "; meal_name meal; nl;
               "**Total**: "; f0 (dict_get (meal_totals meal) "calories" 0); " kcal" ]).
  - intros Hnone.
    apply (format_meal_in_report target_date day meal _ _ Hin); [|reflexivity].
    apply contains_startswith. unfold format_meal. cbv zeta. rewrite Hnone.
    cbn [PyStr.concat_all]. rewrite ?append_assoc.
    repeat rewrite startswith_cancel. apply startswith_nil.
  - intros entry Hentry.
    apply (format_meal_in_report target_date day meal _ _ Hin); [|reflexivity].
    unfold format_meal. cbv zeta.
    apply (contains_trans_concat _
             [ "## "; meal_name meal; nl;
               "**Total**: "; f0 (dict_get (meal_totals meal) "calories" 0); " kcal";
               " ("; f0 (dict_get (meal_totals meal) "carbohydrates" 0); "C / ";
               f0 (dict_get (meal_totals meal) "fat" 0); "F / ";
               f0 (dict_get (meal_totals meal) "protein" 0); "P)"; nl; nl ] _ []).
    destruct (meal_entries meal) as [|e es] eqn:He; [destruct Hentry|].
    apply contains_app_l.
    change (PyStr.contains (format_meal_entry entry)
              (PyStr.concat_all (map format_meal_entry (e :: es))) = true).
    apply (contains_concat_all _ (format_meal_entry entry)).
    + apply in_map. exact Hentry.
    + apply contains_refl.
Qed.

(** ** The cookies the loader builds, and where the client takes its credentials *)

Lemma dict_set_flat_map_In {K V A} (eqb : K -> K -> bool) (f : V -> list A)
    (k : K) (v : V) (d : list (K * V)) (a : A) :
  In a (f v) -> In a (flat_map (fun kv => f (snd kv)) (dict_set eqb k v d)).
Proof.
  intros H. induction d as [|[k' v'] d IH]; cbn [dict_set flat_map snd].
  - apply in_or_app. left. exact H.
  - destruct (eqb k' k); cbn [flat_map snd]; apply in_or_app;
      [left; exact H | right; exact IH].
Qed.

Lemma dict_set_flat_map_perm {K V A} (eqb : K -> K -> bool) (f : V -> list A) (dflt : V)
    (k : K) (v : V) (d : list (K * V)) (a : A) :
  f dflt = [] ->
  Permutation (f v) (a :: f (match dict_lookup eqb k d with Some x => x | None => dflt end)) ->
  Permutation (flat_map (fun kv => f (snd kv)) (dict_set eqb k v d))
              (a :: flat_map (fun kv => f (snd kv)) d).
Proof.
  intros Hd. induction d as [|[k' v'] d IH]; cbn [dict_set dict_lookup flat_map snd]; intros Hp.
  - rewrite Hd in Hp. rewrite app_nil_r. exact Hp.
  - destruct (eqb k' k); cbn [flat_map snd].
    + change (a :: f v' ++ flat_map (fun kv => f (snd kv)) d)
        with ((a :: f v') ++ flat_map (fun kv => f (snd kv)) d).
      apply Permutation_app_tail. exact Hp.
    + etransitivity; [apply Permutation_app_head; apply IH; exact Hp|].
      symmetry. apply Permutation_middle.
Qed.

Lemma dict_lookup_In {K V} (eqb : K -> K -> bool) (k : K) (d : list (K * V)) (v : V) :
  dict_lookup eqb k d = Some v -> exists k', In (k', v) d /\ eqb k' k = true.
Proof.
  induction d as [|[k' v'] d IH]; cbn [dict_lookup]; intros H; [discriminate|].
  destruct (eqb k' k) eqn:E.
  - inversion H; subst. exists k'. split; [left; reflexivity | exact E].
  - destruct (IH H) as [k0 [Hin Hk]]. exists k0. split; [right; exact Hin | exact Hk].
Qed.

Lemma dict_set_fresh {V} (k : string) (v : V) (d : list (string * V)) :
  ~ In k (map fst d) -> dict_set String.eqb k v d = d ++ [(k, v)].
Proof.
  induction d as [|[k' v'] d IH]; cbn [dict_set map fst app]; intros H; [reflexivity|].
  destruct (String.eqb_spec k' k) as [-> | Hne].
  - exfalso. apply H. left. reflexivity.
  - f_equal. apply IH. intros Hin. apply H. right. exact Hin.
Qed.

Lemma dict_set_In_self {V} (k : string) (v : V) (d : list (string * V)) :
  In (k, v) (dict_set String.eqb k v d).
Proof.
  induction d as [|[k' v'] d IH]; cbn [dict_set].
  - left. reflexivity.
  - destruct (String.eqb_spec k' k) as [-> | Hne].
    + left. reflexivity.
    + right. exact IH.
Qed.

Lemma jar_level_names (jar : CookieJar) (dom : string) (path : json) (n : string) :
  In n (map fst
          match dict_lookup json_key_eqb path
                  match dict_lookup String.eqb dom jar with
                  | Some paths => paths
                  | None => []
                  end
          with
          | Some names => names
          | None => []
          end) ->
  In n (jar_proj fst jar).
Proof.
  destruct (dict_lookup String.eqb dom jar) as [paths|] eqn:E1; [|intros []].
  destruct (dict_lookup json_key_eqb path paths) as [names|] eqn:E2; [|intros []].
  intros Hn.
  destruct (dict_lookup_In _ _ _ _ E1) as [d' [Hd _]].
  destruct (dict_lookup_In _ _ _ _ E2) as [p' [Hp _]].
  unfold jar_proj. apply in_flat_map. exists (d', paths). split; [exact Hd|].
  cbn [snd]. apply in_flat_map. exists (p', names). split; [exact Hp | exact Hn].
Qed.

Lemma set_cookie_ok (jar : CookieJar) (c : Cookie) :
  hashable (cookie_path c) = true -> exists jar', set_cookie jar c = Ok jar'.
Proof.
  intros H. unfold set_cookie. rewrite H. cbn [negb]. eexists. reflexivity.
Qed.

Lemma set_cookie_In (jar jar' : CookieJar) (c : Cookie) :
  set_cookie jar c = Ok jar' -> In c (jar_cookies jar').
Proof.
  unfold set_cookie. destruct (negb (hashable (cookie_path c))); [discriminate|].
  intros H. inversion H as [H']. clear H H'. unfold jar_cookies.
  apply (dict_set_flat_map_In String.eqb
           (fun paths : list (json * list (string * Cookie)) =>
              flat_map (fun pn => map snd (snd pn)) paths)).
  apply (dict_set_flat_map_In json_key_eqb
           (fun names : list (string * Cookie) => map snd names)).
  apply in_map_iff. exists (cookie_name c, c). split; [reflexivity|].
  apply dict_set_In_self.
Qed.

Lemma set_cookie_fresh {A} (g : string * Cookie -> A) (jar jar' : CookieJar) (c : Cookie) :
  ~ In (cookie_name c) (jar_proj fst jar) ->
  set_cookie jar c = Ok jar' ->
  Permutation (jar_proj g jar') (g (cookie_name c, c) :: jar_proj g jar).
Proof.
  intros Hfresh H. unfold set_cookie in H.
  destruct (negb (hashable (cookie_path c))); [discriminate|].
  inversion H as [H']. clear H H'. unfold jar_proj.
  apply (dict_set_flat_map_perm String.eqb
           (fun paths : list (json * list (string * Cookie)) =>
              flat_map (fun pn => map g (snd pn)) paths) []); [reflexivity|].
  apply (dict_set_flat_map_perm json_key_eqb
           (fun names : list (string * Cookie) => map g names) []); [reflexivity|].
  rewrite dict_set_fresh.
  - rewrite map_app. cbn [map]. symmetry. apply Permutation_cons_append.
  - intros Hin. apply Hfresh. apply (jar_level_names jar (cookie_domain c) (cookie_path c)).
    exact Hin.
Qed.

Lemma load_one_cookie_set (jar : CookieJar) (name : string) (data : json) :
  well_formed_entry data = true ->
  load_one_cookie jar name data = set_cookie jar (cookie_of_entry (name, data)) /\
  hashable (cookie_path (cookie_of_entry (name, data))) = true.
Proof.
  unfold load_one_cookie, well_formed_entry, cookie_of_entry, entry_field, text_or.
  destruct data as [| b | z | q | s | items | fields]; try discriminate.
  cbn [json_getitem json_get snd fst cookie_path].
  destruct (assoc_get "value" fields) as [value|]; [|discriminate]. cbn [res_bind].
  destruct (assoc_get "domain" fields) as [domain|]; cbn [res_bind].
  - destruct domain; try discriminate. cbn [json_startswith res_bind].
    destruct (assoc_get "path" fields) as [path|]; cbn [res_bind];
      destruct (assoc_get "secure" fields); cbn [res_bind Cookie_init json_lower];
      intros H; split; try reflexivity; exact H.
  - cbn [json_startswith res_bind].
    destruct (assoc_get "path" fields) as [path|]; cbn [res_bind];
      destruct (assoc_get "secure" fields); cbn [res_bind Cookie_init json_lower];
      intros H; split; try reflexivity; exact H.
Qed.

Lemma load_cookies_contents (items : list (string * json)) :
  forall jar,
  forallb (fun item => well_formed_entry (snd item)) items = true ->
  NoDup (map fst items) ->
  (forall n, In n (map fst items) -> ~ In n (jar_proj fst jar)) ->
  exists jar',
    load_cookies jar items = Ok jar' /\
    Permutation (jar_cookies jar') (jar_cookies jar ++ map cookie_of_entry items) /\
    Permutation (jar_proj fst jar') (jar_proj fst jar ++ map fst items).
Proof.
  induction items as [|[name data] rest IH]; intros jar Hwf Hnd Hfresh.
  - exists jar. cbn [load_cookies map]. rewrite !app_nil_r. repeat split; reflexivity.
  - cbn [forallb snd] in Hwf. apply andb_true_iff in Hwf. destruct Hwf as [Hwf1 Hwf2].
    cbn [map fst] in Hnd. inversion Hnd as [|x l Hnotin Hnd']; subst.
    destruct (load_one_cookie_set jar name data Hwf1) as [Hone Hhash].
    destruct (set_cookie_ok jar _ Hhash) as [jar1 Hset].
    assert (Hf1 : ~ In name (jar_proj fst jar))
      by (apply Hfresh; left; reflexivity).
    pose proof (set_cookie_fresh snd jar jar1 (cookie_of_entry (name, data)) Hf1 Hset) as Pc.
    pose proof (set_cookie_fresh fst jar jar1 (cookie_of_entry (name, data)) Hf1 Hset) as Pn.
    cbn [snd fst] in Pc, Pn.
    destruct (IH jar1 Hwf2 Hnd') as [jar' [Hload [Qc Qn]]].
    { intros n Hn Hin. apply (Permutation_in _ Pn) in Hin. destruct Hin as [<- | Hin].
      - apply Hnotin. apply list_elem_of_In. exact Hn.
      - apply (Hfresh n); [right; exact Hn | exact Hin]. }
    exists jar'. cbn [load_cookies]. rewrite Hone, Hset. cbn [res_bind].
    split; [exact Hload|]. split.
    + etransitivity; [exact Qc|]. cbn [map].
      etransitivity; [apply Permutation_app_tail; exact Pc|].
      cbn [app]. apply Permutation_middle.
    + etransitivity; [exact Qn|]. cbn [map fst].
      etransitivity; [apply Permutation_app_tail; exact Pn|].
      cbn [app]. apply Permutation_middle.
Qed.

Lemma load_cookies_keeps (items : list (string * json)) :
  forall jar jar', load_cookies jar items = Ok jar' ->
  (items <> [] \/ jar_cookies jar <> []) -> jar_cookies jar' <> [].
Proof.
  induction items as [|[name data] rest IH]; intros jar jar' H Hne.
  - cbn in H. inversion H; subst. destruct Hne as [Hne | Hne]; [congruence | exact Hne].
  - cbn [load_cookies] in H.
    pose proof (load_one_cookie_well_formed jar name data) as Hwf.
    destruct (load_one_cookie jar name data) as [jar1|e] eqn:E; [|discriminate H].
    cbn [res_bind] in H. apply (IH jar1 jar' H). right.
    destruct (load_one_cookie_set jar name data Hwf) as [Hone _].
    rewrite Hone in E. apply set_cookie_In in E. intros Hnil. rewrite Hnil in E. exact E.
Qed.

(** X8. Where the account client takes its credentials.  With no
    [MFP_COOKIES] variable, with an empty one, or with one that decodes to
    the empty mapping, the client is built from the browser's cookies and
    nothing is printed.  With a well-formed mapping of at least one cookie
    the client is built from the jar of these cookies, which is not empty;
    when the library refuses the jar the constructor raises what the
    library raised: it does not try the browser. *)
Theorem client_credentials_source (env : Collab) (w : World) :
  (MFP_COOKIES w = None -> MyFitnessPalClient_init env w = (from_browser env, w)) /\
  (MFP_COOKIES w = Some "" -> MyFitnessPalClient_init env w = (from_browser env, w)) /\
  (forall s, MFP_COOKIES w = Some s -> json_loads env s = Ok (JObj []) ->
     MyFitnessPalClient_init env w = (from_browser env, w)) /\
  (forall s items,
     MFP_COOKIES w = Some s -> s <> "" ->
     json_loads env s = Ok (JObj items) -> items <> [] ->
     well_formed_mapping (JObj items) = true ->
     exists jar,
       _load_cookies_from_env env w = (Ok (Some jar), w) /\
       jar_cookies jar <> [] /\
       MyFitnessPalClient_init env w = (from_jar env jar, w)).
Proof.
  unfold from_browser, from_jar.
  split; [|split; [|split]].
  - intros H. unfold MyFitnessPalClient_init, bind, lift, ret, _load_cookies_from_env.
    rewrite H. cbn [jar_truthy]. destruct (mfp_Client env None); reflexivity.
  - intros H. unfold MyFitnessPalClient_init, bind, lift, ret, _load_cookies_from_env.
    rewrite H. cbn [jar_truthy]. destruct (mfp_Client env None); reflexivity.
  - intros s H Hloads.
    unfold MyFitnessPalClient_init, bind, lift, ret, _load_cookies_from_env.
    rewrite H. destruct s as [|ch s].
    + cbn [jar_truthy]. destruct (mfp_Client env None); reflexivity.
    + unfold build_jar. rewrite Hloads. cbn [res_bind json_items load_cookies jar_truthy].
      cbn. destruct (mfp_Client env None); reflexivity.
  - intros s items H Hne Hloads Hitems Hwf.
    pose proof (load_cookies_from_env_nonempty env w s H Hne) as Hl.
    unfold build_jar in Hl. rewrite Hloads in Hl. cbn [res_bind json_items] in Hl.
    pose proof (load_cookies_well_formed items []) as Hok.
    cbn [well_formed_mapping] in Hwf.
    destruct (load_cookies [] items) as [jar|e] eqn:E; [|congruence].
    pose proof (load_cookies_keeps items [] jar E (or_introl Hitems)) as Hjar.
    exists jar. split; [exact Hl|]. split; [exact Hjar|].
    unfold MyFitnessPalClient_init, bind, lift, ret. rewrite Hl.
    unfold jar_truthy, jar_len.
    destruct (jar_cookies jar) as [|c cs]; [congruence|]. cbn [length Nat.eqb negb].
    destruct (mfp_Client env (Some jar)); reflexivity.
Qed.

Lemma client_credentials_source_witness :
  exists jar,
    _load_cookies_from_env Sample.env (Sample.world (Sample.jan 3) (Some Sample.cookies_text))
      = (Ok (Some jar), Sample.world (Sample.jan 3) (Some Sample.cookies_text)) /\
    jar_cookies jar <> [] /\
    MyFitnessPalClient_init Sample.env (Sample.world (Sample.jan 3) (Some Sample.cookies_text))
      = (from_jar Sample.env jar, Sample.world (Sample.jan 3) (Some Sample.cookies_text)).
Proof.
  apply (proj2 (proj2 (proj2
           (client_credentials_source Sample.env
              (Sample.world (Sample.jan 3) (Some Sample.cookies_text)))))
         Sample.cookies_text [("a", JObj [("value", JStr "x")])]).
  - reflexivity.
  - discriminate.
  - reflexivity.
  - discriminate.
  - reflexivity.
Defined.

(** X9. The cookies the loader builds.  When the variable holds a
    well-formed mapping (its names distinct, as the keys of a decoded JSON
    object are), the loader returns a jar that holds one cookie for each
    item and nothing else, and prints nothing.  The cookie of an item has
    the item's name and value; its domain is the given one in lower case,
    or [.myfitnesspal.com]; its path is the given one, or [/]; its secure
    flag is the given one, or false; its initial-dot flag says whether the
    given domain starts with a dot, and is false when no domain is given. *)
Theorem loaded_cookies (env : Collab) (w : World) (s : string) (items : list (string * json)) :
  MFP_COOKIES w = Some s -> s <> "" ->
  json_loads env s = Ok (JObj items) ->
  well_formed_mapping (JObj items) = true ->
  NoDup (map fst items) ->
  exists jar,
    _load_cookies_from_env env w = (Ok (Some jar), w) /\
    Permutation (jar_cookies jar) (map cookie_of_entry items).
Proof.
  intros H Hne Hloads Hwf Hnd.
  rewrite (load_cookies_from_env_nonempty env w s H Hne).
  unfold build_jar. rewrite Hloads. cbn [res_bind json_items].
  destruct (load_cookies_contents items [] Hwf Hnd) as [jar [Hload [Pc _]]].
  { intros n _ []. }
  exists jar. rewrite Hload. split; [reflexivity | exact Pc].
Qed.

Lemma loaded_cookies_witness :
  exists jar,
    _load_cookies_from_env
      (mkCollab
         (fun _ => Ok (JObj [ ("session", JObj [("value", JStr "abc"); ("domain", JStr "WWW.MyFitnessPal.com")]);
                              ("known_user", JObj [("value", JStr "1"); ("secure", JBool true)]) ]))
         (fun jar => Ok (mkLibClient jar)) Sample.remote)
      (Sample.world (Sample.jan 3) (Some "two cookies"))
      = (Ok (Some jar), Sample.world (Sample.jan 3) (Some "two cookies")) /\
    Permutation (jar_cookies jar)
      [ mkCookie 0 "session" (JStr "abc") false "www.myfitnesspal.com" true false
          (JStr "/") true (JBool false) true;
        mkCookie 0 "known_user" (JStr "1") false ".myfitnesspal.com" true false
          (JStr "/") true (JBool true) true ].
Proof.
  apply (loaded_cookies
           (mkCollab
              (fun _ => Ok (JObj [ ("session", JObj [("value", JStr "abc"); ("domain", JStr "WWW.MyFitnessPal.com")]);
                                   ("known_user", JObj [("value", JStr "1"); ("secure", JBool true)]) ]))
              (fun jar => Ok (mkLibClient jar)) Sample.remote)
           (Sample.world (Sample.jan 3) (Some "two cookies")) "two cookies"
           [ ("session", JObj [("value", JStr "abc"); ("domain", JStr "WWW.MyFitnessPal.com")]);
             ("known_user", JObj [("value", JStr "1"); ("secure", JBool true)]) ]).
  - reflexivity.
  - discriminate.
  - reflexivity.
  - reflexivity.
  - repeat (constructor; [rewrite list_elem_of_In; cbn; intuition discriminate|]).
    constructor.
Defined.

(** ** Export, then reload *)

Lemma dict_lookup_set {V} (k n : string) (v : V) (d : list (string * V)) :
  dict_lookup String.eqb n (dict_set String.eqb k v d) =
  if String.eqb k n then Some v else dict_lookup String.eqb n d.
Proof.
  induction d as [|[k' v'] d IH]; cbn [dict_set dict_lookup].
  - reflexivity.
  - destruct (String.eqb_spec k' k) as [-> | Hne]; cbn [dict_lookup].
    + destruct (String.eqb k n); reflexivity.
    + rewrite IH. destruct (String.eqb_spec k' n) as [-> | Hn]; [|reflexivity].
      destruct (String.eqb_spec k n) as [-> | _]; [congruence | reflexivity].
Qed.

Lemma dict_set_keys {V} (k x : string) (v : V) (d : list (string * V)) :
  In x (map fst (dict_set String.eqb k v d)) -> x = k \/ In x (map fst d).
Proof.
  induction d as [|[k' v'] d IH]; cbn [dict_set map fst].
  - intros [<- | []]. left. reflexivity.
  - destruct (String.eqb k' k); cbn [map fst].
    + intros H. right. exact H.
    + intros [<- | H]; [right; left; reflexivity|].
      destruct (IH H) as [-> | Hin]; [left; reflexivity | right; right; exact Hin].
Qed.

Lemma dict_set_NoDup {V} (k : string) (v : V) (d : list (string * V)) :
  NoDup (map fst d) -> NoDup (map fst (dict_set String.eqb k v d)).
Proof.
  induction d as [|[k' v'] d IH]; cbn [dict_set map fst]; intros H.
  - constructor; [|constructor]. intros Hin. inversion Hin.
  - inversion H as [|x l Hnotin Hnd]; subst.
    destruct (String.eqb_spec k' k) as [-> | Hne]; cbn [map fst].
    + constructor; assumption.
    + constructor; [|apply IH; exact Hnd].
      intros Hin. apply list_elem_of_In in Hin. apply dict_set_keys in Hin.
      destruct Hin as [-> | Hin]; [congruence|].
      apply Hnotin. apply list_elem_of_In. exact Hin.
Qed.

Lemma dict_lookup_Some_In {V} (k : string) (v : V) (d : list (string * V)) :
  dict_lookup String.eqb k d = Some v -> In (k, v) d.
Proof.
  intros H. destruct (dict_lookup_In _ _ _ _ H) as [k' [Hin Hk]].
  apply String.eqb_eq in Hk. subst. exact Hin.
Qed.

Lemma In_dict_lookup {V} (k : string) (v : V) (d : list (string * V)) :
  NoDup (map fst d) -> In (k, v) d -> dict_lookup String.eqb k d = Some v.
Proof.
  induction d as [|[k' v'] d IH]; cbn [map fst dict_lookup]; intros Hnd Hin; [destruct Hin|].
  inversion Hnd as [|x l Hnotin Hnd']; subst.
  destruct Hin as [Heq | Hin].
  - inversion Heq; subst. rewrite String.eqb_refl. reflexivity.
  - destruct (String.eqb_spec k' k) as [-> | Hne]; [|apply IH; assumption].
    exfalso. apply Hnotin. apply list_elem_of_In.
    apply in_map_iff. exists (k, v). split; [reflexivity | exact Hin].
Qed.

Lemma find_over_app {A} (f : A -> bool) (l1 l2 : list A) :
  find f (l1 ++ l2) = match find f l1 with Some x => Some x | None => find f l2 end.
Proof.
  induction l1 as [|a l1 IH]; cbn [app find]; [reflexivity|].
  destruct (f a); [reflexivity | exact IH].
Qed.

Lemma fold_build_lookup (cookies : list BrowserCookie) :
  forall (d : list (string * ExportedEntry)) (n : string),
  dict_lookup String.eqb n
    (fold_left
       (fun cookie_dict cookie =>
          dict_set String.eqb (bc_name cookie) (exported cookie) cookie_dict)
       cookies d) =
  match last_named n cookies with
  | Some b => Some (exported b)
  | None => dict_lookup String.eqb n d
  end.
Proof.
  unfold last_named.
  induction cookies as [|c cs IH]; intros d n; cbn [fold_left rev]; [reflexivity|].
  rewrite IH, find_over_app.
  destruct (find (fun b => String.eqb (bc_name b) n) (rev cs)); [reflexivity|].
  cbn [find]. rewrite dict_lookup_set.
  destruct (String.eqb (bc_name c) n); reflexivity.
Qed.

Lemma fold_build_NoDup (cookies : list BrowserCookie) :
  forall d : list (string * ExportedEntry),
  NoDup (map fst d) ->
  NoDup (map fst
    (fold_left
       (fun cookie_dict cookie =>
          dict_set String.eqb (bc_name cookie) (exported cookie) cookie_dict)
       cookies d)).
Proof.
  induction cookies as [|c cs IH]; intros d H; cbn [fold_left]; [exact H|].
  apply IH. apply dict_set_NoDup. exact H.
Qed.

Lemma build_cookie_dict_lookup (cookies : list BrowserCookie) (n : string) :
  dict_lookup String.eqb n (build_cookie_dict cookies) =
  option_map exported (last_named n cookies).
Proof.
  unfold build_cookie_dict. rewrite fold_build_lookup.
  destruct (last_named n cookies); reflexivity.
Qed.

Lemma build_cookie_dict_NoDup (cookies : list BrowserCookie) :
  NoDup (map fst (build_cookie_dict cookies)).
Proof. apply fold_build_NoDup. constructor. Qed.

Lemma last_named_name (n : string) (cookies : list BrowserCookie) (b : BrowserCookie) :
  last_named n cookies = Some b -> bc_name b = n.
Proof.
  unfold last_named. intros H. apply find_some in H. destruct H as [_ H].
  apply String.eqb_eq. exact H.
Qed.

Lemma reloaded_cookie_of_entry (b : BrowserCookie) :
  cookie_of_entry (bc_name b, entry_json (exported b)) = reloaded b.
Proof. reflexivity. Qed.

Lemma exported_mapping_well_formed (d : list (string * ExportedEntry)) :
  forallb (fun item => well_formed_entry (snd item))
    (map (fun item => (fst item, entry_json (snd item))) d) = true.
Proof.
  induction d as [|[n e] d IH]; [reflexivity|].
  cbn [map forallb snd fst]. rewrite IH. reflexivity.
Qed.

(** X10. What the export script saves, the server loads back.  Let the
    server's [MFP_COOKIES] hold a text that decodes to the mapping the
    script builds from the browser's cookies.  Then the loader returns a
    jar, prints nothing, and the jar holds exactly one cookie for each
    name among the browser's cookies: the last browser cookie of that
    name, with its value, path and secure flag, its domain in lower case,
    and the initial-dot flag of its domain. *)
Theorem export_then_load (env : Collab) (w : World)
    (cookies : list BrowserCookie) (s : string) :
  MFP_COOKIES w = Some s -> s <> "" ->
  json_loads env s = Ok (cookie_dict_json (build_cookie_dict cookies)) ->
  exists jar,
    _load_cookies_from_env env w = (Ok (Some jar), w) /\
    NoDup (map cookie_name (jar_cookies jar)) /\
    forall c,
      In c (jar_cookies jar) <->
      exists b, last_named (bc_name b) cookies = Some b /\ c = reloaded b.
Proof.
  intros H Hne Hloads.
  rewrite (load_cookies_from_env_nonempty env w s H Hne).
  unfold build_jar. rewrite Hloads. unfold cookie_dict_json. cbn [res_bind json_items].
  set (dict := build_cookie_dict cookies).
  set (items := map (fun item => (fst item, entry_json (snd item))) dict).
  assert (Hkeys : map fst items = map fst dict).
  { unfold items. rewrite map_map. apply map_ext. intros [n e]. reflexivity. }
  assert (Hnd : NoDup (map fst items))
    by (rewrite Hkeys; apply build_cookie_dict_NoDup).
  destruct (load_cookies_contents items [] (exported_mapping_well_formed dict) Hnd)
    as [jar [Hload [Pc _]]].
  { intros n _ []. }
  cbn [jar_cookies flat_map app] in Pc.
  exists jar. rewrite Hload. split; [reflexivity|]. split.
  - rewrite (Permutation_map cookie_name Pc). rewrite map_map.
    replace (map (fun x => cookie_name (cookie_of_entry x)) items) with (map fst items)
      by (apply map_ext; intros [n e]; reflexivity).
    exact Hnd.
  - intros c. split.
    + intros Hin. apply (Permutation_in _ Pc) in Hin.
      apply in_map_iff in Hin. destruct Hin as [[n j] [Hc Hitem]].
      unfold items in Hitem. apply in_map_iff in Hitem.
      destruct Hitem as [[n' e] [Heq Hd]]. cbn [fst snd] in Heq.
      inversion Heq; subst n' j. clear Heq.
      apply (In_dict_lookup n e dict (build_cookie_dict_NoDup cookies)) in Hd.
      unfold dict in Hd. rewrite build_cookie_dict_lookup in Hd.
      destruct (last_named n cookies) as [b|] eqn:Hb; [|discriminate Hd].
      cbn [option_map] in Hd. inversion Hd; subst e. clear Hd.
      pose proof (last_named_name n cookies b Hb) as Hname. subst n.
      exists b. split; [exact Hb|]. rewrite <- Hc. apply reloaded_cookie_of_entry.
    + intros [b [Hb ->]]. apply (Permutation_in _ (Permutation_sym Pc)).
      apply in_map_iff. exists (bc_name b, entry_json (exported b)).
      split; [apply reloaded_cookie_of_entry|].
      unfold items. apply in_map_iff. exists (bc_name b, exported b).
      split; [reflexivity|].
      apply dict_lookup_Some_In. unfold dict. rewrite build_cookie_dict_lookup, Hb.
      reflexivity.
Qed.

Lemma export_then_load_witness :
  exists jar,
    _load_cookies_from_env
      (mkCollab
         (fun _ => Ok (cookie_dict_json (build_cookie_dict
            [ mkBrowserCookie "session" "old" ".MyFitnessPal.com" "/" (JInt 1);
              mkBrowserCookie "known_user" "1" "www.myfitnesspal.com" "/" (JInt 0);
              mkBrowserCookie "session" "new" ".MyFitnessPal.com" "/" (JInt 1) ])))
         (fun jar => Ok (mkLibClient jar)) Sample.remote)
      (Sample.world (Sample.jan 3) (Some "exported"))
      = (Ok (Some jar), Sample.world (Sample.jan 3) (Some "exported")) /\
    NoDup (map cookie_name (jar_cookies jar)) /\
    forall c,
      In c (jar_cookies jar) <->
      exists b,
        last_named (bc_name b)
          [ mkBrowserCookie "session" "old" ".MyFitnessPal.com" "/" (JInt 1);
            mkBrowserCookie "known_user" "1" "www.myfitnesspal.com" "/" (JInt 0);
            mkBrowserCookie "session" "new" ".MyFitnessPal.com" "/" (JInt 1) ] = Some b /\
        c = reloaded b.
Proof.
  apply (export_then_load
           (mkCollab
              (fun _ => Ok (cookie_dict_json (build_cookie_dict
                 [ mkBrowserCookie "session" "old" ".MyFitnessPal.com" "/" (JInt 1);
                   mkBrowserCookie "known_user" "1" "www.myfitnesspal.com" "/" (JInt 0);
                   mkBrowserCookie "session" "new" ".MyFitnessPal.com" "/" (JInt 1) ])))
              (fun jar => Ok (mkLibClient jar)) Sample.remote)
           (Sample.world (Sample.jan 3) (Some "exported"))
           [ mkBrowserCookie "session" "old" ".MyFitnessPal.com" "/" (JInt 1);
             mkBrowserCookie "known_user" "1" "www.myfitnesspal.com" "/" (JInt 0);
             mkBrowserCookie "session" "new" ".MyFitnessPal.com" "/" (JInt 1) ]
           "exported").
  - reflexivity.
  - discriminate.
  - reflexivity.
Defined.

(** ** The export script *)

Lemma dict_set_not_nil {K V} (eqb : K -> K -> bool) (k : K) (v : V) (d : list (K * V)) :
  dict_set eqb k v d <> [].
Proof.
  destruct d as [|[k' v'] d]; cbn [dict_set]; [discriminate|].
  destruct (eqb k' k); discriminate.
Qed.

Lemma fold_build_not_nil (cookies : list BrowserCookie) :
  forall d : list (string * ExportedEntry),
  d <> [] ->
  fold_left
    (fun cookie_dict cookie =>
       dict_set String.eqb (bc_name cookie) (exported cookie) cookie_dict)
    cookies d <> [].
Proof.
  induction cookies as [|c cs IH]; intros d H; cbn [fold_left]; [exact H|].
  apply IH. apply dict_set_not_nil.
Qed.

Lemma build_cookie_dict_not_nil (c : BrowserCookie) (cs : list BrowserCookie) :
  build_cookie_dict (c :: cs) <> [].
Proof.
  unfold build_cookie_dict. cbn [fold_left]. apply fold_build_not_nil. apply dict_set_not_nil.
Qed.

Lemma print_key_cookies_effect (d : list (string * ExportedEntry)) (keys : list string) :
  forall sh,
  shell_files (fold_left (print_key_cookie d) keys sh) = shell_files sh /\
  exists lines, shell_stdout (fold_left (print_key_cookie d) keys sh) = shell_stdout sh ++ lines.
Proof.
  induction keys as [|k ks IH]; intros sh; cbn [fold_left].
  - split; [reflexivity|]. exists []. rewrite app_nil_r. reflexivity.
  - destruct (IH (print_key_cookie d sh k)) as [Hf [lines Hl]].
    rewrite Hf, Hl. unfold print_key_cookie.
    destruct (dict_lookup String.eqb k d) as [e|].
    + split; [reflexivity|]. cbn [shell_print shell_stdout].
      eexists. rewrite <- app_assoc. reflexivity.
    + split; [reflexivity|]. exists lines. reflexivity.
Qed.

(** X11. What the export script does to the machine it runs on.  It only
    adds to what the terminal shows.  When the browser's store cannot be
    read, or holds no cookie for the site, or the [.env] file cannot be
    opened, no file is touched: the result is the error raised, [False],
    and the error raised.  Otherwise the result is [True], the [.env] file
    holds two comment lines, an empty line and the single line
    [MFP_COOKIES=] followed by the encoded mapping, replacing what the
    file held before, and every other file is as it was. *)
Theorem export_to_env_outcome (ex : ExportEnv) (sh : Shell) :
  exists r sh' lines,
    export_cookies_to_env ex sh = (r, sh') /\
    shell_stdout sh' = shell_stdout sh ++ lines /\
    match browser_cookie3_load ex "myfitnesspal.com" with
    | Raise e => r = Raise e /\ shell_files sh' = shell_files sh
    | Ok [] => r = Ok false /\ shell_files sh' = shell_files sh
    | Ok cookies =>
        match open_for_writing ex (env_path ex) with
        | Raise e => r = Raise e /\ shell_files sh' = shell_files sh
        | Ok _ =>
            r = Ok true /\
            dict_lookup String.eqb (env_path ex) (shell_files sh') =
              Some (env_file_text
                      (json_dumps ex (cookie_dict_json (build_cookie_dict cookies)))) /\
            forall path, path <> env_path ex ->
              dict_lookup String.eqb path (shell_files sh') =
              dict_lookup String.eqb path (shell_files sh)
        end
    end.
Proof.
  unfold export_cookies_to_env. cbv zeta.
  destruct (browser_cookie3_load ex "myfitnesspal.com") as [cookies|e].
  2: { eexists _, _, _. split; [reflexivity|]. split; [reflexivity|]. split; reflexivity. }
  destruct cookies as [|c cs].
  { cbn [build_cookie_dict fold_left].
    eexists _, _, _. split; [reflexivity|]. cbn [shell_print shell_stdout shell_files].
    split; [rewrite <- app_assoc; reflexivity|]. split; reflexivity. }
  pose proof (build_cookie_dict_not_nil c cs) as Hne.
  destruct (build_cookie_dict (c :: cs)) as [|item dict] eqn:Hd; [congruence|].
  destruct (open_for_writing ex (env_path ex)) as [u|e].
  2: { eexists _, _, _. split; [reflexivity|]. cbn [shell_print shell_stdout shell_files].
       split; [rewrite <- app_assoc; reflexivity|]. split; reflexivity. }
  match goal with
  | |- context [fold_left (print_key_cookie ?d) ?keys ?sh0] =>
      destruct (print_key_cookies_effect d keys sh0) as [Hf [lines Hl]];
      set (sh6 := fold_left (print_key_cookie d) keys sh0) in *
  end.
  eexists _, _, _. split; [reflexivity|].
  cbn [shell_print shell_write shell_stdout shell_files] in *.
  rewrite Hl, Hf. split; [rewrite <- !app_assoc; reflexivity|].
  split; [reflexivity|]. split.
  - rewrite dict_lookup_set, String.eqb_refl. reflexivity.
  - intros path Hp. rewrite dict_lookup_set.
    destruct (String.eqb_spec (env_path ex) path) as [Heq | _]; [congruence | reflexivity].
Qed.
